(** * Stack Dash: collision resolver, gap/bridge subsystem and round state machine

    A shallow embedding of [games/stack_dash/player.py], [games/stack_dash/level.py]
    and [games/stack_dash/game.py], with the properties of the specification stated
    and proved over it.

    Modelling conventions.
    - Python objects mutated in place become records threaded through functions;
      a method that mutates [self] and returns a value returns a pair.
    - Python numbers that may be floats (positions, velocities) are
      rationals [Q]; integer-only attributes (counters, timers, score) are [Z].
      The modules [Player], [Level] and [Game] compute on them exactly. Where
      a property depends on the rounding of binary floating point (an edge
      pushed out by a half size and read back), it is stated over the module
      [Doubles], which reads [check_collision] again with every operation
      rounded to binary64.
    - [pygame.Rect] holds C ints. [pygame.colliderect] compares in [Z]; the
      module [CInt] compares with the sums wrapping at 2^31, for the property
      that reaches the end of that range.
    - Attributes assigned once in [__init__] and never reassigned (sizes,
      [speed], [gravity], [max_tiles], ...) are constants of the class's module.
    - Render-only animation counters (sprite frames, pulse size, flag frame,
      sprite surfaces) do not feed the simulation and are left out; the hover of
      a tile moves its rectangle and is kept.
    - Sound call-outs are recorded in a log carried by the game state. *)

From Stdlib Require Import ZArith QArith Qround Qabs Qminmax Qpower Bool List String
  Lia Lqa.
From Stdlib Require Qcanon.
Import ListNotations.
Open Scope Q_scope.

(** ** Numbers *)

(** Python's [a < b] on numbers. *)
Definition Qltb (a b : Q) : bool := negb (Qle_bool b a).

(** Python's four-argument [min]. *)
Definition min4 (a b c d : Q) : Q := Qmin (Qmin (Qmin a b) c) d.

(** ** The parts of pygame the simulation calls *)

Module pygame.

(** [pygame.Rect]: integer left, top, width, height. *)
Record Rect := mkRect { left : Z; top : Z; w : Z; h : Z }.

(** A float argument of [pygame.Rect(...)] is converted by a C cast,
    that is, truncated towards zero. *)
Definition to_int (q : Q) : Z := Z.quot (Qnum q) (Zpos (Qden q)).

Definition Rect_ (x y width height : Q) : Rect :=
  mkRect (to_int x) (to_int y) (to_int width) (to_int height).

(** [Rect.colliderect]: rectangles of zero width or height collide with
    nothing; otherwise strict overlap of the normalised extents. *)
Definition colliderect (A B : Rect) : bool :=
  if ((w A =? 0) || (h A =? 0) || (w B =? 0) || (h B =? 0))%Z then false
  else
    ((Z.min (left A) (left A + w A) <? Z.max (left B) (left B + w B)) &&
     (Z.min (top A) (top A + h A) <? Z.max (top B) (top B + h B)) &&
     (Z.max (left A) (left A + w A) >? Z.min (left B) (left B + w B)) &&
     (Z.max (top A) (top A + h A) >? Z.min (top B) (top B + h B)))%Z.

(** The keys the game reads, for [pygame.key.get_pressed()] and for
    [KEYDOWN] events. *)
Inductive Key :=
  K_LEFT | K_RIGHT | K_UP | K_a | K_d | K_w | K_p | K_SPACE | K_ESCAPE | K_other.

Definition Key_eqb (a b : Key) : bool :=
  match a, b with
  | K_LEFT, K_LEFT | K_RIGHT, K_RIGHT | K_UP, K_UP | K_a, K_a | K_d, K_d
  | K_w, K_w | K_p, K_p | K_SPACE, K_SPACE | K_ESCAPE, K_ESCAPE
  | K_other, K_other => true
  | _, _ => false
  end.

(** The snapshot returned by [pygame.key.get_pressed()]. *)
Definition Pressed := Key -> bool.

Inductive Event := QUIT | KEYDOWN (key : Key) | OTHER.

End pygame.

Module config.
Definition SCREEN_WIDTH : Z := 800.
Definition SCREEN_HEIGHT : Z := 600.
End config.

(** ** level.py: the entities *)

Module Platform.

Record t := mk { x : Q; y : Q; width : Q; height : Q }.

Definition get_rect (self : t) : pygame.Rect :=
  pygame.Rect_ (x self) (y self) (width self) (height self).

End Platform.

Module Tile.

Definition width : Z := 30.
Definition height : Z := 10.

Record t := mk {
  x : Q; y : Q; collected : bool;
  hover_offset : Q; hover_speed : Q; hover_range : Q; original_y : Q }.

(** [Tile(x, y)]; the two [random.uniform] draws are arguments. *)
Definition init (x y hover_speed hover_range : Q) : t :=
  mk x y false 0 hover_speed hover_range y.

Definition set_collected (self : t) (b : bool) : t :=
  mk (x self) (y self) b (hover_offset self) (hover_speed self)
     (hover_range self) (original_y self).

Section Hover.
(** [math.sin], taken as given. *)
Variable sin : Q -> Q.

Definition update (self : t) : t :=
  let hover_offset' := hover_offset self + hover_speed self in
  mk (x self) (original_y self + sin hover_offset' * hover_range self)
     (collected self) hover_offset' (hover_speed self) (hover_range self)
     (original_y self).
End Hover.

Definition get_rect (self : t) : pygame.Rect :=
  pygame.Rect_ (x self - inject_Z (width / 2)) (y self - inject_Z (height / 2))
               (inject_Z width) (inject_Z height).

End Tile.

Module PowerUp.

Inductive kind := speed | jump | magnet.

Definition radius : Z := 15.

Record t := mk { x : Q; y : Q; type : kind; collected : bool }.

Definition set_collected (self : t) (b : bool) : t :=
  mk (x self) (y self) (type self) b.

Definition get_rect (self : t) : pygame.Rect :=
  pygame.Rect_ (x self - inject_Z radius) (y self - inject_Z radius)
               (inject_Z (radius * 2)) (inject_Z (radius * 2)).

End PowerUp.

Module FinishLine.

Definition width : Z := 20.

Record t := mk { x : Q; y : Q; height : Q }.

Definition get_rect (self : t) : pygame.Rect :=
  pygame.Rect_ (x self) (y self) (inject_Z width) (height self).

End FinishLine.

(** ** player.py *)

Module Player.

Definition width : Z := 40.
Definition height : Z := 60.
Definition speed : Q := 5.
Definition jump_power : Q := -15.
Definition gravity : Q := 0.8.
Definition max_tiles : Z := 20.

Record t := mk {
  x : Q; y : Q; vel_x : Q; vel_y : Q;
  on_ground : bool; jump_safety : Z;
  tile_count : Z;
  speed_boost : bool; speed_boost_timer : Z;
  jump_boost : bool; jump_boost_timer : Z;
  tile_magnet : bool; tile_magnet_timer : Z;
  facing_right : bool }.

(** [Player(x, y)]. *)
Definition init (x y : Q) : t :=
  mk x y 0 0 true 0 0 false 0 false 0 false 0 true.

(** Assignments to one attribute. *)
Definition set_x (p : t) (v : Q) : t :=
  mk v (y p) (vel_x p) (vel_y p) (on_ground p) (jump_safety p) (tile_count p)
     (speed_boost p) (speed_boost_timer p) (jump_boost p) (jump_boost_timer p)
     (tile_magnet p) (tile_magnet_timer p) (facing_right p).
Definition set_y (p : t) (v : Q) : t :=
  mk (x p) v (vel_x p) (vel_y p) (on_ground p) (jump_safety p) (tile_count p)
     (speed_boost p) (speed_boost_timer p) (jump_boost p) (jump_boost_timer p)
     (tile_magnet p) (tile_magnet_timer p) (facing_right p).
Definition set_vel_x (p : t) (v : Q) : t :=
  mk (x p) (y p) v (vel_y p) (on_ground p) (jump_safety p) (tile_count p)
     (speed_boost p) (speed_boost_timer p) (jump_boost p) (jump_boost_timer p)
     (tile_magnet p) (tile_magnet_timer p) (facing_right p).
Definition set_vel_y (p : t) (v : Q) : t :=
  mk (x p) (y p) (vel_x p) v (on_ground p) (jump_safety p) (tile_count p)
     (speed_boost p) (speed_boost_timer p) (jump_boost p) (jump_boost_timer p)
     (tile_magnet p) (tile_magnet_timer p) (facing_right p).
Definition set_on_ground (p : t) (v : bool) : t :=
  mk (x p) (y p) (vel_x p) (vel_y p) v (jump_safety p) (tile_count p)
     (speed_boost p) (speed_boost_timer p) (jump_boost p) (jump_boost_timer p)
     (tile_magnet p) (tile_magnet_timer p) (facing_right p).
Definition set_jump_safety (p : t) (v : Z) : t :=
  mk (x p) (y p) (vel_x p) (vel_y p) (on_ground p) v (tile_count p)
     (speed_boost p) (speed_boost_timer p) (jump_boost p) (jump_boost_timer p)
     (tile_magnet p) (tile_magnet_timer p) (facing_right p).
Definition set_tile_count (p : t) (v : Z) : t :=
  mk (x p) (y p) (vel_x p) (vel_y p) (on_ground p) (jump_safety p) v
     (speed_boost p) (speed_boost_timer p) (jump_boost p) (jump_boost_timer p)
     (tile_magnet p) (tile_magnet_timer p) (facing_right p).
Definition set_speed_boost (p : t) (b : bool) (timer : Z) : t :=
  mk (x p) (y p) (vel_x p) (vel_y p) (on_ground p) (jump_safety p) (tile_count p)
     b timer (jump_boost p) (jump_boost_timer p)
     (tile_magnet p) (tile_magnet_timer p) (facing_right p).
Definition set_jump_boost (p : t) (b : bool) (timer : Z) : t :=
  mk (x p) (y p) (vel_x p) (vel_y p) (on_ground p) (jump_safety p) (tile_count p)
     (speed_boost p) (speed_boost_timer p) b timer
     (tile_magnet p) (tile_magnet_timer p) (facing_right p).
Definition set_tile_magnet (p : t) (b : bool) (timer : Z) : t :=
  mk (x p) (y p) (vel_x p) (vel_y p) (on_ground p) (jump_safety p) (tile_count p)
     (speed_boost p) (speed_boost_timer p) (jump_boost p) (jump_boost_timer p)
     b timer (facing_right p).
Definition set_facing_right (p : t) (v : bool) : t :=
  mk (x p) (y p) (vel_x p) (vel_y p) (on_ground p) (jump_safety p) (tile_count p)
     (speed_boost p) (speed_boost_timer p) (jump_boost p) (jump_boost_timer p)
     (tile_magnet p) (tile_magnet_timer p) v.

(** [jump]: the new player and the returned flag. *)
Definition jump (self : t) : t * bool :=
  if on_ground self then
    let jump_strength := jump_power in
    let jump_strength :=
      if jump_boost self then jump_strength * 1.3 else jump_strength in
    let self := set_vel_y self jump_strength in
    let self := set_on_ground self false in
    let self := set_y self (y self - 2) in
    let self := set_jump_safety self 10 in
    (self, true)
  else (self, false).

(** The speed computed at the head of [update]. *)
Definition base_speed (self : t) : Q :=
  let base_speed :=
    speed * (1 - inject_Z (tile_count self) / inject_Z (max_tiles * 2)) in
  if speed_boost self then base_speed * 1.5 else base_speed.

(** One countdown step of a power-up: [(flag, timer)]. *)
Definition tick (flag : bool) (timer : Z) : bool * Z :=
  if flag then
    let timer := (timer - 1)%Z in
    if (timer <=? 0)%Z then (false, timer) else (true, timer)
  else (flag, timer).

(** [update], with the keyboard snapshot it reads as argument. *)
Definition update (keys : pygame.Pressed) (self : t) : t :=
  let base_speed := base_speed self in
  let self := set_vel_x self 0 in
  let self :=
    if keys pygame.K_LEFT || keys pygame.K_a
    then set_facing_right (set_vel_x self (- base_speed)) false else self in
  let self :=
    if keys pygame.K_RIGHT || keys pygame.K_d
    then set_facing_right (set_vel_x self base_speed) true else self in
  let self :=
    if negb (on_ground self) then set_vel_y self (vel_y self + gravity)
    else self in
  let self :=
    if (keys pygame.K_SPACE || keys pygame.K_UP || keys pygame.K_w)
       && on_ground self
    then fst (jump self) else self in
  let self := set_x self (x self + vel_x self) in
  let self := set_y self (y self + vel_y self) in
  let self :=
    if (jump_safety self >? 0)%Z
    then set_jump_safety self (jump_safety self - 1)%Z else self in
  let self :=
    let '(b, n) := tick (speed_boost self) (speed_boost_timer self) in
    set_speed_boost self b n in
  let self :=
    let '(b, n) := tick (jump_boost self) (jump_boost_timer self) in
    set_jump_boost self b n in
  let self :=
    let '(b, n) := tick (tile_magnet self) (tile_magnet_timer self) in
    set_tile_magnet self b n in
  self.

Definition add_tile (self : t) : t :=
  if (tile_count self <? max_tiles)%Z
  then set_tile_count self (tile_count self + 1)%Z else self.

(** [remove_tile]: the new player and the returned flag. *)
Definition remove_tile (self : t) : t * bool :=
  if (tile_count self >? 0)%Z
  then (set_tile_count self (tile_count self - 1)%Z, true)
  else (self, false).

Definition fall (self : t) : t := set_vel_y self 15.

Definition activate_speed_boost (self : t) : t := set_speed_boost self true 300.
Definition activate_jump_boost (self : t) : t := set_jump_boost self true 300.
Definition activate_tile_magnet (self : t) : t := set_tile_magnet self true 300.

Definition get_rect (self : t) : pygame.Rect :=
  pygame.Rect_ (x self - inject_Z (width / 2)) (y self - inject_Z (height / 2))
               (inject_Z width) (inject_Z height).

(** [handle_event]: a jump key pressed while on the ground jumps. *)
Definition handle_event (event : pygame.Event) (self : t) : t :=
  match event with
  | pygame.KEYDOWN key =>
      if (pygame.Key_eqb key pygame.K_SPACE || pygame.Key_eqb key pygame.K_UP
          || pygame.Key_eqb key pygame.K_w) && on_ground self
      then fst (jump self) else self
  | _ => self
  end.

End Player.

(** ** level.py: the level *)

(** The face of a platform against which the general pass resolved a
    collision, named as the comments of [check_collision] name them. *)
Inductive Side := FromBelow | FromLeft | FromRight | FromAbove.

Module Level.

Definition level_width : Q := 5000.
Definition ground_height : Q := inject_Z (config.SCREEN_HEIGHT - 50).

Record t := mk {
  platforms : list Platform.t;
  tiles : list Tile.t;
  power_ups : list PowerUp.t;
  finish_line : option FinishLine.t }.

Definition set_platforms (self : t) (v : list Platform.t) : t :=
  mk v (tiles self) (power_ups self) (finish_line self).
Definition set_tiles (self : t) (v : list Tile.t) : t :=
  mk (platforms self) v (power_ups self) (finish_line self).
Definition set_power_ups (self : t) (v : list PowerUp.t) : t :=
  mk (platforms self) (tiles self) v (finish_line self).

(** The two entities [_generate_level] places without a random draw. *)
Definition ground : Platform.t := Platform.mk 0 ground_height level_width 50.
Definition finish : FinishLine.t :=
  FinishLine.mk (level_width - 300) (ground_height - 200) 200.

(** [Level()]: [_generate_level] appends the ground, then the randomly
    placed platforms, tiles and power-ups (arguments here), and sets the
    finish line. *)
Definition init (generated : list Platform.t) (tiles : list Tile.t)
    (power_ups : list PowerUp.t) : t :=
  mk (ground :: generated) tiles power_ups (Some finish).

Section Hover.
Variable sin : Q -> Q.

(** [update]: only the tiles' hover changes a rectangle. *)
Definition update (self : t) : t :=
  set_tiles self (map (Tile.update sin) (tiles self)).
End Hover.

(** The loop of [check_tile_collection]: the first uncollected tile whose
    rectangle meets the player's is flagged and returned. *)
Fixpoint collect_first (player_rect : pygame.Rect) (tiles : list Tile.t)
    : list Tile.t * option Tile.t :=
  match tiles with
  | [] => ([], None)
  | tile :: rest =>
      if negb (Tile.collected tile)
         && pygame.colliderect player_rect (Tile.get_rect tile)
      then let tile := Tile.set_collected tile true in (tile :: rest, Some tile)
      else let '(rest, r) := collect_first player_rect rest in (tile :: rest, r)
  end.

Definition check_tile_collection (self : t) (player : Player.t)
    : t * option Tile.t :=
  let player_rect := Player.get_rect player in
  let '(tiles, r) := collect_first player_rect (tiles self) in
  (set_tiles self tiles, r).

Fixpoint collect_first_powerup (player_rect : pygame.Rect)
    (power_ups : list PowerUp.t) : list PowerUp.t * option PowerUp.kind :=
  match power_ups with
  | [] => ([], None)
  | power_up :: rest =>
      if negb (PowerUp.collected power_up)
         && pygame.colliderect player_rect (PowerUp.get_rect power_up)
      then (PowerUp.set_collected power_up true :: rest,
            Some (PowerUp.type power_up))
      else let '(rest, r) := collect_first_powerup player_rect rest in
           (power_up :: rest, r)
  end.

Definition check_powerup_collision (self : t) (player : Player.t)
    : t * option PowerUp.kind :=
  let player_rect := Player.get_rect player in
  let '(power_ups, r) := collect_first_powerup player_rect (power_ups self) in
  (set_power_ups self power_ups, r).

Definition check_gap (self : t) (player : Player.t) : bool :=
  if (Player.jump_safety player >? 0)%Z then false
  else if Qltb 2.0 (Player.vel_y player)
          && negb (Player.on_ground player)
          && Qltb 0.5 (Qabs (Player.vel_x player))
  then
    let ray_rect :=
      pygame.Rect_ (Player.x player - 5) (Player.y player) 10 100 in
    if existsb (fun platform =>
                  pygame.colliderect ray_rect (Platform.get_rect platform))
               (platforms self)
    then false else true
  else false.

Definition build_bridge (self : t) (x y : Q) : t :=
  let bridge := Platform.mk (x - 20) (y + 20) 40 10 in
  set_platforms self (platforms self ++ [bridge]).

Definition check_finish_line (self : t) (player : Player.t) : bool :=
  match finish_line self with
  | Some finish_line =>
      if pygame.colliderect (Player.get_rect player)
                            (FinishLine.get_rect finish_line)
      then true else false
  | None => false
  end.

(** *** [check_collision] *)

(** The test of the first loop: the player is directly above [platform]. *)
Definition above (player : Player.t) (platform : Platform.t) : bool :=
  Qltb (Qabs (Player.x player - (Platform.x platform + Platform.width platform / 2)))
       (Platform.width platform / 2 + inject_Z Player.width / 2)
  && Qle_bool (Platform.y platform - 5)
              (Player.y player + inject_Z Player.height / 2)
  && Qle_bool (Player.y player + inject_Z Player.height / 2)
              (Platform.y platform + 10)
  && Qle_bool 0 (Player.vel_y player).

(** "Land on platform". *)
Definition land (player : Player.t) (platform : Platform.t) : Player.t :=
  let player :=
    Player.set_y player (Platform.y platform - inject_Z Player.height / 2) in
  let player := Player.set_vel_y player 0 in
  Player.set_on_ground player true.

(** The first loop returns at the first platform that passes the test. *)
Fixpoint first_above (player : Player.t) (platforms : list Platform.t)
    : option Platform.t :=
  match platforms with
  | [] => None
  | platform :: rest =>
      if above player platform then Some platform else first_above player rest
  end.

(** The branch the second loop takes at [platform], if any. [player_rect]
    is the rectangle taken on entry; [player] carries the moves made at
    earlier platforms. *)
Definition hit_side (player_rect : pygame.Rect) (player : Player.t)
    (platform : Platform.t) : option Side :=
  if pygame.colliderect player_rect (Platform.get_rect platform) then
    let left_overlap :=
      (Platform.x platform + Platform.width platform)
      - (Player.x player - inject_Z Player.width / 2) in
    let right_overlap :=
      (Player.x player + inject_Z Player.width / 2) - Platform.x platform in
    let top_overlap :=
      (Platform.y platform + Platform.height platform)
      - (Player.y player - inject_Z Player.height / 2) in
    let bottom_overlap :=
      (Player.y player + inject_Z Player.height / 2) - Platform.y platform in
    let min_overlap :=
      min4 left_overlap right_overlap top_overlap bottom_overlap in
    if Qeq_bool min_overlap bottom_overlap && Qltb (Player.vel_y player) 0
    then Some FromBelow
    else if Qeq_bool min_overlap left_overlap && Qltb 0 (Player.vel_x player)
    then Some FromLeft
    else if Qeq_bool min_overlap right_overlap && Qltb (Player.vel_x player) 0
    then Some FromRight
    else if Qeq_bool min_overlap top_overlap && Qltb 0 (Player.vel_y player)
    then Some FromAbove
    else None
  else None.

(** The assignments of the branch. *)
Definition push_out (player : Player.t) (platform : Platform.t) (side : Side)
    : Player.t :=
  match side with
  | FromBelow =>
      let player :=
        Player.set_y player (Platform.y platform + Platform.height platform
                             + inject_Z Player.height / 2) in
      Player.set_vel_y player 0
  | FromLeft =>
      let player :=
        Player.set_x player (Platform.x platform - inject_Z Player.width / 2) in
      Player.set_vel_x player 0
  | FromRight =>
      let player :=
        Player.set_x player (Platform.x platform + Platform.width platform
                             + inject_Z Player.width / 2) in
      Player.set_vel_x player 0
  | FromAbove =>
      let player :=
        Player.set_y player (Platform.y platform - inject_Z Player.height / 2) in
      let player := Player.set_vel_y player 0 in
      Player.set_on_ground player true
  end.

(** One iteration of the second loop. *)
Definition resolve (player_rect : pygame.Rect) (player : Player.t)
    (platform : Platform.t) : Player.t :=
  match hit_side player_rect player platform with
  | Some side => push_out player platform side
  | None => player
  end.

(** Both loops: the early return of the first, else the second. The flag
    says whether the first loop returned. *)
Definition passes (self : t) (player : Player.t) : Player.t * bool :=
  let player_rect := Player.get_rect player in
  let player := Player.set_on_ground player false in
  match first_above player (platforms self) with
  | Some platform => (land player platform, true)
  | None => (fold_left (resolve player_rect) (platforms self) player, false)
  end.

Definition check_collision (self : t) (player : Player.t) : Player.t :=
  let was_on_ground := Player.on_ground player in
  let '(player, returned) := passes self player in
  if returned then player
  else if was_on_ground && negb (Player.on_ground player)
          && Qeq_bool (Player.vel_y player) 0
  then Player.set_vel_y player 0.1
  else player.

End Level.

(** ** game.py *)

Module Game.

Inductive State :=
  STATE_STARTING | STATE_PLAYING | STATE_PAUSED | STATE_GAME_OVER
| STATE_LEVEL_COMPLETE.

Definition State_eqb (a b : State) : bool :=
  match a, b with
  | STATE_STARTING, STATE_STARTING | STATE_PLAYING, STATE_PLAYING
  | STATE_PAUSED, STATE_PAUSED | STATE_GAME_OVER, STATE_GAME_OVER
  | STATE_LEVEL_COMPLETE, STATE_LEVEL_COMPLETE => true
  | _, _ => false
  end.

Record t := mk {
  player : Player.t;
  level : Level.t;
  state : State;
  state_timer : Z;
  score : Z;
  timer : Z;
  high_score : Z;
  camera_x : Q;
  sounds : list string   (* the calls of [sound_manager.play_sound], oldest first *)
}.

Definition set_player (g : t) (v : Player.t) : t :=
  mk v (level g) (state g) (state_timer g) (score g) (timer g) (high_score g)
     (camera_x g) (sounds g).
Definition set_level (g : t) (v : Level.t) : t :=
  mk (player g) v (state g) (state_timer g) (score g) (timer g) (high_score g)
     (camera_x g) (sounds g).
Definition set_state (g : t) (v : State) : t :=
  mk (player g) (level g) v (state_timer g) (score g) (timer g) (high_score g)
     (camera_x g) (sounds g).
Definition set_state_timer (g : t) (v : Z) : t :=
  mk (player g) (level g) (state g) v (score g) (timer g) (high_score g)
     (camera_x g) (sounds g).
Definition set_score (g : t) (v : Z) : t :=
  mk (player g) (level g) (state g) (state_timer g) v (timer g) (high_score g)
     (camera_x g) (sounds g).
Definition set_timer (g : t) (v : Z) : t :=
  mk (player g) (level g) (state g) (state_timer g) (score g) v (high_score g)
     (camera_x g) (sounds g).
Definition set_high_score (g : t) (v : Z) : t :=
  mk (player g) (level g) (state g) (state_timer g) (score g) (timer g) v
     (camera_x g) (sounds g).
Definition set_camera_x (g : t) (v : Q) : t :=
  mk (player g) (level g) (state g) (state_timer g) (score g) (timer g)
     (high_score g) v (sounds g).
Definition play_sound (g : t) (sound_id : string) : t :=
  mk (player g) (level g) (state g) (state_timer g) (score g) (timer g)
     (high_score g) (camera_x g) (sounds g ++ [sound_id]).

(** [Game(screen)], given the generated level and the stored high score. *)
Definition init (level : Level.t) (high_score : Z) : t :=
  mk (Player.init 100 (inject_Z (config.SCREEN_HEIGHT - 100))) level
     STATE_STARTING 180 0 0 high_score 0 [].

(** [_save_high_score]; [written] says whether writing the file succeeded. *)
Definition _save_high_score (written : bool) (g : t) : t :=
  if (score g >? high_score g)%Z
  then if written then set_high_score g (score g) else g
  else g.

(** [_restart_game]; [fresh] is the level [Level()] generates. *)
Definition _restart_game (written : bool) (fresh : Level.t) (g : t) : t :=
  let g := _save_high_score written g in
  let g := set_player g (Player.init 100 (inject_Z (config.SCREEN_HEIGHT - 100))) in
  let g := set_level g fresh in
  let g := set_score g 0 in
  let g := set_timer g 0 in
  let g := set_camera_x g 0 in
  let g := set_state g STATE_STARTING in
  set_state_timer g 180.

Definition _apply_powerup (powerup_type : PowerUp.kind) (g : t) : t :=
  match powerup_type with
  | PowerUp.speed => set_player g (Player.activate_speed_boost (player g))
  | PowerUp.jump => set_player g (Player.activate_jump_boost (player g))
  | PowerUp.magnet => set_player g (Player.activate_tile_magnet (player g))
  end.

Definition is_jump_key (key : pygame.Key) : bool :=
  pygame.Key_eqb key pygame.K_SPACE || pygame.Key_eqb key pygame.K_UP
  || pygame.Key_eqb key pygame.K_w.

(** [handle_event]: the new game and [false] where the method returns
    [False] (it returns [None] elsewhere). *)
Definition handle_event (written : bool) (fresh : Level.t)
    (event : pygame.Event) (g : t) : t * bool :=
  match event with
  | pygame.QUIT => (g, false)
  | pygame.KEYDOWN key =>
      if pygame.Key_eqb key pygame.K_ESCAPE then (g, false)
      else
        let g :=
          if pygame.Key_eqb key pygame.K_p then
            match state g with
            | STATE_PLAYING => set_state g STATE_PAUSED
            | STATE_PAUSED => set_state g STATE_PLAYING
            | _ => g
            end
          else g in
        let g :=
          if is_jump_key key then
            match state g with
            | STATE_PLAYING =>
                let '(p, jumped) := Player.jump (player g) in
                let g := set_player g p in
                if jumped then play_sound g "jump" else g
            | STATE_GAME_OVER | STATE_LEVEL_COMPLETE =>
                _restart_game written fresh g
            | _ => g
            end
          else g in
        let g :=
          match state g with
          | STATE_PLAYING =>
              set_player g (Player.handle_event event (player g))
          | _ => g
          end in
        (g, true)
  | pygame.OTHER =>
      let g :=
        match state g with
        | STATE_PLAYING => set_player g (Player.handle_event event (player g))
        | _ => g
        end in
      (g, true)
  end.

(** The blocks of the [STATE_PLAYING] branch of [update], in order. *)

Section Frame.
Variable sin : Q -> Q.
Variable keys : pygame.Pressed.

(** Timer, player, level, platform collisions. *)
Definition advance (g : t) : t :=
  let g := set_timer g (timer g + 1)%Z in
  let g := set_player g (Player.update keys (player g)) in
  let g := set_level g (Level.update sin (level g)) in
  set_player g (Level.check_collision (level g) (player g)).
End Frame.

(** "Check for tile collection". *)
Definition collect_tile (g : t) : t :=
  let '(level, collected_tile) :=
    Level.check_tile_collection (level g) (player g) in
  let g := set_level g level in
  match collected_tile with
  | Some _ =>
      let g := set_player g (Player.add_tile (player g)) in
      let g := set_score g (score g + 10)%Z in
      play_sound g "pickup"
  | None => g
  end.

(** "Check for gaps and bridge building". *)
Definition bridge_or_fall (g : t) : t :=
  if Qltb 2.0 (Player.vel_y (player g)) && Level.check_gap (level g) (player g)
  then
    if (Player.tile_count (player g) >? 0)%Z then
      let g := set_player g (fst (Player.remove_tile (player g))) in
      let g :=
        set_level g (Level.build_bridge (level g) (Player.x (player g))
                                        (Player.y (player g))) in
      play_sound g "drop"
    else
      let g := set_player g (Player.fall (player g)) in
      let g := play_sound g "fall" in
      set_state g STATE_GAME_OVER
  else g.

(** "Check for power-ups". *)
Definition collect_powerup (g : t) : t :=
  let '(level, powerup) :=
    Level.check_powerup_collision (level g) (player g) in
  let g := set_level g level in
  match powerup with
  | Some powerup => play_sound (_apply_powerup powerup g) "powerup"
  | None => g
  end.

(** "Update camera position to follow player". *)
Definition follow (g : t) : t :=
  let target_camera_x :=
    Player.x (player g) - inject_Z (config.SCREEN_WIDTH / 3) in
  set_camera_x g (camera_x g + (target_camera_x - camera_x g) * 0.1).

(** The bonus of the finish line. *)
Definition bonus (g : t) : Z :=
  let time_bonus := Z.max 0 (10000 - timer g / 60 * 10) in
  let tile_bonus := (Player.tile_count (player g) * 50)%Z in
  (time_bonus + tile_bonus)%Z.

(** "Check if player reached the finish line". *)
Definition finish (g : t) : t :=
  if Level.check_finish_line (level g) (player g) then
    let g := set_state g STATE_LEVEL_COMPLETE in
    let g := play_sound g "success" in
    set_score g (score g + bonus g)%Z
  else g.

(** "Check if player fell off the screen". *)
Definition fell_off (g : t) : t :=
  if Qltb (inject_Z (config.SCREEN_HEIGHT + 200)) (Player.y (player g)) then
    let g := set_state g STATE_GAME_OVER in
    play_sound g "fall"
  else g.

Section Update.
Variable sin : Q -> Q.
Variable keys : pygame.Pressed.

(** The state of the frame on entry to the gap block. *)
Definition before_gap (g : t) : t := collect_tile (advance sin keys g).

(** The state of the frame on entry to the finish-line block. *)
Definition before_finish (g : t) : t :=
  follow (collect_powerup (bridge_or_fall (before_gap g))).

Definition update (g : t) : t :=
  match state g with
  | STATE_STARTING =>
      let g := set_state_timer g (state_timer g - 1)%Z in
      if (state_timer g <=? 0)%Z then set_state g STATE_PLAYING else g
  | STATE_PLAYING => fell_off (finish (before_finish g))
  | _ => g
  end.
End Update.

End Game.

(** ** Notions the properties are stated with *)

(** The actor's bounding box, with the half sizes [check_collision] uses. *)
Module Box.

Definition left (player : Player.t) : Q :=
  Player.x player - inject_Z Player.width / 2.
Definition right (player : Player.t) : Q :=
  Player.x player + inject_Z Player.width / 2.
Definition top (player : Player.t) : Q :=
  Player.y player - inject_Z Player.height / 2.
Definition bottom (player : Player.t) : Q :=
  Player.y player + inject_Z Player.height / 2.

Inductive Axis := Horizontal | Vertical.

(** The axis a branch of the second loop moves the actor along. *)
Definition axis_of (side : Side) : Axis :=
  match side with
  | FromLeft | FromRight => Horizontal
  | FromBelow | FromAbove => Vertical
  end.



End Box.

(** Runs of the game. *)
Module Run.

Section Sin.
Variable sin : Q -> Q.

(** One [update] per frame, each with its keyboard snapshot. *)
Definition frames (keys : list pygame.Pressed) (g : Game.t) : Game.t :=
  fold_left (fun g keys => Game.update sin keys g) keys g.

(** The states a session can be in: a new game on any generated level,
    then frames and events; a restart draws a new level. *)
Inductive reachable : Game.t -> Prop :=
| reach_init generated tiles power_ups high_score :
    reachable (Game.init (Level.init generated tiles power_ups) high_score)
| reach_update keys g :
    reachable g -> reachable (Game.update sin keys g)
| reach_event written generated tiles power_ups event g :
    reachable g ->
    reachable (fst (Game.handle_event written
                      (Level.init generated tiles power_ups) event g)).
End Sin.

End Run.

(** The horizontal speed after [Player.update]. *)
Definition speed_after (keys : pygame.Pressed) (player : Player.t) : Q :=
  Qabs (Player.vel_x (Player.update keys player)).

(** A direction key is held. *)
Definition moving (keys : pygame.Pressed) : bool :=
  keys pygame.K_LEFT || keys pygame.K_a || keys pygame.K_RIGHT || keys pygame.K_d.

(** A tile the player's rectangle meets and that is still to collect. *)
Definition collectable (player : Player.t) (tile : Tile.t) : bool :=
  negb (Tile.collected tile)
  && pygame.colliderect (Player.get_rect player) (Tile.get_rect tile).

(** The tile at index [i] is flagged collected. *)
Definition collected_at (i : nat) (g : Game.t) : Prop :=
  exists tile, nth_error (Level.tiles (Game.level g)) i = Some tile
               /\ Tile.collected tile = true.

(** The centre of [platform] is the point [(x, y)]. *)
Definition centered_at (platform : Platform.t) (x y : Q) : Prop :=
  Platform.x platform + Platform.width platform / 2 == x
  /\ Platform.y platform + Platform.height platform / 2 == y.

(** ** Concrete inputs *)

Module Inputs.

Definition no_keys : pygame.Pressed := fun _ => false.
Definition hold_right : pygame.Pressed :=
  fun key => pygame.Key_eqb key pygame.K_RIGHT.

(** A stand-in for [math.sin] where a property is evaluated: with it the
    tiles do not hover. *)
Definition flat : Q -> Q := fun _ => 0.

Definition player_at (x y vel_x vel_y : Q) (on_ground : bool)
    (jump_safety tile_count : Z) : Player.t :=
  Player.mk x y vel_x vel_y on_ground jump_safety tile_count
            false 0 false 0 false 0 true.

(** A ledge whose top the rising actor's feet have sunk into by 5. *)
Definition ledge : Platform.t := Platform.mk 0 100 100 20.
Definition ledge_level : Level.t := Level.mk [ledge] [] [] None.
Definition rising : Player.t := player_at 50 75 0 (-3) false 0 0.


(** An actor in mid-air above nothing, just after a jump. *)
Definition void : Level.t := Level.mk [] [] [] None.
Definition jumper : Player.t := player_at 50 80 5 3 false 7 0.

(** An actor that stood on a ledge it has now left. *)
Definition walked_off : Player.t := player_at 500 70 0 0 true 0 0.

(** A round in play. *)
Definition playing (player : Player.t) (level : Level.t) (timer : Z)
    : Game.t :=
  Game.mk player level Game.STATE_PLAYING 0 0 timer 0 0 [].

(** An actor in the air, its feet 220 above the ground, two tiles held;
    gravity brings its fall from 4.2 to 5 in the frame. *)
Definition over_gap : Game.t :=
  playing (player_at 1000 300 0 4.2 false 0 2) (Level.init [] [] []) 600.

(** A level as [_generate_level] lays it out when every height draw is
    150, every gap draw 100, every platform gets two tiles and no
    power-up is drawn: platforms at x = 500, 900, ..., 4100. *)
Definition row (k : nat) : Q := 500 + 400 * inject_Z (Z.of_nat k).
Definition generated : list Platform.t :=
  map (fun k => Platform.mk (row k) 400 300 20) (seq 0 10).
Definition generated_tiles : list Tile.t :=
  flat_map (fun k => [Tile.init (row k + 30) 370 0.02 3;
                      Tile.init (row k + 270) 340 0.05 6]) (seq 0 10).
Definition course : Level.t := Level.init generated generated_tiles [].

(** The actor ran along the ground without a tile, jumped at x = 4570,
    and is now 22 frames into the jump, one frame before its box first
    reaches the finish line. *)
Definition leap_at_finish : Game.t :=
  playing (player_at 4680 372.8 5 1.8 false 0 0) course 916.

(** An actor on the ground with a full stack, a tile at its chest. *)
Definition full_stack : Game.t :=
  playing (player_at 100 520 0 0 true 0 20)
          (Level.init [] [Tile.init 100 520 0.02 3] []) 600.

(** An actor on the ground inside the finish line. *)
Definition at_finish : Game.t :=
  playing (player_at 4700 520 0 0 true 0 3) (Level.init [] [] []) 600.

End Inputs.

(** ** level.py: generation *)

(** [Level._generate_level] and [Level._add_tiles_on_platform]. The values
    the [random] module returns are read from a tape, one entry for each
    iteration of the loop of [_generate_level]. *)
Module Generation.

(** The draws for one tile: the two [random.randint] of
    [_add_tiles_on_platform], the two [random.uniform] of [Tile.__init__]. *)
Record TileDraw := mkTileDraw {
  across : Z; above : Z; hover_speed : Q; hover_range : Q }.

(** The draws of one iteration: [randint(100, 200)] for the height,
    [randint(2, 5)] and the tiles' draws, [random()] and, where it is below
    0.3, [randint(50, platform_width - 50)] and [choice(PowerUp.TYPES)],
    then [randint(80, 150)] for the next gap. *)
Record Draw := mkDraw {
  rise : Z; num_tiles : Z; tile : nat -> TileDraw;
  chance : Q; power_across : Z; power_type : PowerUp.kind; gap : Z }.

Definition Tape := nat -> Draw.

(** The ranges the [random] functions document for these calls. *)
Definition valid_tile (t : TileDraw) : Prop :=
  (30 <= across t <= 270)%Z /\ (30 <= above t <= 60)%Z
  /\ 0.02 <= hover_speed t /\ hover_speed t <= 0.05
  /\ 3 <= hover_range t /\ hover_range t <= 6.

Definition valid (d : Draw) : Prop :=
  (100 <= rise d <= 200)%Z /\ (2 <= num_tiles d <= 5)%Z
  /\ (forall i, valid_tile (tile d i))
  /\ 0 <= chance d /\ chance d < 1
  /\ (50 <= power_across d <= 250)%Z /\ (80 <= gap d <= 150)%Z.

Definition platform_width : Q := 300.
Definition platform_height : Q := 20.

Definition _add_tiles_on_platform (d : Draw) (self : Level.t)
    (platform : Platform.t) : Level.t :=
  let num_tiles := num_tiles d in
  Level.set_tiles self
    (Level.tiles self
     ++ map (fun i =>
               let tile_x :=
                 Platform.x platform + inject_Z (across (tile d i)) in
               let tile_y :=
                 Platform.y platform - inject_Z (above (tile d i)) in
               Tile.init tile_x tile_y (hover_speed (tile d i))
                         (hover_range (tile d i)))
            (seq 0 (Z.to_nat num_tiles))).

(** One pass through the body of the [while] loop: the level, the next
    [x] and the next [gap_width]. *)
Definition lay (d : Draw) (x gap_width : Q) (self : Level.t)
    : Level.t * Q * Q :=
  let platform_y := Level.ground_height - inject_Z (rise d) in
  let platform := Platform.mk x platform_y platform_width platform_height in
  let self :=
    Level.set_platforms self (Level.platforms self ++ [platform]) in
  let self := _add_tiles_on_platform d self platform in
  let self :=
    if Qltb (chance d) 0.3 then
      let power_up :=
        PowerUp.mk (x + inject_Z (power_across d)) (platform_y - 30)
                   (power_type d) false in
      Level.set_power_ups self (Level.power_ups self ++ [power_up])
    else self in
  let x := x + (platform_width + gap_width) in
  let gap_width := inject_Z (gap d) in
  (self, x, gap_width).

(** The [while] loop, entered for the [k]-th time; [None] when [fuel]
    passes do not end it. *)
Fixpoint loop (fuel : nat) (tape : Tape) (k : nat) (x gap_width : Q)
    (self : Level.t) : option Level.t :=
  if Qltb x (Level.level_width - 500) then
    match fuel with
    | O => None
    | S fuel =>
        let '(self, x, gap_width) := lay (tape k) x gap_width self in
        loop fuel tape (S k) x gap_width self
    end
  else Some self.

Definition _generate_level (fuel : nat) (tape : Tape) (self : Level.t)
    : option Level.t :=
  let self :=
    Level.set_platforms self (Level.platforms self ++ [Level.ground]) in
  match loop fuel tape 0 500 100 self with
  | Some self =>
      Some (Level.mk (Level.platforms self) (Level.tiles self)
                     (Level.power_ups self) (Some Level.finish))
  | None => None
  end.

(** [Level()]: the empty lists of [__init__], then [_generate_level]. *)
Definition Level_ (fuel : nat) (tape : Tape) : option Level.t :=
  _generate_level fuel tape (Level.mk [] [] [] None).

(** Generated platforms from [x] on, the gap after the first being
    [gap_width]: each begins where the loop's [x] stands and is followed by
    a gap within [80, 150] or, for the first of all, of 100. *)
Fixpoint chain (x gap_width : Q) (platforms : list Platform.t) : Prop :=
  match platforms with
  | [] => Level.level_width - 500 <= x
  | platform :: rest =>
      x < Level.level_width - 500
      /\ Platform.x platform = x
      /\ Platform.width platform = platform_width
      /\ Platform.height platform = platform_height
      /\ Level.ground_height - 200 <= Platform.y platform
      /\ Platform.y platform <= Level.ground_height - 100
      /\ exists next_gap,
           80 <= next_gap /\ next_gap <= 150
           /\ chain (x + (platform_width + gap_width)) next_gap rest
  end.

(** [tile] hangs over [platform]: within its span, 30 to 60 above its top
    where it was generated. *)
Definition over (platform : Platform.t) (tile : Tile.t) : Prop :=
  Platform.x platform + 30 <= Tile.x tile
  /\ Tile.x tile <= Platform.x platform + 270
  /\ Platform.y platform - 60 <= Tile.original_y tile
  /\ Tile.original_y tile <= Platform.y platform - 30.

End Generation.

(** Sessions on generated levels. *)
Module Session.

(** [lv] is a level [Level()] can return. *)
Definition generated (lv : Level.t) : Prop :=
  exists fuel tape,
    (forall k, Generation.valid (tape k))
    /\ Generation.Level_ fuel tape = Some lv.

(** [event] makes [handle_event] call [_restart_game]. *)
Definition restarts (event : pygame.Event) (g : Game.t) : bool :=
  match event with
  | pygame.KEYDOWN key =>
      Game.is_jump_key key
      && (Game.State_eqb (Game.state g) Game.STATE_GAME_OVER
          || Game.State_eqb (Game.state g) Game.STATE_LEVEL_COMPLETE)
  | _ => false
  end.

Section Sin.
Variable sin : Q -> Q.

(** [round lv g]: [g] is a state of a session whose current round began
    on the generated level [lv]. *)
Inductive round : Level.t -> Game.t -> Prop :=
| round_start lv high_score :
    generated lv -> round lv (Game.init lv high_score)
| round_frame lv keys g :
    round lv g -> round lv (Game.update sin keys g)
| round_event lv written fresh event g :
    round lv g -> generated fresh ->
    round (if restarts event g then fresh else lv)
          (fst (Game.handle_event written fresh event g)).
End Sin.

(** The tiles flagged collected. *)
Definition collected_count (tiles : list Tile.t) : Z :=
  Z.of_nat (List.length (filter Tile.collected tiles)).

(** The platforms appended since the round began on [lv]. *)
Definition bridges (lv : Level.t) (g : Game.t) : Z :=
  Z.of_nat (List.length (Level.platforms (Game.level g)))
  - Z.of_nat (List.length (Level.platforms lv)).

End Session.

(** [Player.update] over successive frames. *)
Definition player_frames (keys : list pygame.Pressed) (player : Player.t)
    : Player.t :=
  fold_left (fun player keys => Player.update keys player) keys player.

(** The jump keys held. *)
Definition jumping (keys : pygame.Pressed) : bool :=
  keys pygame.K_SPACE || keys pygame.K_UP || keys pygame.K_w.

(** A power-up flag is set only with a running timer of at most 300. *)
Definition timed (flag : bool) (timer : Z) : Prop :=
  flag = true -> (0 < timer <= 300)%Z.

(** Further concrete inputs. *)
Module Samples.

(** A tape that draws the same values in every iteration. *)
Definition steady : Generation.Tape :=
  fun _ => Generation.mkDraw 150 2
             (fun i => Generation.mkTileDraw 30 30 0.02 3)
             0.5 50 PowerUp.speed 100.

(** An actor standing on the ground of [Inputs.course]. *)
Definition standing : Game.t :=
  Inputs.playing (Inputs.player_at 100 520 0 0 true 0 0) Inputs.course 0.


(** An actor in the air above [Inputs.course] just after a jump event. *)
Definition airborne : Game.t :=
  Inputs.playing (Inputs.player_at 1000 300 5 (-15) false 10 3)
                 Inputs.course 100.

Definition hold_jump : pygame.Pressed :=
  fun key => pygame.Key_eqb key pygame.K_SPACE.

End Samples.

(** The steps of [Player.update], in order. *)
Module Steps.

(** "Horizontal movement". *)
Definition steer (keys : pygame.Pressed) (self : Player.t) : Player.t :=
  let base_speed := Player.base_speed self in
  let self := Player.set_vel_x self 0 in
  let self :=
    if keys pygame.K_LEFT || keys pygame.K_a
    then Player.set_facing_right (Player.set_vel_x self (- base_speed)) false
    else self in
  if keys pygame.K_RIGHT || keys pygame.K_d
  then Player.set_facing_right (Player.set_vel_x self base_speed) true
  else self.

(** "Apply gravity if not on ground". *)
Definition weigh (self : Player.t) : Player.t :=
  if negb (Player.on_ground self)
  then Player.set_vel_y self (Player.vel_y self + Player.gravity)
  else self.

(** "Check for continuous jump input". *)
Definition leap (keys : pygame.Pressed) (self : Player.t) : Player.t :=
  if (keys pygame.K_SPACE || keys pygame.K_UP || keys pygame.K_w)
     && Player.on_ground self
  then fst (Player.jump self) else self.

(** "Update position". *)
Definition move (self : Player.t) : Player.t :=
  let self := Player.set_x self (Player.x self + Player.vel_x self) in
  Player.set_y self (Player.y self + Player.vel_y self).

(** "Update jump safety counter". *)
Definition count_down (self : Player.t) : Player.t :=
  if (Player.jump_safety self >? 0)%Z
  then Player.set_jump_safety self (Player.jump_safety self - 1)%Z else self.

(** "Update power-up timers". *)
Definition run_timers (self : Player.t) : Player.t :=
  let self :=
    let '(b, n) :=
      Player.tick (Player.speed_boost self) (Player.speed_boost_timer self) in
    Player.set_speed_boost self b n in
  let self :=
    let '(b, n) :=
      Player.tick (Player.jump_boost self) (Player.jump_boost_timer self) in
    Player.set_jump_boost self b n in
  let '(b, n) :=
    Player.tick (Player.tile_magnet self) (Player.tile_magnet_timer self) in
  Player.set_tile_magnet self b n.

End Steps.

(** ** level.py: [check_collision] in binary64 arithmetic *)

(** Python's floats are IEEE 754 binary64 numbers, and each of [+], [-]
    and [/] returns the exact result rounded to the nearest of them, ties
    to the even mantissa. [Doubles.double] is that rounding on [Q]: 53
    bits of mantissa, subnormal numbers from 2^-1074 up; results of
    magnitude 2^1024 and more (Python's [inf]) are not modelled. The
    module reads [check_collision] a second time, every arithmetic
    operation rounded, for the properties that depend on the rounding. *)
Module Doubles.

Definition precision : Z := 53.
Definition emin : Z := -1074.

(** The binary exponent of [q <> 0]: the [e] with [2^e <= |q| < 2^(e+1)]. *)
Definition exponent (q : Q) : Z :=
  let e := (Z.log2 (Z.abs (Qnum q)) - Z.log2 (Zpos (Qden q)))%Z in
  if Qle_bool (2 ^ e) (Qabs q) then e else (e - 1)%Z.

(** The nearest integer, ties to even. *)
Definition nearest_even (q : Q) : Z :=
  let f := Qfloor q in
  let r := q - inject_Z f in
  if Qltb r (1 # 2) then f
  else if Qltb (1 # 2) r then (f + 1)%Z
  else if Z.even f then f else (f + 1)%Z.

(** The binary64 number nearest to [q]. *)
Definition double (q : Q) : Q :=
  let q := Qred q in
  if Qeq_bool q 0 then 0
  else
    let shift := Z.min (precision - 1 - exponent q) (- emin) in
    Qred (inject_Z (nearest_even (q * 2 ^ shift)) * 2 ^ (- shift)).

(** Python's [a + b], [a - b] and [a / b] on floats. *)
Definition add (a b : Q) : Q := double (a + b).
Definition sub (a b : Q) : Q := double (a - b).
Definition div (a b : Q) : Q := double (a / b).

(** [player.width/2] and [player.height/2]. *)
Definition half_width : Q := div (inject_Z Player.width) 2.
Definition half_height : Q := div (inject_Z Player.height) 2.

(** [Player.get_rect]. *)
Definition get_rect (self : Player.t) : pygame.Rect :=
  pygame.Rect_ (sub (Player.x self) (inject_Z (Player.width / 2)))
               (sub (Player.y self) (inject_Z (Player.height / 2)))
               (inject_Z Player.width) (inject_Z Player.height).

(** [Level.build_bridge]'s platform. *)
Definition bridge (x y : Q) : Platform.t :=
  Platform.mk (sub x 20) (add y 20) 40 10.

(** The test of the first loop of [check_collision]. *)
Definition above (player : Player.t) (platform : Platform.t) : bool :=
  Qltb (Qabs (sub (Player.x player)
                  (add (Platform.x platform)
                       (div (Platform.width platform) 2))))
       (add (div (Platform.width platform) 2) half_width)
  && Qle_bool (sub (Platform.y platform) 5) (add (Player.y player) half_height)
  && Qle_bool (add (Player.y player) half_height)
              (add (Platform.y platform) 10)
  && Qle_bool 0 (Player.vel_y player).

Definition land (player : Player.t) (platform : Platform.t) : Player.t :=
  let player :=
    Player.set_y player (sub (Platform.y platform) half_height) in
  let player := Player.set_vel_y player 0 in
  Player.set_on_ground player true.

Fixpoint first_above (player : Player.t) (platforms : list Platform.t)
    : option Platform.t :=
  match platforms with
  | [] => None
  | platform :: rest =>
      if above player platform then Some platform else first_above player rest
  end.

(** The branch the second loop takes at [platform], if any. *)
Definition hit_side (player_rect : pygame.Rect) (player : Player.t)
    (platform : Platform.t) : option Side :=
  if pygame.colliderect player_rect (Platform.get_rect platform) then
    let left_overlap :=
      sub (add (Platform.x platform) (Platform.width platform))
          (sub (Player.x player) half_width) in
    let right_overlap :=
      sub (add (Player.x player) half_width) (Platform.x platform) in
    let top_overlap :=
      sub (add (Platform.y platform) (Platform.height platform))
          (sub (Player.y player) half_height) in
    let bottom_overlap :=
      sub (add (Player.y player) half_height) (Platform.y platform) in
    let min_overlap :=
      min4 left_overlap right_overlap top_overlap bottom_overlap in
    if Qeq_bool min_overlap bottom_overlap && Qltb (Player.vel_y player) 0
    then Some FromBelow
    else if Qeq_bool min_overlap left_overlap && Qltb 0 (Player.vel_x player)
    then Some FromLeft
    else if Qeq_bool min_overlap right_overlap && Qltb (Player.vel_x player) 0
    then Some FromRight
    else if Qeq_bool min_overlap top_overlap && Qltb 0 (Player.vel_y player)
    then Some FromAbove
    else None
  else None.

(** The coordinate a branch assigns: [y] for the vertical branches, [x]
    for the horizontal ones. *)
Definition placed (platform : Platform.t) (side : Side) : Q :=
  match side with
  | FromBelow =>
      add (add (Platform.y platform) (Platform.height platform)) half_height
  | FromLeft => sub (Platform.x platform) half_width
  | FromRight =>
      add (add (Platform.x platform) (Platform.width platform)) half_width
  | FromAbove => sub (Platform.y platform) half_height
  end.

(** The assignments of the branch. *)
Definition push_out (player : Player.t) (platform : Platform.t) (side : Side)
    : Player.t :=
  match side with
  | FromBelow =>
      let player := Player.set_y player (placed platform FromBelow) in
      Player.set_vel_y player 0
  | FromLeft =>
      let player := Player.set_x player (placed platform FromLeft) in
      Player.set_vel_x player 0
  | FromRight =>
      let player := Player.set_x player (placed platform FromRight) in
      Player.set_vel_x player 0
  | FromAbove =>
      let player := Player.set_y player (placed platform FromAbove) in
      let player := Player.set_vel_y player 0 in
      Player.set_on_ground player true
  end.

Definition resolve (player_rect : pygame.Rect) (player : Player.t)
    (platform : Platform.t) : Player.t :=
  match hit_side player_rect player platform with
  | Some side => push_out player platform side
  | None => player
  end.

Definition passes (self : Level.t) (player : Player.t) : Player.t * bool :=
  let player_rect := get_rect player in
  let player := Player.set_on_ground player false in
  match first_above player (Level.platforms self) with
  | Some platform => (land player platform, true)
  | None =>
      (fold_left (resolve player_rect) (Level.platforms self) player, false)
  end.

Definition check_collision (self : Level.t) (player : Player.t) : Player.t :=
  let was_on_ground := Player.on_ground player in
  let '(player, returned) := passes self player in
  if returned then player
  else if was_on_ground && negb (Player.on_ground player)
          && Qeq_bool (Player.vel_y player) 0
  then Player.set_vel_y player (double 0.1)
  else player.

(** The platforms at which the second loop moved the actor, in order. *)
Fixpoint loop (player_rect : pygame.Rect) (player : Player.t)
    (platforms : list Platform.t) : list (Platform.t * Side) :=
  match platforms with
  | [] => []
  | platform :: rest =>
      match hit_side player_rect player platform with
      | Some side =>
          (platform, side) :: loop player_rect (push_out player platform side) rest
      | None => loop player_rect player rest
      end
  end.

(** The platforms at which one call of [check_collision] moved the actor,
    each with the axis of the move. *)
Definition resolved (self : Level.t) (player : Player.t)
    : list (Platform.t * Box.Axis) :=
  let player_rect := get_rect player in
  let player := Player.set_on_ground player false in
  match first_above player (Level.platforms self) with
  | Some platform => [(platform, Box.Vertical)]
  | None =>
      map (fun '(platform, side) => (platform, Box.axis_of side))
          (loop player_rect player (Level.platforms self))
  end.

(** The edges of the actor's box, as the overlap computation of
    [check_collision] takes them. *)
Definition left (player : Player.t) : Q := sub (Player.x player) half_width.
Definition right (player : Player.t) : Q := add (Player.x player) half_width.
Definition top (player : Player.t) : Q := sub (Player.y player) half_height.
Definition bottom (player : Player.t) : Q := add (Player.y player) half_height.

(** The extents of the two boxes on [axis] share an interval longer than
    [depth]; with [depth = 0] the boxes overlap on the axis. *)
Definition overlap_by (depth : Q) (axis : Box.Axis) (player : Player.t)
    (platform : Platform.t) : Prop :=
  match axis with
  | Box.Horizontal =>
      left player + depth
        < add (Platform.x platform) (Platform.width platform)
      /\ Platform.x platform + depth < right player
  | Box.Vertical =>
      top player + depth
        < add (Platform.y platform) (Platform.height platform)
      /\ Platform.y platform + depth < bottom player
  end.

(** Coordinates of at most 2^20 in magnitude: a million pixels. *)
Definition small (q : Q) : bool := Qle_bool (Qabs q) (inject_Z (2 ^ 20)).

Definition small_platform (platform : Platform.t) : bool :=
  small (Platform.x platform) && small (Platform.y platform)
  && small (Platform.width platform) && small (Platform.height platform).

Definition in_range (self : Level.t) (player : Player.t) : bool :=
  small (Player.x player) && small (Player.y player)
  && forallb small_platform (Level.platforms self).

(** A platform with integer coordinates and sizes, as [_generate_level]
    creates them. *)
Definition whole (q : Q) : bool := Qeq_bool q (inject_Z (Qfloor q)).

Definition integral (platform : Platform.t) : bool :=
  whole (Platform.x platform) && whole (Platform.y platform)
  && whole (Platform.width platform) && whole (Platform.height platform).

(** Where the ground flag is set, the actor's [y] is the one the landing
    assigns at a platform of [all], and it has no vertical velocity. *)
Definition grounded_at (all : list Platform.t) (player : Player.t) : Prop :=
  Player.on_ground player = true ->
  exists platform,
    In platform all
    /\ Player.y player = sub (Platform.y platform) half_height
    /\ Player.vel_y player = 0.

End Doubles.

(** Inputs in binary64. *)
Module DoubleInputs.

(** A bridge built under an actor at (1000, 200.40000000000012): its top
    is at 220.40000000000012. *)
Definition bridge : Platform.t :=
  Doubles.bridge 1000 (Doubles.double 200.40000000000012).
Definition bridged : Level.t := Level.mk [Level.ground; bridge] [] [] None.

(** An actor rising through the bridge, its feet 1.6 below the bridge's
    top. *)
Definition rising : Player.t := Inputs.player_at 1000 192 0 (-3) false 0 0.

(** An actor falling onto a generated platform. *)
Definition landing : Player.t := Inputs.player_at 600 372 0 4 false 0 0.

End DoubleInputs.

Arguments Doubles.double : simpl never.

(** ** pygame's rectangles in C ints *)

(** The fields of a [pygame.Rect] are C ints, and [colliderect] adds them
    as such: the sums [x + w] and [y + h] wrap around at 2^31.
    [pygame.colliderect] above adds in [Z]; the two agree on rectangles
    that fit. *)
Module CInt.

Definition wrap (z : Z) : Z := ((z + 2 ^ 31) mod 2 ^ 32 - 2 ^ 31)%Z.

Definition fits_int (z : Z) : bool := ((- 2 ^ 31 <=? z) && (z <? 2 ^ 31))%Z.

(** The fields of the rectangle and the sums [colliderect] forms are in
    the range of a C int. *)
Definition fits (r : pygame.Rect) : bool :=
  fits_int (pygame.left r) && fits_int (pygame.top r)
  && fits_int (pygame.w r) && fits_int (pygame.h r)
  && fits_int (pygame.left r + pygame.w r)
  && fits_int (pygame.top r + pygame.h r).

Definition colliderect (A B : pygame.Rect) : bool :=
  let right r := wrap (pygame.left r + pygame.w r) in
  let bottom r := wrap (pygame.top r + pygame.h r) in
  if ((pygame.w A =? 0) || (pygame.h A =? 0)
      || (pygame.w B =? 0) || (pygame.h B =? 0))%Z then false
  else
    ((Z.min (pygame.left A) (right A) <? Z.max (pygame.left B) (right B)) &&
     (Z.min (pygame.top A) (bottom A) <? Z.max (pygame.top B) (bottom B)) &&
     (Z.max (pygame.left A) (right A) >? Z.min (pygame.left B) (right B)) &&
     (Z.max (pygame.top A) (bottom A) >? Z.min (pygame.top B) (bottom B)))%Z.

(** The probe of [check_gap]. *)
Definition ray_rect (player : Player.t) : pygame.Rect :=
  pygame.Rect_ (Player.x player - 5) (Player.y player) 10 100.

(** [Level.check_gap], its rectangles compared in C ints. *)
Definition check_gap (self : Level.t) (player : Player.t) : bool :=
  if (Player.jump_safety player >? 0)%Z then false
  else if Qltb 2.0 (Player.vel_y player)
          && negb (Player.on_ground player)
          && Qltb 0.5 (Qabs (Player.vel_x player))
  then
    if existsb (fun platform =>
                  colliderect (ray_rect player) (Platform.get_rect platform))
               (Level.platforms self)
    then false else true
  else false.

End CInt.

(** An actor falling over the void, and one at the end of the C ints. *)
Module CIntInputs.
Definition falling : Player.t := Inputs.player_at 1000 300 5 5 false 0 2.
Definition far_out : Player.t :=
  Inputs.player_at 2147483630 300 5 5 false 0 2.
End CIntInputs.

(** ** Arithmetic and list lemmas *)

Lemma Qltb_iff a b : Qltb a b = true <-> a < b.
Proof.
  unfold Qltb. rewrite negb_true_iff. split.
  - intros H. apply Qnot_le_lt. intros Hle.
    apply Qle_bool_iff in Hle. congruence.
  - intros H. destruct (Qle_bool b a) eqn:E; [|reflexivity].
    apply Qle_bool_iff in E. lra.
Qed.

Lemma Qltb_false_iff a b : Qltb a b = false <-> b <= a.
Proof.
  unfold Qltb. rewrite negb_false_iff. apply Qle_bool_iff.
Qed.

(** ** The collision resolver *)

Section Resolver.

Variable player_rect : pygame.Rect.

(** A branch of the second loop fires only against a non-zero velocity
    on its axis. *)
Lemma hit_side_velocity player platform side :
  Level.hit_side player_rect player platform = Some side ->
  match side with
  | FromBelow => Player.vel_y player < 0
  | FromLeft => 0 < Player.vel_x player
  | FromRight => Player.vel_x player < 0
  | FromAbove => 0 < Player.vel_y player
  end.
Proof.
  unfold Level.hit_side.
  destruct (pygame.colliderect _ _); [|discriminate].
  cbv zeta.
  repeat match goal with
         | |- context [if ?c && ?d then _ else _] =>
             let E := fresh "E" in
             destruct (c && d) eqn:E;
             [apply andb_prop in E; destruct E as [_ E];
              apply Qltb_iff in E;
              intros [= <-]; exact E |]
         end.
  discriminate.
Qed.

(** After a branch, the velocity on its axis is zero. *)
Lemma push_out_velocity player platform side :
  match Box.axis_of side with
  | Box.Horizontal => Player.vel_x (Level.push_out player platform side) = 0
  | Box.Vertical => Player.vel_y (Level.push_out player platform side) = 0
  end.
Proof. destruct side; reflexivity. Qed.

(** With no vertical velocity the second loop leaves [y] and [vel_y]. *)
Lemma resolve_keeps_y player platform :
  Player.vel_y player == 0 ->
  Player.y (Level.resolve player_rect player platform) = Player.y player
  /\ Player.vel_y (Level.resolve player_rect player platform)
     = Player.vel_y player
  /\ Player.on_ground (Level.resolve player_rect player platform)
     = Player.on_ground player.
Proof.
  intros Hv. unfold Level.resolve.
  destruct (Level.hit_side player_rect player platform) as [side|] eqn:E;
    [|auto].
  apply hit_side_velocity in E.
  destruct side; cbn; auto; lra.
Qed.

Lemma resolve_keeps_x player platform :
  Player.vel_x player == 0 ->
  Player.x (Level.resolve player_rect player platform) = Player.x player
  /\ Player.vel_x (Level.resolve player_rect player platform)
     = Player.vel_x player.
Proof.
  intros Hv. unfold Level.resolve.
  destruct (Level.hit_side player_rect player platform) as [side|] eqn:E;
    [|auto].
  apply hit_side_velocity in E.
  destruct side; cbn; auto; lra.
Qed.

Lemma loop_keeps_y platforms : forall player,
  Player.vel_y player == 0 ->
  let player' := fold_left (Level.resolve player_rect) platforms player in
  Player.y player' = Player.y player
  /\ Player.vel_y player' = Player.vel_y player
  /\ Player.on_ground player' = Player.on_ground player.
Proof.
  induction platforms as [|platform rest IH]; intros player Hv; cbn.
  - auto.
  - destruct (resolve_keeps_y player platform Hv) as (Hy & Hvy & Hg).
    destruct (IH (Level.resolve player_rect player platform)) as (Hy' & Hvy' & Hg').
    + rewrite Hvy. exact Hv.
    + cbn in Hy', Hvy', Hg'. rewrite Hy', Hvy', Hg'. auto.
Qed.

Lemma loop_keeps_x platforms : forall player,
  Player.vel_x player == 0 ->
  let player' := fold_left (Level.resolve player_rect) platforms player in
  Player.x player' = Player.x player
  /\ Player.vel_x player' = Player.vel_x player.
Proof.
  induction platforms as [|platform rest IH]; intros player Hv; cbn.
  - auto.
  - destruct (resolve_keeps_x player platform Hv) as (Hx & Hvx).
    destruct (IH (Level.resolve player_rect player platform)) as (Hx' & Hvx').
    + rewrite Hvx. exact Hv.
    + cbn in Hx', Hvx'. rewrite Hx', Hvx'. auto.
Qed.

End Resolver.


(** ** Rounding to binary64 *)

Lemma pow2_pos k : 0 < 2 ^ k.
Proof. apply Qpower_0_lt. reflexivity. Qed.

Lemma pow2_plus a b : 2 ^ (a + b) == 2 ^ a * 2 ^ b.
Proof. apply Qpower_plus. discriminate. Qed.

Lemma pow2_inv k : 2 ^ k * 2 ^ (- k) == 1.
Proof. rewrite <- pow2_plus, Z.add_opp_diag_r. reflexivity. Qed.

Lemma pow2_Z k : (0 <= k)%Z -> 2 ^ k == inject_Z (2 ^ k).
Proof. intros H. symmetry. apply (Zpower_Qpower 2 k H). Qed.

Lemma inject_Z_pos z : (0 < z)%Z -> 0 < inject_Z z.
Proof. intros H. change 0 with (inject_Z 0). rewrite <- Zlt_Qlt. exact H. Qed.

(** The rounded integer is within one half of the number. *)
Lemma nearest_even_error q :
  Qabs (inject_Z (Doubles.nearest_even q) - q) <= 1 # 2.
Proof.
  unfold Doubles.nearest_even. cbv zeta.
  pose proof (Qfloor_le q) as Hlo. pose proof (Qlt_floor q) as Hhi.
  rewrite inject_Z_plus in Hhi. change (inject_Z 1) with 1 in Hhi.
  apply Qabs_Qle_condition.
  destruct (Qltb (q - inject_Z (Qfloor q)) (1 # 2)) eqn:A.
  - apply Qltb_iff in A. split; lra.
  - apply Qltb_false_iff in A.
    destruct (Qltb (1 # 2) (q - inject_Z (Qfloor q))) eqn:B.
    + apply Qltb_iff in B. rewrite inject_Z_plus.
      change (inject_Z 1) with 1. split; lra.
    + apply Qltb_false_iff in B.
      destruct (Z.even (Qfloor q)); [split; lra|].
      rewrite inject_Z_plus. change (inject_Z 1) with 1. split; lra.
Qed.

(** An integer rounds to itself. *)
Lemma nearest_even_Z q k : q == inject_Z k -> Doubles.nearest_even q = k.
Proof.
  intros H. unfold Doubles.nearest_even. cbv zeta.
  assert (F : Qfloor q = k) by (rewrite H; apply Qfloor_Z).
  rewrite F.
  assert (A : Qltb (q - inject_Z k) (1 # 2) = true)
    by (apply Qltb_iff; lra).
  rewrite A. reflexivity.
Qed.

(** [exponent q] is not above the binary logarithm of [|q|]. *)
Lemma exponent_le q : ~ q == 0 -> 2 ^ Doubles.exponent q <= Qabs q.
Proof.
  intros Hq. unfold Doubles.exponent. cbv zeta.
  destruct (Qle_bool _ _) eqn:E; [apply Qle_bool_iff; exact E|].
  destruct q as [n d]. cbn [Qnum Qden] in *.
  assert (Hn : (0 < Z.abs n)%Z).
  { destruct n; [exfalso; apply Hq; reflexivity | lia | lia]. }
  pose proof (Z.log2_spec (Z.abs n) Hn) as [Ln _].
  pose proof (Z.log2_spec (Zpos d) (Pos2Z.is_pos d)) as [_ Ld].
  pose proof (Z.log2_nonneg (Z.abs n)) as Hln.
  pose proof (Z.log2_nonneg (Zpos d)) as Hld.
  replace (Z.log2 (Z.abs n) - Z.log2 (Z.pos d) - 1)%Z
    with (Z.log2 (Z.abs n) + - Z.succ (Z.log2 (Z.pos d)))%Z by lia.
  rewrite pow2_plus, Qpower_opp, !pow2_Z by lia.
  set (P := (2 ^ Z.log2 (Z.abs n))%Z) in *.
  set (R := (2 ^ Z.succ (Z.log2 (Z.pos d)))%Z) in *.
  assert (HR : 0 < inject_Z R) by (apply inject_Z_pos; lia).
  assert (Habs : Qabs (n # d) == inject_Z (Z.abs n) / inject_Z (Zpos d)).
  { unfold Qabs. rewrite (Qmake_Qdiv (Z.abs n) d). reflexivity. }
  rewrite Habs.
  apply Qle_shift_div_l; [apply inject_Z_pos; lia|].
  change (inject_Z P * / inject_Z R) with (inject_Z P / inject_Z R).
  assert (Hm : inject_Z P / inject_Z R * inject_Z (Z.pos d)
               == inject_Z P * inject_Z (Z.pos d) / inject_Z R)
    by (field; lra).
  rewrite Hm.
  apply Qle_shift_div_r; [exact HR|].
  rewrite <- !inject_Z_mult, <- Zle_Qle. nia.
Qed.

Lemma double_eq q q' : q == q' -> Doubles.double q = Doubles.double q'.
Proof.
  intros H. unfold Doubles.double. rewrite (Qred_complete q q' H). reflexivity.
Qed.

(** The rounding error of one operation: relative 2^-53, or, among the
    subnormal numbers, absolute 2^-1075. *)
Lemma double_error q :
  Qabs (Doubles.double q - q) <= (1 # 2 ^ 53) * Qabs q + 2 ^ (-1075).
Proof.
  unfold Doubles.double. cbv zeta.
  pose proof (Qred_correct q) as Hr.
  pose proof (Qabs_nonneg q) as Hq0.
  pose proof (pow2_pos (-1075)) as Ht.
  set (T := 2 ^ (-1075)) in *.
  assert (Hu0 : 0 <= (1 # 2 ^ 53) * Qabs q)
    by (apply Qmult_le_0_compat; [discriminate | exact Hq0]).
  destruct (Qeq_bool (Qred q) 0) eqn:E.
  - apply Qeq_bool_iff in E. rewrite Hr in E.
    apply Qabs_Qle_condition. split; lra.
  - assert (Hne : ~ Qred q == 0).
    { intros H. apply Qeq_bool_iff in H. congruence. }
    pose proof (exponent_le (Qred q) Hne) as He.
    rewrite Hr in He at 2.
    set (e := Doubles.exponent (Qred q)) in *.
    set (s := Z.min (Doubles.precision - 1 - e) (- Doubles.emin)).
    rewrite Qred_correct.
    pose proof (nearest_even_error (Qred q * 2 ^ s)) as Hm.
    set (m := inject_Z (Doubles.nearest_even (Qred q * 2 ^ s))) in *.
    rewrite Hr in Hm.
    pose proof (pow2_pos s) as Hs. pose proof (pow2_pos (- s)) as Hs'.
    pose proof (pow2_inv s) as Hinv.
    assert (Heq : m * 2 ^ (- s) - q == (m - q * 2 ^ s) * 2 ^ (- s)).
    { transitivity (m * 2 ^ (- s) - q * (2 ^ s * 2 ^ (- s))); [|ring].
      rewrite Hinv. ring. }
    rewrite Heq, Qabs_Qmult, (Qabs_pos (2 ^ (- s))) by lra.
    assert (Hhalf : Qabs (m - q * 2 ^ s) * 2 ^ (- s) <= (1 # 2) * 2 ^ (- s)).
    { apply Qmult_le_compat_r; [exact Hm | lra]. }
    eapply Qle_trans; [exact Hhalf|].
    unfold s. destruct (Z.min_spec (Doubles.precision - 1 - e) (- Doubles.emin))
      as [[_ ->] | [_ ->]].
    + replace (- (Doubles.precision - 1 - e))%Z with (e + -52)%Z
        by (unfold Doubles.precision; lia).
      rewrite pow2_plus.
      change (2 ^ (-52)) with (1 # 2 ^ 52).
      assert (Hu : forall x, (1 # 2) * (x * (1 # 2 ^ 52)) == (1 # 2 ^ 53) * x)
        by (intros x; change (1 # 2 ^ 52) with (1 # 4503599627370496);
            change (1 # 2 ^ 53) with (1 # 9007199254740992); ring).
      rewrite Hu.
      assert (Hc : (1 # 2 ^ 53) * 2 ^ e <= (1 # 2 ^ 53) * Qabs q).
      { apply Qmult_le_l; [reflexivity | exact He]. }
      lra.
    + assert (Hc : (1 # 2) * 2 ^ (- - Doubles.emin) == T) by reflexivity.
      rewrite Hc. lra.
Qed.

Lemma Qred_Z z : Qred (inject_Z z) = inject_Z z.
Proof. apply Qcanon.Qred_identity. cbn. apply Z.gcd_1_r. Qed.

(** Integers below 2^53 in magnitude are binary64 numbers. *)
Lemma double_Z q z :
  q == inject_Z z -> (Z.abs z < 2 ^ 53)%Z -> Doubles.double q = inject_Z z.
Proof.
  intros Hq Hz. rewrite (double_eq q (inject_Z z) Hq).
  unfold Doubles.double. cbv zeta. rewrite Qred_Z.
  destruct (Qeq_bool (inject_Z z) 0) eqn:E.
  - apply Qeq_bool_iff in E. change 0 with (inject_Z 0) in E.
    apply (proj1 (inject_Z_injective z 0)) in E. subst z. reflexivity.
  - assert (Hne : z <> 0%Z) by (intros ->; discriminate).
    assert (He : Doubles.exponent (inject_Z z) = Z.log2 (Z.abs z)).
    { unfold Doubles.exponent. cbn [Qnum Qden inject_Z].
      change (Z.log2 1) with 0%Z. rewrite Z.sub_0_r.
      match goal with |- (if ?c then _ else _) = _ =>
        assert (Hle : c = true); [|rewrite Hle; reflexivity] end.
      apply Qle_bool_iff. rewrite pow2_Z by apply Z.log2_nonneg.
      change (Qabs (inject_Z z)) with (inject_Z (Z.abs z)).
      rewrite <- Zle_Qle. apply Z.log2_spec. lia. }
    rewrite He.
    assert (Hlog : (0 <= Z.log2 (Z.abs z) < 53)%Z).
    { split; [apply Z.log2_nonneg|]. apply Z.log2_lt_pow2; lia. }
    rewrite Z.min_l by (unfold Doubles.precision, Doubles.emin; lia).
    set (s := (Doubles.precision - 1 - Z.log2 (Z.abs z))%Z).
    assert (Hs : (0 <= s)%Z) by (unfold s, Doubles.precision; lia).
    assert (Hk : inject_Z z * 2 ^ s == inject_Z (z * 2 ^ s)).
    { rewrite inject_Z_mult, pow2_Z by exact Hs. reflexivity. }
    rewrite (nearest_even_Z _ _ Hk).
    transitivity (Qred (inject_Z z)); [|apply Qred_Z]. apply Qred_complete.
    rewrite inject_Z_mult, <- pow2_Z by exact Hs.
    rewrite <- Qmult_assoc, pow2_inv. ring.
Qed.

Lemma half_width_eq : Doubles.half_width = 20.
Proof. vm_compute. reflexivity. Qed.

Lemma half_height_eq : Doubles.half_height = 30.
Proof. vm_compute. reflexivity. Qed.

(** Up to four million the error of one operation is below 2^-30. *)
Lemma double_near q :
  Qabs q <= inject_Z (2 ^ 22) -> Qabs (Doubles.double q - q) <= 1 # 2 ^ 30.
Proof.
  intros H. pose proof (double_error q) as E.
  assert (T : 2 ^ (-1075) <= 1 # 2 ^ 31)
    by (apply Qle_bool_iff; vm_compute; reflexivity).
  set (t := 2 ^ (-1075)) in *.
  change (inject_Z (2 ^ 22)) with 4194304 in H.
  change (1 # 2 ^ 53) with (1 # 9007199254740992) in E.
  change (1 # 2 ^ 31) with (1 # 2147483648) in T.
  change (1 # 2 ^ 30) with (1 # 1073741824).
  revert H E. generalize (Qabs (Doubles.double q - q)) (Qabs q).
  intros err size H E. lra.
Qed.

Lemma small_bounds q :
  Doubles.small q = true -> - (1048576) <= q /\ q <= 1048576.
Proof.
  unfold Doubles.small. intros H. apply Qle_bool_iff in H.
  apply Qabs_Qle_condition in H. exact H.
Qed.

Lemma whole_Z q :
  Doubles.small q = true -> Doubles.whole q = true ->
  exists k, q == inject_Z k /\ (Z.abs k <= 2 ^ 20)%Z.
Proof.
  intros Hs Hw. apply small_bounds in Hs. destruct Hs as [Hlo Hhi].
  unfold Doubles.whole in Hw. apply Qeq_bool_iff in Hw.
  exists (Qfloor q). split; [exact Hw|].
  rewrite Hw in Hlo, Hhi.
  change (- (1048576)) with (inject_Z (-1048576)) in Hlo.
  change 1048576 with (inject_Z 1048576) in Hhi.
  rewrite <- Zle_Qle in Hlo, Hhi. change (2 ^ 20)%Z with 1048576%Z. lia.
Qed.

Lemma add_Z a b ka kb :
  a == inject_Z ka -> b == inject_Z kb -> (Z.abs (ka + kb) < 2 ^ 53)%Z ->
  Doubles.add a b = inject_Z (ka + kb).
Proof.
  intros Ha Hb H. apply double_Z; [|exact H].
  rewrite Ha, Hb, inject_Z_plus. reflexivity.
Qed.

Lemma sub_Z a b ka kb :
  a == inject_Z ka -> b == inject_Z kb -> (Z.abs (ka - kb) < 2 ^ 53)%Z ->
  Doubles.sub a b = inject_Z (ka - kb).
Proof.
  intros Ha Hb H. apply double_Z; [|exact H].
  rewrite Ha, Hb. unfold Z.sub. rewrite inject_Z_plus, inject_Z_opp.
  reflexivity.
Qed.

(** Turning bounds on absolute values into linear facts. *)
Ltac near H :=
  let H' := fresh H in
  apply Qabs_Qle_condition in H; destruct H as [H H'].

(** An edge pushed out by a half size and read back through the box: the
    two roundings move it by less than 2^-29. *)
Lemma out_and_back e h :
  - (2097153) <= e <= 2097153 -> 0 <= h <= 32 ->
  Qabs (Doubles.sub (Doubles.add e h) h - e) <= 1 # 2 ^ 29.
Proof.
  intros [E1 E2] [H1 H2].
  assert (A : Qabs (Doubles.add e h - (e + h)) <= 1 # 2 ^ 30).
  { apply double_near. apply Qabs_Qle_condition.
    change (inject_Z (2 ^ 22)) with 4194304. split; lra. }
  near A. change (1 # 2 ^ 30) with (1 # 1073741824) in *.
  assert (B : Qabs (Doubles.sub (Doubles.add e h) h - (Doubles.add e h - h))
              <= 1 # 2 ^ 30).
  { apply double_near. apply Qabs_Qle_condition.
    change (inject_Z (2 ^ 22)) with 4194304. split; lra. }
  near B. change (1 # 2 ^ 30) with (1 # 1073741824) in *.
  apply Qabs_Qle_condition. change (1 # 2 ^ 29) with (1 # 536870912).
  split; lra.
Qed.

Lemma back_and_out e h :
  - (2097153) <= e <= 2097153 -> 0 <= h <= 32 ->
  Qabs (Doubles.add (Doubles.sub e h) h - e) <= 1 # 2 ^ 29.
Proof.
  intros [E1 E2] [H1 H2].
  assert (A : Qabs (Doubles.sub e h - (e - h)) <= 1 # 2 ^ 30).
  { apply double_near. apply Qabs_Qle_condition.
    change (inject_Z (2 ^ 22)) with 4194304. split; lra. }
  near A. change (1 # 2 ^ 30) with (1 # 1073741824) in *.
  assert (B : Qabs (Doubles.add (Doubles.sub e h) h - (Doubles.sub e h + h))
              <= 1 # 2 ^ 30).
  { apply double_near. apply Qabs_Qle_condition.
    change (inject_Z (2 ^ 22)) with 4194304. split; lra. }
  near B. change (1 # 2 ^ 30) with (1 # 1073741824) in *.
  apply Qabs_Qle_condition. change (1 # 2 ^ 29) with (1 # 536870912).
  split; lra.
Qed.

(** The far edge of a platform in range. *)
Lemma far_edge a b :
  Doubles.small a = true -> Doubles.small b = true ->
  - (2097153) <= Doubles.add a b <= 2097153.
Proof.
  intros Ha Hb. apply small_bounds in Ha, Hb.
  assert (A : Qabs (Doubles.add a b - (a + b)) <= 1 # 2 ^ 30).
  { apply double_near. apply Qabs_Qle_condition.
    change (inject_Z (2 ^ 22)) with 4194304. split; lra. }
  near A. change (1 # 2 ^ 30) with (1 # 1073741824) in *.
  split; lra.
Qed.

(** ** The resolver in binary64 *)

Section DoubleResolver.

Variable player_rect : pygame.Rect.

Lemma double_hit_side_velocity player platform side :
  Doubles.hit_side player_rect player platform = Some side ->
  match side with
  | FromBelow => Player.vel_y player < 0
  | FromLeft => 0 < Player.vel_x player
  | FromRight => Player.vel_x player < 0
  | FromAbove => 0 < Player.vel_y player
  end.
Proof.
  unfold Doubles.hit_side.
  destruct (pygame.colliderect _ _); [|discriminate].
  cbv zeta.
  repeat match goal with
         | |- context [if ?c && ?d then _ else _] =>
             let E := fresh "E" in
             destruct (c && d) eqn:E;
             [apply andb_prop in E; destruct E as [_ E];
              apply Qltb_iff in E;
              intros [= <-]; exact E |]
         end.
  discriminate.
Qed.

(** A branch leaves the coordinate of its axis at [placed] and the
    velocity of its axis at zero. *)
Lemma double_push_out_axis player platform side :
  match Box.axis_of side with
  | Box.Horizontal =>
      Player.x (Doubles.push_out player platform side)
      = Doubles.placed platform side
      /\ Player.vel_x (Doubles.push_out player platform side) = 0
  | Box.Vertical =>
      Player.y (Doubles.push_out player platform side)
      = Doubles.placed platform side
      /\ Player.vel_y (Doubles.push_out player platform side) = 0
  end.
Proof. destruct side; split; reflexivity. Qed.

Lemma double_resolve_keeps_y player platform :
  Player.vel_y player == 0 ->
  Player.y (Doubles.resolve player_rect player platform) = Player.y player
  /\ Player.vel_y (Doubles.resolve player_rect player platform)
     = Player.vel_y player
  /\ Player.on_ground (Doubles.resolve player_rect player platform)
     = Player.on_ground player.
Proof.
  intros Hv. unfold Doubles.resolve.
  destruct (Doubles.hit_side player_rect player platform) as [side|] eqn:E;
    [|auto].
  apply double_hit_side_velocity in E.
  destruct side; cbn; auto; lra.
Qed.

Lemma double_resolve_keeps_x player platform :
  Player.vel_x player == 0 ->
  Player.x (Doubles.resolve player_rect player platform) = Player.x player
  /\ Player.vel_x (Doubles.resolve player_rect player platform)
     = Player.vel_x player.
Proof.
  intros Hv. unfold Doubles.resolve.
  destruct (Doubles.hit_side player_rect player platform) as [side|] eqn:E;
    [|auto].
  apply double_hit_side_velocity in E.
  destruct side; cbn; auto; lra.
Qed.

Lemma double_loop_keeps_y platforms : forall player,
  Player.vel_y player == 0 ->
  let player' := fold_left (Doubles.resolve player_rect) platforms player in
  Player.y player' = Player.y player
  /\ Player.vel_y player' = Player.vel_y player
  /\ Player.on_ground player' = Player.on_ground player.
Proof.
  induction platforms as [|platform rest IH]; intros player Hv; cbn.
  - auto.
  - destruct (double_resolve_keeps_y player platform Hv) as (Hy & Hvy & Hg).
    destruct (IH (Doubles.resolve player_rect player platform))
      as (Hy' & Hvy' & Hg').
    + rewrite Hvy. exact Hv.
    + cbn in Hy', Hvy', Hg'. rewrite Hy', Hvy', Hg'. auto.
Qed.

Lemma double_loop_keeps_x platforms : forall player,
  Player.vel_x player == 0 ->
  let player' := fold_left (Doubles.resolve player_rect) platforms player in
  Player.x player' = Player.x player
  /\ Player.vel_x player' = Player.vel_x player.
Proof.
  induction platforms as [|platform rest IH]; intros player Hv; cbn.
  - auto.
  - destruct (double_resolve_keeps_x player platform Hv) as (Hx & Hvx).
    destruct (IH (Doubles.resolve player_rect player platform))
      as (Hx' & Hvx').
    + rewrite Hvx. exact Hv.
    + cbn in Hx', Hvx'. rewrite Hx', Hvx'. auto.
Qed.

(** Every platform of the trace still has the actor where its branch put
    it, on the axis of the branch, when the loop ends. *)
Lemma double_loop_placed platforms : forall player platform side,
  In (platform, side) (Doubles.loop player_rect player platforms) ->
  In platform platforms
  /\ match Box.axis_of side with
     | Box.Horizontal =>
         Player.x (fold_left (Doubles.resolve player_rect) platforms player)
         = Doubles.placed platform side
     | Box.Vertical =>
         Player.y (fold_left (Doubles.resolve player_rect) platforms player)
         = Doubles.placed platform side
     end.
Proof.
  induction platforms as [|first rest IH]; intros player platform side Hin;
    cbn in Hin.
  - contradiction.
  - cbn [fold_left].
    change (Doubles.resolve player_rect player first)
      with (match Doubles.hit_side player_rect player first with
            | Some side => Doubles.push_out player first side
            | None => player
            end).
    destruct (Doubles.hit_side player_rect player first) as [side0|] eqn:E.
    + destruct Hin as [Heq | Hin].
      * injection Heq as -> ->. split; [left; reflexivity|].
        pose proof (double_push_out_axis player platform side) as Hp.
        destruct (Box.axis_of side); destruct Hp as [Hc Hv].
        -- destruct (double_loop_keeps_x rest
                       (Doubles.push_out player platform side)) as [-> _];
             [rewrite Hv; reflexivity | exact Hc].
        -- destruct (double_loop_keeps_y rest
                       (Doubles.push_out player platform side)) as (-> & _);
             [rewrite Hv; reflexivity | exact Hc].
      * destruct (IH _ _ _ Hin) as [H1 H2]. split; [right; exact H1 | exact H2].
    + destruct (IH _ _ _ Hin) as [H1 H2]. split; [right; exact H1 | exact H2].
Qed.

End DoubleResolver.

Lemma double_first_above_in player platforms platform :
  Doubles.first_above player platforms = Some platform ->
  In platform platforms /\ Doubles.above player platform = true.
Proof.
  induction platforms as [|first rest IH]; cbn; [discriminate|].
  destruct (Doubles.above player first) eqn:E.
  - intros [= <-]. auto.
  - intros H. destruct (IH H). auto.
Qed.

(** The side by which a platform of [Doubles.resolved] was resolved, and
    the coordinate the call leaves the actor at. *)
Lemma resolved_placed self player platform axis :
  In (platform, axis) (Doubles.resolved self player) ->
  In platform (Level.platforms self)
  /\ exists side,
       Box.axis_of side = axis
       /\ match axis with
          | Box.Horizontal =>
              Player.x (Doubles.check_collision self player)
              = Doubles.placed platform side
          | Box.Vertical =>
              Player.y (Doubles.check_collision self player)
              = Doubles.placed platform side
          end.
Proof.
  unfold Doubles.resolved, Doubles.check_collision, Doubles.passes.
  destruct (Doubles.first_above (Player.set_on_ground player false)
              (Level.platforms self)) as [ground|] eqn:E.
  - intros [[= <- <-]|[]].
    apply double_first_above_in in E. destruct E as [Hin _].
    split; [exact Hin|]. exists FromAbove. split; reflexivity.
  - intros Hin. apply in_map_iff in Hin.
    destruct Hin as ([platform' side] & [= <- <-] & Hin).
    apply double_loop_placed in Hin. destruct Hin as [Hin Hc].
    split; [exact Hin|]. exists side. split; [reflexivity|].
    destruct (Player.on_ground player && _ && Qeq_bool _ 0);
      destruct (Box.axis_of side); exact Hc.
Qed.

Lemma in_range_platform self player platform :
  Doubles.in_range self player = true ->
  In platform (Level.platforms self) ->
  Doubles.small (Platform.x platform) = true
  /\ Doubles.small (Platform.y platform) = true
  /\ Doubles.small (Platform.width platform) = true
  /\ Doubles.small (Platform.height platform) = true.
Proof.
  unfold Doubles.in_range. intros H Hin.
  apply andb_prop in H. destruct H as [_ H].
  rewrite forallb_forall in H. specialize (H platform Hin).
  unfold Doubles.small_platform in H.
  repeat (apply andb_prop in H; destruct H as [H ?]). auto.
Qed.

(** Where a branch puts the actor, its box reaches into the platform by
    less than 2^-29 on the axis of the branch. *)
Lemma placed_within_rounding platform side player :
  Doubles.small (Platform.x platform) = true ->
  Doubles.small (Platform.y platform) = true ->
  Doubles.small (Platform.width platform) = true ->
  Doubles.small (Platform.height platform) = true ->
  match Box.axis_of side with
  | Box.Horizontal => Player.x player = Doubles.placed platform side
  | Box.Vertical => Player.y player = Doubles.placed platform side
  end ->
  ~ Doubles.overlap_by (1 # 2 ^ 29) (Box.axis_of side) player platform.
Proof.
  intros Hx Hy Hw Hh Hc.
  pose proof (far_edge _ _ Hx Hw) as Fx. pose proof (far_edge _ _ Hy Hh) as Fy.
  pose proof (small_bounds _ Hx) as Bx. pose proof (small_bounds _ Hy) as By.
  destruct side; cbn [Box.axis_of] in *; unfold Doubles.overlap_by,
    Doubles.left, Doubles.right, Doubles.top, Doubles.bottom;
    rewrite Hc; unfold Doubles.placed; rewrite ?half_width_eq, ?half_height_eq;
    intros [O1 O2].
  - assert (R := out_and_back _ 30 Fy ltac:(split; lra)).
    near R. change (1 # 2 ^ 29) with (1 # 536870912) in *. lra.
  - assert (R := back_and_out (Platform.x platform) 20
                  ltac:(split; lra) ltac:(split; lra)).
    near R. change (1 # 2 ^ 29) with (1 # 536870912) in *. lra.
  - assert (R := out_and_back _ 20 Fx ltac:(split; lra)).
    near R. change (1 # 2 ^ 29) with (1 # 536870912) in *. lra.
  - assert (R := back_and_out (Platform.y platform) 30
                  ltac:(split; lra) ltac:(split; lra)).
    near R. change (1 # 2 ^ 29) with (1 # 536870912) in *. lra.
Qed.

(** At a platform with integer coordinates the sums are exact and the
    boxes only touch. *)
Lemma placed_flush platform side player :
  Doubles.small (Platform.x platform) = true ->
  Doubles.small (Platform.y platform) = true ->
  Doubles.small (Platform.width platform) = true ->
  Doubles.small (Platform.height platform) = true ->
  Doubles.integral platform = true ->
  match Box.axis_of side with
  | Box.Horizontal => Player.x player = Doubles.placed platform side
  | Box.Vertical => Player.y player = Doubles.placed platform side
  end ->
  ~ Doubles.overlap_by 0 (Box.axis_of side) player platform.
Proof.
  intros Hx Hy Hw Hh Hi Hc.
  unfold Doubles.integral in Hi.
  repeat (apply andb_prop in Hi; destruct Hi as [Hi ?]).
  destruct (whole_Z _ Hx Hi) as (kx & Ex & Kx).
  destruct (whole_Z _ Hy) as (ky & Ey & Ky); [assumption|].
  destruct (whole_Z _ Hw) as (kw & Ew & Kw); [assumption|].
  destruct (whole_Z _ Hh) as (kh & Eh & Kh); [assumption|].
  change (2 ^ 20)%Z with 1048576%Z in *.
  assert (P53 : (2 ^ 53 = 9007199254740992)%Z) by reflexivity.
  destruct side; cbn [Box.axis_of] in *; unfold Doubles.overlap_by,
    Doubles.left, Doubles.right, Doubles.top, Doubles.bottom;
    rewrite Hc; unfold Doubles.placed; rewrite ?half_width_eq, ?half_height_eq;
    intros [O1 O2].
  - rewrite (add_Z _ _ ky kh Ey Eh) in O1 by lia.
    rewrite (add_Z _ 30 (ky + kh) 30) in O1 by (try reflexivity; lia).
    rewrite (sub_Z _ 30 (ky + kh + 30) 30) in O1 by (try reflexivity; lia).
    rewrite Qplus_0_r, <- Zlt_Qlt in O1. lia.
  - rewrite (sub_Z _ 20 kx 20 Ex) in O2 by (try reflexivity; lia).
    rewrite (add_Z _ 20 (kx - 20) 20) in O2 by (try reflexivity; lia).
    rewrite Ex, Qplus_0_r, <- Zlt_Qlt in O2. lia.
  - rewrite (add_Z _ _ kx kw Ex Ew) in O1 by lia.
    rewrite (add_Z _ 20 (kx + kw) 20) in O1 by (try reflexivity; lia).
    rewrite (sub_Z _ 20 (kx + kw + 20) 20) in O1 by (try reflexivity; lia).
    rewrite Qplus_0_r, <- Zlt_Qlt in O1. lia.
  - rewrite (sub_Z _ 30 ky 30 Ey) in O2 by (try reflexivity; lia).
    rewrite (add_Z _ 30 (ky - 30) 30) in O2 by (try reflexivity; lia).
    rewrite Ey, Qplus_0_r, <- Zlt_Qlt in O2. lia.
Qed.

(** C1, in binary64. One call of [check_collision] can leave the actor's
    box overlapping the box of a platform it was resolved against, on the
    axis of the move: pushed below a bridge whose top is at
    220.40000000000012, the actor's box has its top at 230.4000000000001,
    above the bridge's bottom at 230.40000000000012. *)
Lemma check_collision_overlap_in_doubles :
  In (DoubleInputs.bridge, Box.Vertical)
     (Doubles.resolved DoubleInputs.bridged DoubleInputs.rising)
  /\ Doubles.overlap_by 0 Box.Vertical
       (Doubles.check_collision DoubleInputs.bridged DoubleInputs.rising)
       DoubleInputs.bridge.
Proof.
  split.
  - vm_compute. left. reflexivity.
  - vm_compute. split; reflexivity.
Qed.

(** C1. After one call of [check_collision] in binary64 arithmetic, with
    all coordinates within 2^20 in magnitude, the actor's box reaches by
    less than 2^-29 into the box of any platform at which the call moved
    the actor, on the axis of the move: the ground-snap platform on the
    vertical axis, and each platform of the second loop on the axis of the
    branch taken. At a platform with integer coordinates and sizes the
    boxes do not overlap on that axis. *)
Theorem check_collision_separates_within_rounding self player platform axis :
  Doubles.in_range self player = true ->
  In (platform, axis) (Doubles.resolved self player) ->
  ~ Doubles.overlap_by (1 # 2 ^ 29) axis
      (Doubles.check_collision self player) platform
  /\ (Doubles.integral platform = true ->
      ~ Doubles.overlap_by 0 axis
          (Doubles.check_collision self player) platform).
Proof.
  intros Hr Hin.
  destruct (resolved_placed self player platform axis Hin)
    as (Hp & side & <- & Hc).
  destruct (in_range_platform self player platform Hr Hp)
    as (Hx & Hy & Hw & Hh).
  split.
  - apply placed_within_rounding; assumption.
  - intros Hi. apply placed_flush; assumption.
Qed.

Lemma check_collision_separates_within_rounding_witness :
  Doubles.in_range DoubleInputs.bridged DoubleInputs.rising = true
  /\ In (DoubleInputs.bridge, Box.Vertical)
        (Doubles.resolved DoubleInputs.bridged DoubleInputs.rising)
  /\ ~ Doubles.overlap_by (1 # 2 ^ 29) Box.Vertical
         (Doubles.check_collision DoubleInputs.bridged DoubleInputs.rising)
         DoubleInputs.bridge.
Proof.
  split; [vm_compute; reflexivity|].
  split; [vm_compute; left; reflexivity|].
  apply (check_collision_separates_within_rounding
           DoubleInputs.bridged DoubleInputs.rising).
  - vm_compute. reflexivity.
  - vm_compute. left. reflexivity.
Defined.

(** C5. While [jump_safety] is positive, [check_gap] returns false,
    whatever the platforms. *)
Theorem check_gap_jump_safety self player :
  (Player.jump_safety player > 0)%Z ->
  Level.check_gap self player = false.
Proof.
  intros H. unfold Level.check_gap.
  destruct (Player.jump_safety player >? 0)%Z eqn:E; [reflexivity|].
  rewrite Z.gtb_ltb, Z.ltb_ge in E. lia.
Qed.

Lemma check_gap_jump_safety_witness :
  (Player.jump_safety Inputs.jumper > 0)%Z
  /\ Level.check_gap Inputs.void Inputs.jumper = false.
Proof.
  split.
  - reflexivity.
  - apply (check_gap_jump_safety Inputs.void Inputs.jumper). reflexivity.
Defined.

(** On the early return of the first loop the actor is on the ground. *)
Lemma passes_returned self player player' :
  Level.passes self player = (player', true) ->
  Player.on_ground player' = true.
Proof.
  unfold Level.passes.
  destruct (Level.first_above _ _); intros [= <-]; reflexivity.
Qed.

(** An actor without vertical velocity leaves the two loops without one,
    unless the first loop returned. *)
Lemma passes_keeps_rest self player player' :
  Player.vel_y player == 0 ->
  Level.passes self player = (player', false) ->
  Player.vel_y player' == 0.
Proof.
  unfold Level.passes. intros Hv.
  destruct (Level.first_above _ _); intros [= <-].
  destruct (loop_keeps_y (Player.get_rect player) (Level.platforms self)
              (Player.set_on_ground player false) Hv) as (_ & -> & _).
  exact Hv.
Qed.

(** C8. An actor that was on the ground before the call, is on no platform
    after the two loops, and has zero vertical velocity (on entry, or when
    the loops end) leaves [check_collision] with the downward velocity 0.1. *)
Theorem check_collision_starts_fall self player :
  Player.on_ground player = true ->
  Player.on_ground (Level.check_collision self player) = false ->
  Player.vel_y player == 0
  \/ Player.vel_y (fst (Level.passes self player)) == 0 ->
  Player.vel_y (Level.check_collision self player) = 0.1
  /\ 0 < Player.vel_y (Level.check_collision self player).
Proof.
  intros Hwas Hoff Hzero. unfold Level.check_collision in *.
  destruct (Level.passes self player) as [player' returned] eqn:E.
  rewrite Hwas in *. cbn [andb fst] in *.
  destruct returned.
  - apply passes_returned in E. congruence.
  - assert (Hv : Player.vel_y player' == 0).
    { destruct Hzero as [H|H]; [|exact H].
      eapply passes_keeps_rest; eauto. }
    apply Qeq_bool_iff in Hv. rewrite Hv in *. rewrite andb_true_r in *.
    destruct (Player.on_ground player') eqn:G; cbn in *.
    + congruence.
    + split; [reflexivity | reflexivity].
Qed.

Lemma check_collision_starts_fall_witness :
  Player.on_ground Inputs.walked_off = true
  /\ Player.on_ground
       (Level.check_collision Inputs.ledge_level Inputs.walked_off) = false
  /\ Player.vel_y
       (Level.check_collision Inputs.ledge_level Inputs.walked_off) = 0.1.
Proof.
  split; [reflexivity|]. split; [reflexivity|].
  apply (check_collision_starts_fall Inputs.ledge_level Inputs.walked_off).
  - reflexivity.
  - reflexivity.
  - left. reflexivity.
Defined.




(** ** What each block of a frame leaves alone *)

Lemma update_tile_count keys player :
  Player.tile_count (Player.update keys player) = Player.tile_count player.
Proof.
  unfold Player.update, Player.jump. cbv zeta.
  repeat match goal with
         | |- context [Player.tick ?f ?n] => destruct (Player.tick f n)
         | |- context [if ?c then _ else _] => destruct c
         end; reflexivity.
Qed.

Lemma push_out_tile_count player platform side :
  Player.tile_count (Level.push_out player platform side)
  = Player.tile_count player.
Proof. destruct side; reflexivity. Qed.

Lemma loop_tile_count player_rect platforms : forall player,
  Player.tile_count (fold_left (Level.resolve player_rect) platforms player)
  = Player.tile_count player.
Proof.
  induction platforms as [|platform rest IH]; intros player; cbn.
  - reflexivity.
  - rewrite IH. unfold Level.resolve.
    destruct (Level.hit_side _ _ _); [apply push_out_tile_count|reflexivity].
Qed.

Lemma check_collision_tile_count self player :
  Player.tile_count (Level.check_collision self player)
  = Player.tile_count player.
Proof.
  unfold Level.check_collision, Level.passes.
  destruct (Level.first_above _ _); [reflexivity|].
  destruct (_ && _ && Qeq_bool _ 0); cbn; rewrite loop_tile_count;
    reflexivity.
Qed.

Lemma add_tile_bounds player :
  (0 <= Player.tile_count player <= 20)%Z ->
  (0 <= Player.tile_count (Player.add_tile player) <= 20)%Z.
Proof.
  unfold Player.add_tile, Player.max_tiles.
  destruct (Player.tile_count player <? 20)%Z eqn:E; cbn; [|auto].
  apply Z.ltb_lt in E. lia.
Qed.

Lemma remove_tile_bounds player :
  (0 <= Player.tile_count player <= 20)%Z ->
  (0 <= Player.tile_count (fst (Player.remove_tile player)) <= 20)%Z.
Proof.
  unfold Player.remove_tile.
  destruct (Player.tile_count player >? 0)%Z eqn:E; cbn; [|auto].
  rewrite Z.gtb_ltb in E. apply Z.ltb_lt in E. lia.
Qed.

Section Blocks.

Variable sin : Q -> Q.
Variable keys : pygame.Pressed.

Lemma advance_frame g :
  let g' := Game.advance sin keys g in
  Level.platforms (Game.level g') = Level.platforms (Game.level g)
  /\ Level.finish_line (Game.level g') = Level.finish_line (Game.level g)
  /\ Level.tiles (Game.level g')
     = map (Tile.update sin) (Level.tiles (Game.level g))
  /\ Player.tile_count (Game.player g') = Player.tile_count (Game.player g)
  /\ Game.score g' = Game.score g
  /\ Game.state g' = Game.state g
  /\ Game.timer g' = (Game.timer g + 1)%Z.
Proof.
  cbn. rewrite check_collision_tile_count, update_tile_count. intuition.
Qed.

End Blocks.

Lemma collect_first_cases player_rect tiles :
  (snd (Level.collect_first player_rect tiles) = None
   /\ fst (Level.collect_first player_rect tiles) = tiles)
  \/ exists i tile,
       nth_error tiles i = Some tile
       /\ Tile.collected tile = false
       /\ pygame.colliderect player_rect (Tile.get_rect tile) = true
       /\ snd (Level.collect_first player_rect tiles)
          = Some (Tile.set_collected tile true)
       /\ fst (Level.collect_first player_rect tiles)
          = firstn i tiles ++ Tile.set_collected tile true :: skipn (S i) tiles.
Proof.
  induction tiles as [|tile rest IH]; cbn.
  - left. auto.
  - destruct (negb (Tile.collected tile)
              && pygame.colliderect player_rect (Tile.get_rect tile)) eqn:E.
    + right. exists 0%nat, tile. apply andb_prop in E. destruct E as [E1 E2].
      apply negb_true_iff in E1. cbn. auto.
    + destruct (Level.collect_first player_rect rest) as [rest' r] eqn:R.
      cbn in *. destruct IH as [[-> ->]|(i & t & Hn & Hc & Ho & -> & ->)].
      * left. auto.
      * right. exists (S i), t. cbn. auto.
Qed.

(** A tile to collect exists exactly when the loop returns one. *)
Lemma collect_first_finds player_rect tiles :
  existsb (fun tile => negb (Tile.collected tile)
                       && pygame.colliderect player_rect (Tile.get_rect tile))
          tiles = true ->
  snd (Level.collect_first player_rect tiles) <> None.
Proof.
  induction tiles as [|tile rest IH]; cbn; [discriminate|].
  destruct (negb (Tile.collected tile)
            && pygame.colliderect player_rect (Tile.get_rect tile)); cbn.
  - discriminate.
  - intros H. destruct (Level.collect_first player_rect rest). cbn in *. auto.
Qed.

Lemma collect_tile_frame g :
  let g' := Game.collect_tile g in
  Level.platforms (Game.level g') = Level.platforms (Game.level g)
  /\ Level.finish_line (Game.level g') = Level.finish_line (Game.level g)
  /\ Level.tiles (Game.level g')
     = fst (Level.collect_first (Player.get_rect (Game.player g))
                                (Level.tiles (Game.level g)))
  /\ Game.state g' = Game.state g
  /\ Game.timer g' = Game.timer g
  /\ Game.player g'
     = match snd (Level.collect_first (Player.get_rect (Game.player g))
                                      (Level.tiles (Game.level g))) with
       | Some _ => Player.add_tile (Game.player g)
       | None => Game.player g
       end
  /\ Game.score g'
     = match snd (Level.collect_first (Player.get_rect (Game.player g))
                                      (Level.tiles (Game.level g))) with
       | Some _ => (Game.score g + 10)%Z
       | None => Game.score g
       end.
Proof.
  unfold Game.collect_tile, Level.check_tile_collection.
  destruct (Level.collect_first _ _) as [tiles [tile|]]; cbn; intuition.
Qed.

Lemma add_tile_count p q :
  Player.tile_count p = Player.tile_count q ->
  Player.tile_count (Player.add_tile p) = Player.tile_count (Player.add_tile q).
Proof.
  intros H. unfold Player.add_tile. rewrite H.
  destruct (_ <? _)%Z; cbn; congruence.
Qed.

Lemma add_tile_full player :
  Player.tile_count player = 20%Z ->
  Player.tile_count (Player.add_tile player) = 20%Z.
Proof.
  intros H. unfold Player.add_tile. rewrite H. cbn. exact H.
Qed.

(** The gap block: nothing, or a bridge for a tile, or the fall. *)
Lemma bridge_or_fall_cases g :
  let g' := Game.bridge_or_fall g in
  let player := Game.player g in
  (Qltb 2.0 (Player.vel_y player) && Level.check_gap (Game.level g) player = false
   /\ g' = g)
  \/ (Qltb 2.0 (Player.vel_y player) && Level.check_gap (Game.level g) player = true
      /\ (0 < Player.tile_count player)%Z
      /\ Game.player g'
         = Player.set_tile_count player (Player.tile_count player - 1)%Z
      /\ Game.level g'
         = Level.build_bridge (Game.level g) (Player.x player) (Player.y player)
      /\ Game.state g' = Game.state g
      /\ Game.sounds g' = Game.sounds g ++ ["drop"%string])
  \/ (Qltb 2.0 (Player.vel_y player) && Level.check_gap (Game.level g) player = true
      /\ (Player.tile_count player <= 0)%Z
      /\ Game.player g' = Player.fall player
      /\ Game.level g' = Game.level g
      /\ Game.state g' = Game.STATE_GAME_OVER
      /\ Game.sounds g' = Game.sounds g ++ ["fall"%string]).
Proof.
  unfold Game.bridge_or_fall.
  destruct (Qltb 2.0 _ && Level.check_gap _ _) eqn:E; cbv zeta.
  - right. unfold Player.remove_tile.
    destruct (Player.tile_count (Game.player g) >? 0)%Z eqn:T.
    + left. cbn. rewrite Z.gtb_ltb in T. apply Z.ltb_lt in T.
      repeat split; auto.
    + right. cbn. rewrite Z.gtb_ltb in T. apply Z.ltb_ge in T.
      repeat split; auto.
  - left. auto.
Qed.

Lemma bridge_or_fall_frame g :
  let g' := Game.bridge_or_fall g in
  Level.tiles (Game.level g') = Level.tiles (Game.level g)
  /\ Level.finish_line (Game.level g') = Level.finish_line (Game.level g)
  /\ Game.score g' = Game.score g
  /\ Game.timer g' = Game.timer g
  /\ Player.x (Game.player g') = Player.x (Game.player g)
  /\ Player.y (Game.player g') = Player.y (Game.player g).
Proof.
  unfold Game.bridge_or_fall, Player.remove_tile.
  destruct (Qltb 2.0 _ && Level.check_gap _ _); cbv zeta; [|intuition].
  destruct (Player.tile_count (Game.player g) >? 0)%Z eqn:T; cbn;
    rewrite ?T; cbn; intuition.
Qed.

Lemma collect_powerup_frame g :
  let g' := Game.collect_powerup g in
  Level.platforms (Game.level g') = Level.platforms (Game.level g)
  /\ Level.tiles (Game.level g') = Level.tiles (Game.level g)
  /\ Level.finish_line (Game.level g') = Level.finish_line (Game.level g)
  /\ Game.score g' = Game.score g
  /\ Game.state g' = Game.state g
  /\ Game.timer g' = Game.timer g
  /\ Player.tile_count (Game.player g') = Player.tile_count (Game.player g)
  /\ Player.x (Game.player g') = Player.x (Game.player g)
  /\ Player.y (Game.player g') = Player.y (Game.player g)
  /\ Player.vel_y (Game.player g') = Player.vel_y (Game.player g).
Proof.
  unfold Game.collect_powerup, Level.check_powerup_collision.
  destruct (Level.collect_first_powerup _ _) as [power_ups [[| |]|]]; cbn;
    intuition.
Qed.

(** The camera, finish-line and fall-off blocks leave player and level. *)
Lemma closing_blocks_frame g :
  Game.player (Game.fell_off (Game.finish (Game.follow g))) = Game.player g
  /\ Game.level (Game.fell_off (Game.finish (Game.follow g))) = Game.level g.
Proof.
  unfold Game.fell_off, Game.finish, Game.follow.
  destruct (Level.check_finish_line _ _); cbv zeta;
    destruct (Qltb _ _); cbn; auto.
Qed.

(** ** Frames *)

Section Frames.

Variable sin : Q -> Q.
Variable keys : pygame.Pressed.

Lemma update_playing g :
  Game.state g = Game.STATE_PLAYING ->
  Game.update sin keys g
  = Game.fell_off (Game.finish (Game.before_finish sin keys g)).
Proof. unfold Game.update. intros ->. reflexivity. Qed.

(** Outside [STATE_PLAYING] a frame leaves player, level and score. *)
Lemma update_idle g :
  Game.state g <> Game.STATE_PLAYING ->
  Game.player (Game.update sin keys g) = Game.player g
  /\ Game.level (Game.update sin keys g) = Game.level g
  /\ Game.score (Game.update sin keys g) = Game.score g.
Proof.
  unfold Game.update. destruct (Game.state g); try congruence; auto.
  cbv zeta. destruct (_ <=? _)%Z; auto.
Qed.

(** After the gap block, a playing frame changes of player and level only
    the power-up flags. *)
Lemma update_after_gap g :
  Game.state g = Game.STATE_PLAYING ->
  let g2 := Game.bridge_or_fall (Game.before_gap sin keys g) in
  let g' := Game.update sin keys g in
  Level.platforms (Game.level g') = Level.platforms (Game.level g2)
  /\ Level.tiles (Game.level g') = Level.tiles (Game.level g2)
  /\ Level.finish_line (Game.level g') = Level.finish_line (Game.level g2)
  /\ Player.tile_count (Game.player g') = Player.tile_count (Game.player g2)
  /\ Player.x (Game.player g') = Player.x (Game.player g2)
  /\ Player.y (Game.player g') = Player.y (Game.player g2)
  /\ Player.vel_y (Game.player g') = Player.vel_y (Game.player g2).
Proof.
  intros Hs. cbv zeta. rewrite (update_playing g Hs).
  unfold Game.before_finish.
  destruct (closing_blocks_frame
              (Game.collect_powerup
                 (Game.bridge_or_fall (Game.before_gap sin keys g))))
    as [-> ->].
  pose proof (collect_powerup_frame
                (Game.bridge_or_fall (Game.before_gap sin keys g))) as H.
  cbv zeta in H. intuition.
Qed.

(** Up to the gap block the platforms and the finish line are those of
    the frame's start, and the count is the start's or one more. *)
Lemma before_gap_frame g :
  let g1 := Game.before_gap sin keys g in
  Level.platforms (Game.level g1) = Level.platforms (Game.level g)
  /\ Level.finish_line (Game.level g1) = Level.finish_line (Game.level g)
  /\ Game.state g1 = Game.state g
  /\ Game.timer g1 = (Game.timer g + 1)%Z
  /\ (Player.tile_count (Game.player g1) = Player.tile_count (Game.player g)
      \/ Player.tile_count (Game.player g1)
         = Player.tile_count (Player.add_tile (Game.player g))).
Proof.
  cbv zeta. unfold Game.before_gap.
  pose proof (advance_frame sin keys g) as A. cbv zeta in A.
  pose proof (collect_tile_frame (Game.advance sin keys g)) as C.
  cbv zeta in C.
  destruct A as (A1 & A2 & A3 & A4 & A5 & A6 & A7).
  destruct C as (C1 & C2 & C3 & C4 & C5 & C6 & C7).
  rewrite C1, C2, C4, C5, C6, A1, A2, A6, A7.
  repeat split.
  destruct (snd (Level.collect_first _ _)).
  - right. apply add_tile_count. exact A4.
  - left. exact A4.
Qed.

(** The platform list after a frame: that of the start, or that with one
    bridge appended, paid for with a tile held on entry to the gap block. *)
Lemma update_platforms g :
  let g1 := Game.before_gap sin keys g in
  let g' := Game.update sin keys g in
  (Level.platforms (Game.level g') = Level.platforms (Game.level g)
   /\ (Game.state g = Game.STATE_PLAYING ->
       Player.tile_count (Game.player g')
       = Player.tile_count (Game.player g1)))
  \/ (Game.state g = Game.STATE_PLAYING
      /\ Qltb 2.0 (Player.vel_y (Game.player g1))
         && Level.check_gap (Game.level g1) (Game.player g1) = true
      /\ (0 < Player.tile_count (Game.player g1))%Z
      /\ Level.platforms (Game.level g')
         = Level.platforms (Game.level g)
           ++ [Platform.mk (Player.x (Game.player g1) - 20)
                           (Player.y (Game.player g1) + 20) 40 10]
      /\ Player.tile_count (Game.player g')
         = (Player.tile_count (Game.player g1) - 1)%Z).
Proof.
  cbv zeta.
  destruct (Game.State_eqb (Game.state g) Game.STATE_PLAYING) eqn:S.
  - assert (Hs : Game.state g = Game.STATE_PLAYING)
      by (destruct (Game.state g); try discriminate; reflexivity).
    pose proof (update_after_gap g Hs) as U. cbv zeta in U.
    destruct U as (U1 & _ & _ & U4 & _).
    pose proof (before_gap_frame g) as B. cbv zeta in B.
    destruct B as (B1 & _).
    pose proof (bridge_or_fall_cases (Game.before_gap sin keys g)) as G.
    cbv zeta in G. rewrite U1, U4.
    destruct G as [[_ ->] | [(Hc & Ht & Hp & Hl & _) | (_ & _ & Hp & Hl & _)]].
    + left. split; [exact B1 | reflexivity].
    + right. rewrite Hp, Hl. cbn. rewrite B1. auto.
    + left. rewrite Hp, Hl. split; [exact B1 | reflexivity].
  - left. assert (Hs : Game.state g <> Game.STATE_PLAYING)
      by (intros E; rewrite E in S; discriminate).
    destruct (update_idle g Hs) as (_ & -> & _).
    split; [reflexivity | contradiction].
Qed.

Lemma update_tile_count_bounds g :
  (0 <= Player.tile_count (Game.player g) <= 20)%Z ->
  (0 <= Player.tile_count (Game.player (Game.update sin keys g)) <= 20)%Z.
Proof.
  intros Hb.
  assert (H1 : (0 <= Player.tile_count
                       (Game.player (Game.before_gap sin keys g)) <= 20)%Z).
  { pose proof (before_gap_frame g) as B. cbv zeta in B.
    destruct B as (_ & _ & _ & _ & [-> | ->]);
      [exact Hb | apply add_tile_bounds; exact Hb]. }
  destruct (Game.State_eqb (Game.state g) Game.STATE_PLAYING) eqn:S.
  - assert (Hs : Game.state g = Game.STATE_PLAYING)
      by (destruct (Game.state g); try discriminate; reflexivity).
    pose proof (update_platforms g) as U. cbv zeta in U.
    destruct U as [[_ U] | (_ & _ & Ht & _ & ->)].
    + rewrite (U Hs). exact H1.
    + lia.
  - assert (Hs : Game.state g <> Game.STATE_PLAYING)
      by (intros E; rewrite E in S; discriminate).
    destruct (update_idle g Hs) as (-> & _). exact Hb.
Qed.

End Frames.

Lemma handle_event_tile_count_bounds written fresh event g :
  Player.tile_count (Game.player (fst (Game.handle_event written fresh event g)))
  = Player.tile_count (Game.player g)
  \/ Player.tile_count
       (Game.player (fst (Game.handle_event written fresh event g))) = 0%Z.
Proof.
  unfold Game.handle_event, Game._restart_game, Game._save_high_score,
    Player.handle_event, Player.jump.
  destruct event as [|key|]; cbn -[Z.gtb].
  - auto.
  - repeat match goal with
           | |- context [match Game.state g with _ => _ end] =>
               destruct (Game.state g)
           | |- context [if ?c then _ else _] => destruct c
           | |- _ => progress cbn -[Z.gtb]
           end; auto.
  - destruct (Game.state g); cbn; auto.
Qed.

(** ** The resource counter *)

Lemma reachable_tile_count sin g :
  Run.reachable sin g ->
  (0 <= Player.tile_count (Game.player g) <= 20)%Z.
Proof.
  induction 1 as [generated tiles power_ups high_score
                 | keys g _ IH
                 | written generated tiles power_ups event g _ IH].
  - cbn. lia.
  - apply update_tile_count_bounds. exact IH.
  - destruct (handle_event_tile_count_bounds written
                (Level.init generated tiles power_ups) event g) as [-> | ->];
      [exact IH | lia].
Qed.

(** C2. In every reachable state the tile count lies in [0, 20];
    [add_tile] does not take it above 20 nor [remove_tile] below 0; and a
    frame appends a bridge only against a tile held on entry to the gap
    block: with a count of 0 there the platform list is left as it was. *)
Theorem resource_count_invariant sin g :
  Run.reachable sin g ->
  (0 <= Player.tile_count (Game.player g) <= 20)%Z
  /\ (Player.tile_count (Player.add_tile (Game.player g)) <= 20)%Z
  /\ (0 <= Player.tile_count (fst (Player.remove_tile (Game.player g))))%Z
  /\ forall keys,
       let g1 := Game.before_gap sin keys g in
       let g' := Game.update sin keys g in
       (Player.tile_count (Game.player g1) = 0%Z ->
        Level.platforms (Game.level g') = Level.platforms (Game.level g))
       /\ (Level.platforms (Game.level g') <> Level.platforms (Game.level g) ->
           (0 < Player.tile_count (Game.player g1))%Z
           /\ Level.platforms (Game.level g')
              = Level.platforms (Game.level g)
                ++ [Platform.mk (Player.x (Game.player g1) - 20)
                                (Player.y (Game.player g1) + 20) 40 10]).
Proof.
  intros Hr. pose proof (reachable_tile_count sin g Hr) as Hb.
  split; [exact Hb|].
  split; [apply add_tile_bounds; exact Hb|].
  split; [apply remove_tile_bounds; exact Hb|].
  intros keys. cbv zeta.
  pose proof (update_platforms sin keys g) as U. cbv zeta in U.
  destruct U as [[U _] | (_ & _ & Ht & Hp & _)].
  - split; [intros _; exact U | intros Hne; contradiction].
  - split; [intros Hz; lia | intros _; split; [exact Ht | exact Hp]].
Qed.

Lemma resource_count_invariant_witness :
  Run.reachable Inputs.flat (Game.init (Level.init [] [] []) 0)
  /\ (0 <= Player.tile_count
             (Game.player (Game.init (Level.init [] [] []) 0)) <= 20)%Z.
Proof.
  split.
  - apply Run.reach_init.
  - apply (resource_count_invariant Inputs.flat
             (Game.init (Level.init [] [] []) 0)).
    apply Run.reach_init.
Defined.

(** ** Bridges *)

(** [check_gap] fires only on a fall faster than 2. *)
Lemma check_gap_falling self player :
  Level.check_gap self player = true ->
  Qltb 2.0 (Player.vel_y player) = true.
Proof.
  unfold Level.check_gap.
  destruct (_ >? _)%Z; [discriminate|].
  destruct (Qltb 2.0 (Player.vel_y player)); [reflexivity|discriminate].
Qed.

Section Bridge.

Variable sin : Q -> Q.
Variable keys : pygame.Pressed.

(** A gap declared over a held tile spends the tile on one bridge, 40 by
    10, placed from 20 left of the actor's [x] and 20 below its [y]. *)
Lemma bridge_built g :
  Game.state g = Game.STATE_PLAYING ->
  let g1 := Game.before_gap sin keys g in
  let g' := Game.update sin keys g in
  Level.check_gap (Game.level g1) (Game.player g1) = true ->
  (0 < Player.tile_count (Game.player g1))%Z ->
  Player.tile_count (Game.player g')
  = (Player.tile_count (Game.player g1) - 1)%Z
  /\ Level.platforms (Game.level g')
     = Level.platforms (Game.level g)
       ++ [Platform.mk (Player.x (Game.player g') - 20)
                       (Player.y (Game.player g') + 20) 40 10]
  /\ Player.x (Game.player g') = Player.x (Game.player g1)
  /\ Player.y (Game.player g') = Player.y (Game.player g1).
Proof.
  intros Hs. cbv zeta. intros Hgap Hcount.
  pose proof (update_after_gap sin keys g Hs) as U. cbv zeta in U.
  destruct U as (U1 & _ & _ & U4 & U5 & U6 & _).
  pose proof (before_gap_frame sin keys g) as B. cbv zeta in B.
  destruct B as (B1 & _).
  pose proof (bridge_or_fall_frame (Game.before_gap sin keys g)) as F.
  cbv zeta in F. destruct F as (_ & _ & _ & _ & F5 & F6).
  pose proof (bridge_or_fall_cases (Game.before_gap sin keys g)) as G.
  cbv zeta in G.
  rewrite (check_gap_falling _ _ Hgap), Hgap in G. cbn [andb] in G.
  destruct G as [[G _] | [(_ & _ & Hp & Hl & _) | (_ & Hle & _)]];
    [discriminate | | lia].
  rewrite U1, U4, U5, U6, F5, F6, Hp, Hl. cbn. rewrite B1. auto.
Qed.

End Bridge.

(** C3, as stated, fails: the scenario's frame spends one of the two tiles
    on one appended platform, whose centre is level with the actor
    horizontally and 25 below it vertically. *)
Lemma bridge_not_centered_on_actor :
  let g := Inputs.over_gap in
  let g1 := Game.before_gap Inputs.flat Inputs.hold_right g in
  let g' := Game.update Inputs.flat Inputs.hold_right g in
  Game.state g = Game.STATE_PLAYING
  /\ Player.vel_y (Game.player g1) == 5
  /\ Player.tile_count (Game.player g1) = 2%Z
  /\ Level.check_gap (Game.level g1) (Game.player g1) = true
  /\ Player.tile_count (Game.player g') = 1%Z
  /\ exists bridge,
       Level.platforms (Game.level g')
       = Level.platforms (Game.level g) ++ [bridge]
       /\ ~ centered_at bridge (Player.x (Game.player g'))
                               (Player.y (Game.player g')).
Proof.
  cbv zeta.
  destruct (bridge_built Inputs.flat Inputs.hold_right Inputs.over_gap)
    as (Hc & Hp & _); [reflexivity | reflexivity | reflexivity |].
  split; [reflexivity|]. split; [reflexivity|]. split; [reflexivity|].
  split; [reflexivity|]. split; [reflexivity|].
  eexists. split; [exact Hp|].
  unfold centered_at. cbn -[Game.update Qeq Qplus Qminus Qdiv].
  intros [_ H]. revert H.
  generalize (Player.y (Game.player (Game.update Inputs.flat Inputs.hold_right
                                       Inputs.over_gap))).
  intros y H. assert (E : 10 / 2 == 5) by reflexivity.
  rewrite E in H. lra.
Qed.

(** C3, amended. For an actor that on entry to the gap block of a playing
    frame falls with [vel_y = 5] over a gap ([check_gap] holds) and holds
    two tiles, the frame leaves one tile and appends exactly one platform,
    40 wide and 10 high, whose horizontal centre is the actor's [x] and
    whose top edge lies 20 below the actor's [y]. *)
Theorem bridge_scenario sin keys g :
  Game.state g = Game.STATE_PLAYING ->
  let g1 := Game.before_gap sin keys g in
  let g' := Game.update sin keys g in
  Player.vel_y (Game.player g1) == 5 ->
  Level.check_gap (Game.level g1) (Game.player g1) = true ->
  Player.tile_count (Game.player g1) = 2%Z ->
  Player.tile_count (Game.player g') = 1%Z
  /\ exists bridge,
       Level.platforms (Game.level g')
       = Level.platforms (Game.level g) ++ [bridge]
       /\ Platform.width bridge = 40 /\ Platform.height bridge = 10
       /\ Platform.x bridge + Platform.width bridge / 2
          == Player.x (Game.player g')
       /\ Platform.y bridge == Player.y (Game.player g') + 20.
Proof.
  intros Hs. cbv zeta. intros _ Hgap Hcount.
  destruct (bridge_built sin keys g Hs Hgap) as (Hc & Hp & _); [lia|].
  split; [rewrite Hc, Hcount; reflexivity|].
  eexists. split; [exact Hp|].
  cbn -[Game.update Qeq Qplus Qminus Qdiv].
  split; [reflexivity|]. split; [reflexivity|]. split; [|reflexivity].
  generalize (Player.x (Game.player (Game.update sin keys g))).
  intros x. field.
Qed.

Lemma bridge_scenario_witness :
  let g' := Game.update Inputs.flat Inputs.hold_right Inputs.over_gap in
  Player.tile_count (Game.player g') = 1%Z
  /\ exists bridge,
       Level.platforms (Game.level g')
       = Level.platforms (Game.level Inputs.over_gap) ++ [bridge]
       /\ Platform.width bridge = 40 /\ Platform.height bridge = 10
       /\ Platform.x bridge + Platform.width bridge / 2
          == Player.x (Game.player g')
       /\ Platform.y bridge == Player.y (Game.player g') + 20.
Proof.
  apply (bridge_scenario Inputs.flat Inputs.hold_right Inputs.over_gap).
  - reflexivity.
  - reflexivity.
  - reflexivity.
  - reflexivity.
Defined.

(** ** Ends of a round *)

(** C4, evaluated on the code: [Inputs.leap_at_finish], one frame with the
    right key held. A gap is declared under an actor without tiles: the gap
    block plays "fall", sets [vel_y] to 15 and the state to
    [STATE_GAME_OVER]; the finish-line block of the same frame then finds
    the actor's box on the finish line, and the frame ends in
    [STATE_LEVEL_COMPLETE] with the bonus added. *)
Theorem fall_overwritten_by_finish sin :
  let g := Inputs.leap_at_finish in
  let g1 := Game.before_gap sin Inputs.hold_right g in
  let g' := Game.update sin Inputs.hold_right g in
  Game.state g = Game.STATE_PLAYING
  /\ Player.tile_count (Game.player g1) = 0%Z
  /\ Level.check_gap (Game.level g1) (Game.player g1) = true
  /\ Game.state (Game.bridge_or_fall g1) = Game.STATE_GAME_OVER
  /\ Player.vel_y (Game.player g') = 15
  /\ Game.state g' = Game.STATE_LEVEL_COMPLETE
  /\ Game.sounds g' = ["fall"; "success"]%string
  /\ Game.score g' = 9850%Z.
Proof.
  cbv zeta. repeat split; vm_compute; reflexivity.
Qed.

(** Where the finish line is not reached in the frame, a gap declared
    under an actor without tiles ends the round: [STATE_GAME_OVER], with
    [vel_y] at 15. *)
Lemma fall_ends_round sin keys g :
  Game.state g = Game.STATE_PLAYING ->
  let g1 := Game.before_gap sin keys g in
  let g' := Game.update sin keys g in
  Level.check_gap (Game.level g1) (Game.player g1) = true ->
  Player.tile_count (Game.player g1) = 0%Z ->
  Level.check_finish_line (Game.level (Game.before_finish sin keys g))
                          (Game.player (Game.before_finish sin keys g)) = false ->
  Game.state g' = Game.STATE_GAME_OVER
  /\ Player.vel_y (Game.player g') = 15.
Proof.
  intros Hs. cbv zeta. intros Hgap Hcount Hfin.
  pose proof (update_after_gap sin keys g Hs) as U. cbv zeta in U.
  destruct U as (_ & _ & _ & _ & _ & _ & U7).
  pose proof (bridge_or_fall_cases (Game.before_gap sin keys g)) as G.
  cbv zeta in G.
  rewrite (check_gap_falling _ _ Hgap), Hgap in G. cbn [andb] in G.
  destruct G as [[G _] | [(_ & Hpos & _) | (_ & _ & Hp & _ & Hst & _)]];
    [discriminate | lia |].
  rewrite U7, Hp. split; [|reflexivity].
  rewrite (update_playing sin keys g Hs).
  unfold Game.fell_off, Game.finish. rewrite Hfin.
  destruct (Qltb _ _); [reflexivity|].
  unfold Game.before_finish.
  pose proof (collect_powerup_frame
                (Game.bridge_or_fall (Game.before_gap sin keys g))) as C.
  cbv zeta in C. destruct C as (_ & _ & _ & _ & C5 & _).
  unfold Game.follow. cbn. rewrite C5. exact Hst.
Qed.

(** Truncation is at least any non-negative integer below its argument. *)
Lemma to_int_lower n q :
  (0 <= n)%Z -> inject_Z n <= q -> (n <= pygame.to_int q)%Z.
Proof.
  destruct q as [a d]. unfold Qle, pygame.to_int. cbn. intros Hn H.
  assert (Ha : (0 <= a)%Z) by nia.
  rewrite Z.quot_div_nonneg by lia.
  apply Z.div_le_lower_bound; lia.
Qed.

(** A box that meets the generated finish line is above the lower bound
    of the screen. *)
Lemma finish_in_sight player :
  pygame.colliderect (Player.get_rect player)
                     (FinishLine.get_rect Level.finish) = true ->
  Qltb (inject_Z (config.SCREEN_HEIGHT + 200)) (Player.y player) = false.
Proof.
  intros Hc. apply Qltb_false_iff.
  destruct (Qlt_le_dec (inject_Z (config.SCREEN_HEIGHT + 200)) (Player.y player))
    as [Hlt|Hle]; [exfalso|exact Hle].
  assert (Ht : (770 <= pygame.to_int
                         (Player.y player - inject_Z (Player.height / 2)))%Z).
  { apply to_int_lower; [lia|].
    change (inject_Z (config.SCREEN_HEIGHT + 200)) with 800 in Hlt.
    change (inject_Z (Player.height / 2)) with 30.
    change (inject_Z 770) with 770. lra. }
  change (FinishLine.get_rect Level.finish)
    with (pygame.mkRect 4700 350 20 200) in Hc.
  unfold pygame.colliderect, Player.get_rect, pygame.Rect_ in Hc.
  cbn [pygame.left pygame.top pygame.w pygame.h] in Hc.
  change (pygame.to_int (inject_Z Player.width)) with 40%Z in Hc.
  change (pygame.to_int (inject_Z Player.height)) with 60%Z in Hc.
  cbn [Z.eqb orb] in Hc.
  apply andb_prop in Hc. destruct Hc as [Hc _].
  apply andb_prop in Hc. destruct Hc as [Hc _].
  apply andb_prop in Hc. destruct Hc as [_ Hc].
  apply Z.ltb_lt in Hc.
  change (Z.max 350 (350 + 200)) with 550%Z in Hc. lia.
Qed.

Section Finish.

Variable sin : Q -> Q.

(** Frames after the round has ended change nothing. *)
Lemma frames_complete keys g :
  Game.state g = Game.STATE_LEVEL_COMPLETE ->
  Run.frames sin keys g = g.
Proof.
  induction keys as [|k rest IH]; intros Hs; cbn; [reflexivity|].
  unfold Game.update at 2. rewrite Hs. apply IH. exact Hs.
Qed.

Lemma before_finish_frame keys g :
  let gf := Game.before_finish sin keys g in
  Level.finish_line (Game.level gf) = Level.finish_line (Game.level g).
Proof.
  cbv zeta. unfold Game.before_finish, Game.follow. cbn.
  pose proof (collect_powerup_frame
                (Game.bridge_or_fall (Game.before_gap sin keys g))) as C.
  pose proof (bridge_or_fall_frame (Game.before_gap sin keys g)) as F.
  pose proof (before_gap_frame sin keys g) as B.
  cbv zeta in C, F, B.
  destruct C as (_ & _ & -> & _). destruct F as (_ & -> & _).
  destruct B as (_ & -> & _). reflexivity.
Qed.

End Finish.

(** Every level of a session carries the generated finish line. *)
Lemma reachable_finish_line sin g :
  Run.reachable sin g ->
  Level.finish_line (Game.level g) = Some Level.finish.
Proof.
  induction 1 as [generated tiles power_ups high_score
                 | keys g _ IH
                 | written generated tiles power_ups event g _ IH].
  - reflexivity.
  - destruct (Game.State_eqb (Game.state g) Game.STATE_PLAYING) eqn:S.
    + assert (Hs : Game.state g = Game.STATE_PLAYING)
        by (destruct (Game.state g); try discriminate; reflexivity).
      pose proof (update_after_gap sin keys g Hs) as U. cbv zeta in U.
      destruct U as (_ & _ & -> & _).
      pose proof (bridge_or_fall_frame (Game.before_gap sin keys g)) as F.
      cbv zeta in F. destruct F as (_ & -> & _).
      pose proof (before_gap_frame sin keys g) as B. cbv zeta in B.
      destruct B as (_ & -> & _). exact IH.
    + assert (Hs : Game.state g <> Game.STATE_PLAYING)
        by (intros E; rewrite E in S; discriminate).
      destruct (update_idle sin keys g Hs) as (_ & -> & _). exact IH.
  - revert IH.
    unfold Game.handle_event, Game._restart_game, Game._save_high_score.
    destruct event as [|key|]; cbn -[Z.gtb]; auto.
    + repeat match goal with
             | |- context [match Game.state g with _ => _ end] =>
                 destruct (Game.state g)
             | |- context [Player.jump ?p] => destruct (Player.jump p)
             | |- context [if ?c then _ else _] => destruct c
             | |- _ => progress cbn -[Z.gtb]
             end; auto.
    + destruct (Game.state g); cbn; auto.
Qed.

(** The finish-line and fall-off blocks on a frame that has reached the
    generated finish line. *)
Lemma finish_block gf :
  Level.finish_line (Game.level gf) = Some Level.finish ->
  Level.check_finish_line (Game.level gf) (Game.player gf) = true ->
  Game.state (Game.fell_off (Game.finish gf)) = Game.STATE_LEVEL_COMPLETE
  /\ Game.score (Game.fell_off (Game.finish gf))
     = (Game.score gf + Game.bonus gf)%Z.
Proof.
  intros Hline Hfin.
  assert (Hy : Qltb (inject_Z (config.SCREEN_HEIGHT + 200))
                    (Player.y (Game.player gf)) = false).
  { apply finish_in_sight. unfold Level.check_finish_line in Hfin.
    rewrite Hline in Hfin.
    destruct (pygame.colliderect _ _); [reflexivity|discriminate]. }
  unfold Game.fell_off, Game.finish. rewrite Hfin. cbv zeta.
  cbn [Game.player Game.set_score Game.play_sound Game.set_state].
  rewrite Hy. destruct gf; split; reflexivity.
Qed.

(** C7. In a playing frame on a level with the generated finish line, if
    the actor's rectangle meets the finish line's when the finish-line
    block is reached, the frame ends in [STATE_LEVEL_COMPLETE] with the
    score raised by the bonus, once; over any further frames the state and
    the score stay as they are. *)
Theorem finish_bonus_once sin keys g :
  Game.state g = Game.STATE_PLAYING ->
  Level.finish_line (Game.level g) = Some Level.finish ->
  let gf := Game.before_finish sin keys g in
  let g' := Game.update sin keys g in
  Level.check_finish_line (Game.level gf) (Game.player gf) = true ->
  Game.state g' = Game.STATE_LEVEL_COMPLETE
  /\ Game.score g' = (Game.score gf + Game.bonus gf)%Z
  /\ forall later,
       Game.state (Run.frames sin later g') = Game.STATE_LEVEL_COMPLETE
       /\ Game.score (Run.frames sin later g') = Game.score g'.
Proof.
  intros Hs Hline. cbv zeta. intros Hfin.
  pose proof (before_finish_frame sin keys g) as Hfl. cbv zeta in Hfl.
  rewrite Hline in Hfl.
  destruct (finish_block _ Hfl Hfin) as [H1 H2].
  rewrite <- (update_playing sin keys g Hs) in H1, H2.
  split; [exact H1|]. split; [exact H2|].
  intros later. rewrite (frames_complete sin later _ H1).
  split; [exact H1 | reflexivity].
Qed.

Lemma finish_bonus_once_witness :
  let g' := Game.update Inputs.flat Inputs.no_keys Inputs.at_finish in
  Game.state g' = Game.STATE_LEVEL_COMPLETE
  /\ Game.score g' = 10050%Z.
Proof.
  cbv zeta.
  destruct (finish_bonus_once Inputs.flat Inputs.no_keys Inputs.at_finish)
    as (H1 & H2 & _).
  - reflexivity.
  - reflexivity.
  - reflexivity.
  - split; [exact H1|]. rewrite H2. reflexivity.
Defined.

(** ** Speed and load *)

Lemma update_vel_x keys player :
  Player.vel_x (Player.update keys player)
  = if keys pygame.K_RIGHT || keys pygame.K_d then Player.base_speed player
    else if keys pygame.K_LEFT || keys pygame.K_a
         then - Player.base_speed player
         else 0.
Proof.
  unfold Player.update, Player.jump. cbv zeta.
  repeat match goal with
         | |- context [Player.tick ?f ?n] => destruct (Player.tick f n)
         | |- context [if ?c then _ else _] => destruct c
         end; reflexivity.
Qed.

(** The speed is linear in the count: 5 - n/8, times 1.5 under the boost. *)
Lemma base_speed_linear player :
  Player.base_speed player
  == (if Player.speed_boost player then 1.5 else 1)
     * (5 - inject_Z (Player.tile_count player) / 8).
Proof.
  unfold Player.base_speed, Player.speed, Player.max_tiles.
  change (inject_Z (20 * 2)) with 40.
  destruct (Player.speed_boost player); field.
Qed.

Lemma inject_Z_bounds n :
  (0 <= n <= 20)%Z -> 0 <= inject_Z n /\ inject_Z n <= 20.
Proof.
  intros [H0 H20]. split.
  - change 0 with (inject_Z 0). rewrite <- Zle_Qle. exact H0.
  - change 20 with (inject_Z 20). rewrite <- Zle_Qle. exact H20.
Qed.

Lemma speed_after_moving keys player :
  moving keys = true ->
  (0 <= Player.tile_count player <= 20)%Z ->
  speed_after keys player == Player.base_speed player.
Proof.
  intros Hm Hb. unfold speed_after. rewrite update_vel_x.
  assert (Hpos : 0 <= Player.base_speed player).
  { rewrite base_speed_linear.
    destruct (inject_Z_bounds _ Hb) as [H0 H20].
    unfold Qdiv. change (/ 8) with (1 # 8).
    destruct (Player.speed_boost player); lra. }
  unfold moving in Hm.
  destruct (keys pygame.K_RIGHT || keys pygame.K_d) eqn:R.
  - apply Qabs_pos. exact Hpos.
  - destruct (keys pygame.K_LEFT || keys pygame.K_a) eqn:L.
    + rewrite Qabs_opp. apply Qabs_pos. exact Hpos.
    + apply orb_false_elim in R. destruct R as [R1 R2].
      apply orb_false_elim in L. destruct L as [L1 L2].
      rewrite ?R1, ?R2, ?L1, ?L2 in Hm. discriminate.
Qed.

(** C9, as stated, fails: with no direction key held the speed after
    [update] is 0 at every count, so it is not strictly less at the larger
    of two counts. *)
Lemma speed_idle_not_decreasing :
  let light := Inputs.player_at 0 0 0 0 true 0 3 in
  let heavy := Inputs.player_at 0 0 0 0 true 0 12 in
  Player.speed_boost light = Player.speed_boost heavy
  /\ (0 <= Player.tile_count light < Player.tile_count heavy)%Z
  /\ (Player.tile_count heavy <= 20)%Z
  /\ ~ speed_after Inputs.no_keys heavy < speed_after Inputs.no_keys light.
Proof.
  cbv zeta. split; [reflexivity|]. split; [cbn; lia|]. split; [cbn; lia|].
  vm_compute. discriminate.
Qed.

(** C9, amended. With a direction key held and the same speed boost, the
    speed after [update] is the linear function 5 - n/8 of the count n
    (times 1.5 under the boost), and for counts n1 < n2 in [0, 20] it is
    strictly less at n2 than at n1. *)
Theorem speed_decreases_with_load keys light heavy :
  moving keys = true ->
  Player.speed_boost light = Player.speed_boost heavy ->
  (0 <= Player.tile_count light < Player.tile_count heavy)%Z ->
  (Player.tile_count heavy <= 20)%Z ->
  speed_after keys heavy < speed_after keys light
  /\ speed_after keys light
     == (if Player.speed_boost light then 1.5 else 1)
        * (5 - inject_Z (Player.tile_count light) / 8)
  /\ speed_after keys heavy
     == (if Player.speed_boost heavy then 1.5 else 1)
        * (5 - inject_Z (Player.tile_count heavy) / 8).
Proof.
  intros Hm Hboost Hlt Hmax.
  assert (Hl : speed_after keys light == Player.base_speed light)
    by (apply speed_after_moving; [exact Hm | lia]).
  assert (Hh : speed_after keys heavy == Player.base_speed heavy)
    by (apply speed_after_moving; [exact Hm | lia]).
  rewrite Hl, Hh, !base_speed_linear, <- Hboost.
  split; [|split; reflexivity].
  assert (Hq : inject_Z (Player.tile_count light)
               < inject_Z (Player.tile_count heavy))
    by (rewrite <- Zlt_Qlt; lia).
  unfold Qdiv. change (/ 8) with (1 # 8).
  destruct (Player.speed_boost light); lra.
Qed.

Lemma speed_decreases_with_load_witness :
  let light := Inputs.player_at 0 0 0 0 true 0 3 in
  let heavy := Inputs.player_at 0 0 0 0 true 0 12 in
  speed_after Inputs.hold_right heavy < speed_after Inputs.hold_right light.
Proof.
  cbv zeta.
  apply (speed_decreases_with_load Inputs.hold_right
           (Inputs.player_at 0 0 0 0 true 0 3)
           (Inputs.player_at 0 0 0 0 true 0 12)).
  - reflexivity.
  - reflexivity.
  - cbn. lia.
  - cbn. lia.
Defined.

(** ** Tiles *)

Lemma nth_error_replaced {A} (l : list A) i j (a b c : A) :
  nth_error l i = Some a ->
  nth_error l j = Some b ->
  nth_error (firstn i l ++ c :: skipn (S i) l) j
  = Some (if Nat.eqb i j then c else b).
Proof.
  revert i j. induction l as [|x l IH]; intros [|i] [|j]; cbn;
    try discriminate; auto.
Qed.

(** A collected tile stays collected through the collection loop. *)
Lemma collect_first_keeps player_rect tiles i tile :
  nth_error tiles i = Some tile ->
  Tile.collected tile = true ->
  exists tile',
    nth_error (fst (Level.collect_first player_rect tiles)) i = Some tile'
    /\ Tile.collected tile' = true.
Proof.
  intros Hn Hc.
  destruct (collect_first_cases player_rect tiles)
    as [[_ ->] | (j & t & Hj & _ & _ & _ & ->)].
  - eauto.
  - rewrite (nth_error_replaced tiles j i t tile _ Hj Hn).
    destruct (Nat.eqb j i); eauto.
Qed.

Section Tiles.

Variable sin : Q -> Q.

(** A collected tile stays collected through a frame. *)
Lemma update_keeps_collected keys i g :
  collected_at i g -> collected_at i (Game.update sin keys g).
Proof.
  intros (tile & Hn & Hc). unfold collected_at.
  destruct (Game.State_eqb (Game.state g) Game.STATE_PLAYING) eqn:S.
  - assert (Hs : Game.state g = Game.STATE_PLAYING)
      by (destruct (Game.state g); try discriminate; reflexivity).
    pose proof (update_after_gap sin keys g Hs) as U. cbv zeta in U.
    destruct U as (_ & -> & _).
    pose proof (bridge_or_fall_frame (Game.before_gap sin keys g)) as F.
    cbv zeta in F. destruct F as (-> & _).
    unfold Game.before_gap.
    pose proof (collect_tile_frame (Game.advance sin keys g)) as C.
    cbv zeta in C. destruct C as (_ & _ & -> & _).
    pose proof (advance_frame sin keys g) as A. cbv zeta in A.
    destruct A as (_ & _ & A3 & _). rewrite A3.
    apply collect_first_keeps with (tile := Tile.update sin tile).
    + rewrite nth_error_map, Hn. reflexivity.
    + exact Hc.
  - assert (Hs : Game.state g <> Game.STATE_PLAYING)
      by (intros E; rewrite E in S; discriminate).
    destruct (update_idle sin keys g Hs) as (_ & -> & _). eauto.
Qed.

Lemma frames_keep_collected later : forall i g,
  collected_at i g -> collected_at i (Run.frames sin later g).
Proof.
  induction later as [|keys rest IH]; intros i g H; cbn; [exact H|].
  apply IH. apply update_keeps_collected. exact H.
Qed.

End Tiles.

(** C10. In a playing frame of an actor holding 20 tiles whose rectangle,
    after the move, meets an uncollected tile: the collection block flags
    one such tile (the first in list order) and no other, adds 10 to the
    score and leaves the count at 20; and that tile is still flagged after
    the frame and after any number of further frames. *)
Theorem full_stack_consumes_tile sin keys g :
  Game.state g = Game.STATE_PLAYING ->
  Player.tile_count (Game.player g) = 20%Z ->
  let g1 := Game.advance sin keys g in
  let g2 := Game.collect_tile g1 in
  existsb (collectable (Game.player g1)) (Level.tiles (Game.level g1)) = true ->
  exists i tile,
    nth_error (Level.tiles (Game.level g1)) i = Some tile
    /\ collectable (Game.player g1) tile = true
    /\ Level.tiles (Game.level g2)
       = firstn i (Level.tiles (Game.level g1))
         ++ Tile.set_collected tile true
         :: skipn (S i) (Level.tiles (Game.level g1))
    /\ Player.tile_count (Game.player g2) = 20%Z
    /\ Game.score g2 = (Game.score g + 10)%Z
    /\ forall later,
         collected_at i (Run.frames sin later (Game.update sin keys g)).
Proof.
  intros Hs Hfull. cbv zeta. intros Hex.
  pose proof (advance_frame sin keys g) as A. cbv zeta in A.
  destruct A as (_ & _ & _ & A4 & A5 & _).
  pose proof (collect_tile_frame (Game.advance sin keys g)) as C.
  cbv zeta in C. destruct C as (_ & _ & C3 & _ & _ & C6 & C7).
  pose proof (collect_first_finds _ _ Hex) as Hsome.
  destruct (collect_first_cases
              (Player.get_rect (Game.player (Game.advance sin keys g)))
              (Level.tiles (Game.level (Game.advance sin keys g))))
    as [[Hnone _] | (i & tile & Hn & Hc & Ho & Hsnd & Hfst)];
    [contradiction|].
  rewrite Hsnd in C6, C7. rewrite Hfst in C3.
  exists i, tile.
  split; [exact Hn|].
  split; [unfold collectable; rewrite Hc, Ho; reflexivity|].
  split; [exact C3|].
  split.
  { rewrite C6. apply add_tile_full. rewrite A4. exact Hfull. }
  split; [rewrite C7, A5; reflexivity|].
  intros later. apply frames_keep_collected.
  unfold collected_at.
  pose proof (update_after_gap sin keys g Hs) as U. cbv zeta in U.
  destruct U as (_ & -> & _).
  pose proof (bridge_or_fall_frame (Game.before_gap sin keys g)) as F.
  cbv zeta in F. destruct F as (-> & _).
  unfold Game.before_gap. rewrite C3.
  exists (Tile.set_collected tile true).
  split; [|reflexivity].
  rewrite (nth_error_replaced _ i i tile tile _ Hn Hn), Nat.eqb_refl.
  reflexivity.
Qed.

Lemma full_stack_consumes_tile_witness :
  let g1 := Game.advance Inputs.flat Inputs.no_keys Inputs.full_stack in
  let g2 := Game.collect_tile g1 in
  exists i tile,
    nth_error (Level.tiles (Game.level g1)) i = Some tile
    /\ collectable (Game.player g1) tile = true
    /\ Level.tiles (Game.level g2)
       = firstn i (Level.tiles (Game.level g1))
         ++ Tile.set_collected tile true
         :: skipn (S i) (Level.tiles (Game.level g1))
    /\ Player.tile_count (Game.player g2) = 20%Z
    /\ Game.score g2 = (Game.score Inputs.full_stack + 10)%Z
    /\ forall later,
         collected_at i
           (Run.frames Inputs.flat later
              (Game.update Inputs.flat Inputs.no_keys Inputs.full_stack)).
Proof.
  apply (full_stack_consumes_tile Inputs.flat Inputs.no_keys Inputs.full_stack).
  - reflexivity.
  - reflexivity.
  - reflexivity.
Defined.

(** ** One frame of the player, step by step *)

(** [Player.update] is its six steps in sequence. *)
Lemma update_steps keys player :
  Player.update keys player
  = Steps.run_timers
      (Steps.count_down
         (Steps.move
            (Steps.leap keys (Steps.weigh (Steps.steer keys player))))).
Proof. exact_no_check (eq_refl (Player.update keys player)). Qed.

(** What each step writes. *)
Lemma steer_writes keys player :
  exists vx face,
    Steps.steer keys player
    = Player.set_facing_right (Player.set_vel_x player vx) face.
Proof.
  exists (Player.vel_x (Steps.steer keys player)),
         (Player.facing_right (Steps.steer keys player)).
  destruct player. unfold Steps.steer. cbv zeta.
  destruct (keys pygame.K_LEFT || keys pygame.K_a);
    destruct (keys pygame.K_RIGHT || keys pygame.K_d); reflexivity.
Qed.

Lemma run_timers_writes player :
  Steps.run_timers player
  = let '(sb, sbt) := Player.tick (Player.speed_boost player)
                                  (Player.speed_boost_timer player) in
    let '(jb, jbt) := Player.tick (Player.jump_boost player)
                                  (Player.jump_boost_timer player) in
    let '(tm, tmt) := Player.tick (Player.tile_magnet player)
                                  (Player.tile_magnet_timer player) in
    Player.set_tile_magnet
      (Player.set_jump_boost (Player.set_speed_boost player sb sbt) jb jbt)
      tm tmt.
Proof.
  destruct player as [x y vx vy ground safety count sb sbt jb jbt tm tmt face].
  unfold Steps.run_timers. cbn -[Player.tick].
  destruct (Player.tick sb sbt); cbn -[Player.tick].
  destruct (Player.tick jb jbt); cbn -[Player.tick].
  destruct (Player.tick tm tmt); reflexivity.
Qed.


(** ** Jumps *)

(** X1. A frame with a jump key held and the actor on the ground: the
    actor leaves the frame in the air with [vel_y] at the jump power (-15,
    or 1.3 times that under the jump boost), two pixels higher before the
    velocity is added, and 9 on the safety counter. *)
Theorem update_jumps keys player :
  Player.on_ground player = true ->
  jumping keys = true ->
  let player' := Player.update keys player in
  Player.vel_y player'
  = (if Player.jump_boost player then Player.jump_power * 1.3
     else Player.jump_power)
  /\ Player.on_ground player' = false
  /\ Player.jump_safety player' = 9%Z
  /\ Player.y player' = Player.y player - 2 + Player.vel_y player'.
Proof.
  intros Hg Hj. unfold jumping in Hj. cbv zeta.
  rewrite update_steps, run_timers_writes.
  destruct (steer_writes keys player) as (vx & face & ->).
  destruct player as [x y vx0 vy ground safety count sb sbt jb jbt tm tmt face0].
  cbn in Hg. subst ground.
  unfold Steps.weigh, Steps.leap, Steps.move, Steps.count_down, Player.jump.
  cbn -[Player.tick Z.gtb]. rewrite Hj. cbn -[Player.tick].
  destruct (Player.tick sb sbt); cbn -[Player.tick].
  destruct jb; cbn -[Player.tick];
    destruct (Player.tick _ jbt); cbn -[Player.tick];
    destruct (Player.tick tm tmt); cbn; auto.
Qed.

Lemma update_jumps_witness :
  let player' :=
    Player.update Samples.hold_jump (Inputs.player_at 100 520 0 0 true 0 0) in
  Player.vel_y player' = Player.jump_power
  /\ Player.on_ground player' = false
  /\ Player.jump_safety player' = 9%Z.
Proof.
  cbv zeta.
  destruct (update_jumps Samples.hold_jump
              (Inputs.player_at 100 520 0 0 true 0 0))
    as (H1 & H2 & H3 & _); [reflexivity | reflexivity |].
  split; [exact H1|]. split; [exact H2 | exact H3].
Defined.

Lemma set_player_same g : Game.set_player g (Game.player g) = g.
Proof. destruct g; reflexivity. Qed.

(** X2. A jump key pressed during play makes an actor on the ground jump
    once and plays "jump" once, although both [Game.handle_event] and
    [Player.handle_event] call [jump]; pressed while the actor is in the
    air it changes nothing. *)
Theorem jump_key_in_play written fresh key g :
  Game.state g = Game.STATE_PLAYING ->
  Game.is_jump_key key = true ->
  fst (Game.handle_event written fresh (pygame.KEYDOWN key) g)
  = if Player.on_ground (Game.player g)
    then Game.play_sound
           (Game.set_player g (fst (Player.jump (Game.player g)))) "jump"
    else g.
Proof.
  intros Hs Hk.
  assert (He : pygame.Key_eqb key pygame.K_ESCAPE = false)
    by (destruct key; try discriminate; reflexivity).
  assert (Hp : pygame.Key_eqb key pygame.K_p = false)
    by (destruct key; try discriminate; reflexivity).
  destruct g as [player level state state_timer score timer high camera sounds].
  cbn in Hs. subst state.
  unfold Game.handle_event, Player.handle_event.
  rewrite He, Hp, Hk. unfold Game.is_jump_key in Hk.
  unfold Player.jump. cbn.
  destruct (Player.on_ground player) eqn:G; cbn; rewrite Hk; cbn;
    rewrite ?G; reflexivity.
Qed.

Lemma jump_key_in_play_witness :
  Player.on_ground
    (Game.player
       (fst (Game.handle_event true Inputs.course
               (pygame.KEYDOWN pygame.K_SPACE) Samples.standing))) = false
  /\ Game.sounds
       (fst (Game.handle_event true Inputs.course
               (pygame.KEYDOWN pygame.K_SPACE) Samples.standing))
     = ["jump"%string].
Proof.
  rewrite (jump_key_in_play true Inputs.course pygame.K_SPACE Samples.standing)
    by reflexivity.
  split; reflexivity.
Defined.

(** ** Power-up timers *)

Lemma update_timers keys player :
  let player' := Player.update keys player in
  (Player.speed_boost player', Player.speed_boost_timer player')
  = Player.tick (Player.speed_boost player) (Player.speed_boost_timer player)
  /\ (Player.jump_boost player', Player.jump_boost_timer player')
     = Player.tick (Player.jump_boost player) (Player.jump_boost_timer player)
  /\ (Player.tile_magnet player', Player.tile_magnet_timer player')
     = Player.tick (Player.tile_magnet player)
                   (Player.tile_magnet_timer player).
Proof.
  cbv zeta. rewrite update_steps, run_timers_writes.
  destruct (steer_writes keys player) as (vx & face & ->).
  destruct player as [x y vx0 vy ground safety count sb sbt jb jbt tm tmt face0].
  unfold Steps.weigh, Steps.leap, Steps.move, Steps.count_down, Player.jump.
  cbn -[Player.tick Z.gtb].
  destruct ground; cbn -[Player.tick Z.gtb];
    destruct (keys pygame.K_SPACE || keys pygame.K_UP || keys pygame.K_w);
    cbn -[Player.tick Z.gtb];
    destruct (_ >? 0)%Z; cbn -[Player.tick];
    destruct (Player.tick sb sbt); cbn -[Player.tick];
    destruct (Player.tick jb jbt); cbn -[Player.tick];
    destruct (Player.tick tm tmt); cbn; auto.
Qed.

Lemma fold_left_step (A B : Type) (f : A -> B -> A) b l a :
  fold_left f (b :: l) a = fold_left f l (f a b).
Proof. reflexivity. Qed.

Lemma player_frames_cons k rest player :
  player_frames (k :: rest) player = player_frames rest (Player.update k player).
Proof. unfold player_frames. rewrite fold_left_step. reflexivity. Qed.

Section Timer.

(** Any of the three timed flags, read off the player. *)
Variable timer_of : Player.t -> bool * Z.
Hypothesis timer_ticks : forall keys player,
  timer_of (Player.update keys player)
  = Player.tick (fst (timer_of player)) (snd (timer_of player)).

Lemma frames_flag_off keys : forall player,
  fst (timer_of player) = false ->
  fst (timer_of (player_frames keys player)) = false.
Proof.
  induction keys as [|k rest IH]; intros player H; [exact H|].
  rewrite player_frames_cons. apply IH. rewrite timer_ticks, H. reflexivity.
Qed.

(** A flag set with [n] on its timer is still set after [k] frames
    exactly when [k < n]. *)
Lemma frames_flag_on keys : forall player,
  fst (timer_of player) = true ->
  (0 < snd (timer_of player))%Z ->
  fst (timer_of (player_frames keys player))
  = (Z.of_nat (List.length keys) <? snd (timer_of player))%Z.
Proof.
  induction keys as [|k rest IH]; intros player Hf Ht.
  - cbn. rewrite Hf. symmetry. apply Z.ltb_lt. exact Ht.
  - rewrite player_frames_cons. cbn [List.length].
    pose proof (timer_ticks k player) as Hk. rewrite Hf in Hk.
    unfold Player.tick in Hk.
    destruct (snd (timer_of player) - 1 <=? 0)%Z eqn:E.
    + apply Z.leb_le in E.
      rewrite frames_flag_off by (rewrite Hk; reflexivity).
      symmetry. apply Z.ltb_ge. lia.
    + apply Z.leb_gt in E.
      rewrite IH by (rewrite Hk; cbn [fst snd]; [reflexivity || lia]).
      rewrite Hk. cbn [snd].
      destruct (Z.of_nat (List.length rest) <? snd (timer_of player) - 1)%Z
        eqn:F; symmetry.
      * apply Z.ltb_lt in F. apply Z.ltb_lt. lia.
      * apply Z.ltb_ge in F. apply Z.ltb_ge. lia.
Qed.

End Timer.

(** X3. Each power-up lasts 300 frames: after its activation the flag is
    still set after n calls of [Player.update], whatever the keys, exactly
    when n < 300. *)
Theorem boosts_last_300_frames keys player :
  Player.speed_boost (player_frames keys (Player.activate_speed_boost player))
  = (List.length keys <? 300)%nat
  /\ Player.jump_boost (player_frames keys (Player.activate_jump_boost player))
     = (List.length keys <? 300)%nat
  /\ Player.tile_magnet
       (player_frames keys (Player.activate_tile_magnet player))
     = (List.length keys <? 300)%nat.
Proof.
  assert (Hn : (Z.of_nat (List.length keys) <? 300)%Z
               = (List.length keys <? 300)%nat).
  { destruct (List.length keys <? 300)%nat eqn:E.
    - apply Nat.ltb_lt in E. apply Z.ltb_lt. lia.
    - apply Nat.ltb_ge in E. apply Z.ltb_ge. lia. }
  rewrite <- Hn.
  repeat split.
  - apply (frames_flag_on
             (fun p => (Player.speed_boost p, Player.speed_boost_timer p)));
      [intros k p; apply update_timers | reflexivity | reflexivity].
  - apply (frames_flag_on
             (fun p => (Player.jump_boost p, Player.jump_boost_timer p)));
      [intros k p; apply update_timers | reflexivity | reflexivity].
  - apply (frames_flag_on
             (fun p => (Player.tile_magnet p, Player.tile_magnet_timer p)));
      [intros k p; apply update_timers | reflexivity | reflexivity].
Qed.

(** ** The round state machine *)

Section Machine.

Variable sin : Q -> Q.

Lemma frames_cons k rest g :
  Run.frames sin (k :: rest) g = Run.frames sin rest (Game.update sin k g).
Proof. reflexivity. Qed.

Lemma frames_app front back g :
  Run.frames sin (front ++ back) g
  = Run.frames sin back (Run.frames sin front g).
Proof. unfold Run.frames. apply fold_left_app. Qed.

(** X4. The countdown: from a starting state with a positive
    [state_timer], n frames with n up to the timer leave the state starting
    while n is below the timer and make it playing at n equal to the timer
    (180 frames for a new or restarted game); player, level, score, timer
    and sounds are untouched. *)
Theorem starting_countdown keys : forall g,
  Game.state g = Game.STATE_STARTING ->
  (0 < Game.state_timer g)%Z ->
  (Z.of_nat (List.length keys) <= Game.state_timer g)%Z ->
  let g' := Run.frames sin keys g in
  Game.state g'
  = (if (Z.of_nat (List.length keys) <? Game.state_timer g)%Z
     then Game.STATE_STARTING else Game.STATE_PLAYING)
  /\ Game.state_timer g'
     = (Game.state_timer g - Z.of_nat (List.length keys))%Z
  /\ Game.player g' = Game.player g
  /\ Game.level g' = Game.level g
  /\ Game.score g' = Game.score g
  /\ Game.timer g' = Game.timer g
  /\ Game.sounds g' = Game.sounds g.
Proof.
  induction keys as [|k rest IH]; intros g Hs Ht Hn; cbv zeta.
  - cbn. rewrite Hs.
    assert (E : (0 <? Game.state_timer g)%Z = true) by (apply Z.ltb_lt; lia).
    rewrite E. repeat split; lia.
  - rewrite frames_cons. cbn [List.length] in *.
    assert (Hu : Game.update sin k g
                 = if (Game.state_timer g - 1 <=? 0)%Z
                   then Game.set_state
                          (Game.set_state_timer g (Game.state_timer g - 1))
                          Game.STATE_PLAYING
                   else Game.set_state_timer g (Game.state_timer g - 1)).
    { unfold Game.update. rewrite Hs. reflexivity. }
    destruct (Game.state_timer g - 1 <=? 0)%Z eqn:E.
    + apply Z.leb_le in E. assert (Hrest : rest = []).
      { destruct rest; [reflexivity|]. cbn [List.length] in Hn. lia. }
      subst rest. cbn [Run.frames fold_left List.length]. rewrite Hu.
      assert (F : (Z.of_nat 1 <? Game.state_timer g)%Z = false)
        by (apply Z.ltb_ge; lia).
      rewrite F. cbn. repeat split; lia.
    + apply Z.leb_gt in E.
      specialize (IH (Game.update sin k g)). rewrite Hu in *.
      cbn [Game.state Game.set_state_timer Game.state_timer Game.player
           Game.level Game.score Game.timer Game.sounds] in IH.
      destruct IH as (I1 & I2 & I3 & I4 & I5 & I6 & I7); [exact Hs|lia|lia|].
      rewrite I1, I2, I3, I4, I5, I6, I7.
      repeat split; try lia.
      destruct (Z.of_nat (List.length rest) <? Game.state_timer g - 1)%Z eqn:A;
        destruct (Z.of_nat (S (List.length rest)) <? Game.state_timer g)%Z eqn:B;
        try reflexivity.
      * apply Z.ltb_lt in A. apply Z.ltb_ge in B. lia.
      * apply Z.ltb_ge in A. apply Z.ltb_lt in B. lia.
Qed.

(** Outside the starting and playing states frames change nothing. *)
Lemma frames_frozen keys : forall g,
  Game.state g <> Game.STATE_STARTING ->
  Game.state g <> Game.STATE_PLAYING ->
  Run.frames sin keys g = g.
Proof.
  induction keys as [|k rest IH]; intros g H1 H2; [reflexivity|].
  rewrite frames_cons.
  assert (Hu : Game.update sin k g = g)
    by (unfold Game.update; destruct (Game.state g); congruence).
  rewrite Hu. apply IH; assumption.
Qed.

(** X5. Pause and resume: [K_p] during play pauses; after any number of
    frames a second [K_p] gives back exactly the state in which the first
    was pressed. *)
Theorem pause_resume written fresh written' fresh' keys g :
  Game.state g = Game.STATE_PLAYING ->
  let paused :=
    fst (Game.handle_event written fresh (pygame.KEYDOWN pygame.K_p) g) in
  Game.state paused = Game.STATE_PAUSED
  /\ fst (Game.handle_event written' fresh' (pygame.KEYDOWN pygame.K_p)
            (Run.frames sin keys paused)) = g.
Proof.
  intros Hs. cbv zeta.
  destruct g as [player level state state_timer score timer high camera sounds].
  cbn in Hs. subst state. cbn. split; [reflexivity|].
  rewrite frames_frozen by (cbn; discriminate). reflexivity.
Qed.

End Machine.

Lemma starting_countdown_witness :
  Game.state (Run.frames Inputs.flat (repeat Inputs.no_keys 180)
                (Game.init Inputs.course 0)) = Game.STATE_PLAYING.
Proof.
  destruct (starting_countdown Inputs.flat (repeat Inputs.no_keys 180)
              (Game.init Inputs.course 0)) as (H & _).
  - reflexivity.
  - reflexivity.
  - rewrite repeat_length. cbn. lia.
  - rewrite H, repeat_length. reflexivity.
Defined.

Lemma pause_resume_witness :
  fst (Game.handle_event true Inputs.course (pygame.KEYDOWN pygame.K_p)
         (Run.frames Inputs.flat [Inputs.hold_right; Inputs.no_keys]
            (fst (Game.handle_event true Inputs.course
                    (pygame.KEYDOWN pygame.K_p) Samples.standing))))
  = Samples.standing.
Proof.
  apply (pause_resume Inputs.flat true Inputs.course true Inputs.course
           [Inputs.hold_right; Inputs.no_keys] Samples.standing).
  reflexivity.
Defined.

(** X6. A jump key after the round has ended (game over or level
    complete) starts a new game on the fresh level: new player at (100,
    500), score and timer 0, countdown 180; the high score becomes the
    round's score if that is higher and the file was written. *)
Theorem restart_is_new_game written fresh key g :
  Game.state g = Game.STATE_GAME_OVER
  \/ Game.state g = Game.STATE_LEVEL_COMPLETE ->
  Game.is_jump_key key = true ->
  fst (Game.handle_event written fresh (pygame.KEYDOWN key) g)
  = Game.mk (Game.player (Game.init fresh 0)) fresh Game.STATE_STARTING 180 0 0
            (if written && (Game.score g >? Game.high_score g)%Z
             then Game.score g else Game.high_score g)
            0 (Game.sounds g).
Proof.
  intros Hs Hk.
  assert (He : pygame.Key_eqb key pygame.K_ESCAPE = false)
    by (destruct key; try discriminate; reflexivity).
  assert (Hp : pygame.Key_eqb key pygame.K_p = false)
    by (destruct key; try discriminate; reflexivity).
  destruct g as [player level state state_timer score timer high camera sounds].
  cbn in Hs. unfold Game.handle_event, Game._restart_game, Game._save_high_score.
  rewrite He, Hp, Hk. cbn -[Z.gtb].
  destruct Hs as [-> | ->]; cbn -[Z.gtb];
    destruct (score >? high)%Z; destruct written; reflexivity.
Qed.

Lemma restart_is_new_game_witness :
  Game.state
    (fst (Game.handle_event true Inputs.course (pygame.KEYDOWN pygame.K_SPACE)
            (Game.set_state Samples.standing Game.STATE_GAME_OVER)))
  = Game.STATE_STARTING.
Proof.
  rewrite (restart_is_new_game true Inputs.course pygame.K_SPACE
             (Game.set_state Samples.standing Game.STATE_GAME_OVER)).
  - reflexivity.
  - left. reflexivity.
  - reflexivity.
Defined.

(** ** The high score *)

Lemma blocks_high_score g :
  Game.high_score (Game.collect_tile g) = Game.high_score g
  /\ Game.high_score (Game.bridge_or_fall g) = Game.high_score g
  /\ Game.high_score (Game.collect_powerup g) = Game.high_score g
  /\ Game.high_score (Game.follow g) = Game.high_score g
  /\ Game.high_score (Game.finish g) = Game.high_score g
  /\ Game.high_score (Game.fell_off g) = Game.high_score g.
Proof.
  repeat split.
  - unfold Game.collect_tile, Level.check_tile_collection.
    destruct (Level.collect_first _ _) as [tiles [tile|]]; reflexivity.
  - unfold Game.bridge_or_fall.
    destruct (Qltb 2.0 _ && Level.check_gap _ _); [|reflexivity].
    destruct (_ >? _)%Z; reflexivity.
  - unfold Game.collect_powerup, Level.check_powerup_collision.
    destruct (Level.collect_first_powerup _ _) as [power_ups [[| |]|]];
      reflexivity.
  - unfold Game.finish. destruct (Level.check_finish_line _ _); reflexivity.
  - unfold Game.fell_off. destruct (Qltb _ _); reflexivity.
Qed.

Lemma update_high_score sin keys g :
  Game.high_score (Game.update sin keys g) = Game.high_score g.
Proof.
  unfold Game.update. destruct (Game.state g); try reflexivity.
  - cbv zeta. destruct (_ <=? _)%Z; reflexivity.
  - unfold Game.before_finish, Game.before_gap.
    destruct (blocks_high_score
                (Game.finish (Game.follow (Game.collect_powerup
                   (Game.bridge_or_fall (Game.collect_tile
                      (Game.advance sin keys g)))))))
      as (_ & _ & _ & _ & _ & ->).
    destruct (blocks_high_score
                (Game.follow (Game.collect_powerup
                   (Game.bridge_or_fall (Game.collect_tile
                      (Game.advance sin keys g))))))
      as (_ & _ & _ & _ & -> & _).
    destruct (blocks_high_score
                (Game.collect_powerup
                   (Game.bridge_or_fall (Game.collect_tile
                      (Game.advance sin keys g)))))
      as (_ & _ & _ & -> & _).
    destruct (blocks_high_score
                (Game.bridge_or_fall (Game.collect_tile
                   (Game.advance sin keys g))))
      as (_ & _ & -> & _).
    destruct (blocks_high_score (Game.collect_tile (Game.advance sin keys g)))
      as (_ & -> & _).
    destruct (blocks_high_score (Game.advance sin keys g)) as (-> & _).
    reflexivity.
Qed.

(** X7. The high score is saved on restart only: no frame changes it;
    an event changes it only when it restarts an ended round, the file is
    written and the round's score is higher, and then to that score. So it
    never decreases, and leaving with Escape or QUIT does not record the
    round's score. *)
Theorem high_score_saved_on_restart_only sin keys written fresh event g :
  Game.high_score (Game.update sin keys g) = Game.high_score g
  /\ Game.high_score (fst (Game.handle_event written fresh event g))
     = (if Session.restarts event g && written
           && (Game.score g >? Game.high_score g)%Z
        then Game.score g else Game.high_score g)
  /\ (Game.high_score g
      <= Game.high_score (fst (Game.handle_event written fresh event g)))%Z.
Proof.
  split; [apply update_high_score|].
  assert (H : Game.high_score (fst (Game.handle_event written fresh event g))
              = (if Session.restarts event g && written
                    && (Game.score g >? Game.high_score g)%Z
                 then Game.score g else Game.high_score g)).
  { destruct g as [player level state state_timer score timer high camera sounds].
    unfold Game.handle_event, Session.restarts, Game._restart_game,
      Game._save_high_score, Player.handle_event, Player.jump.
    destruct event as [|key|]; [reflexivity | | destruct state; reflexivity].
    destruct key, state, written; cbn -[Z.gtb];
      repeat match goal with
             | |- context [if ?c then _ else _] => destruct c; cbn -[Z.gtb]
             end; reflexivity. }
  split; [exact H|]. rewrite H.
  destruct (Session.restarts event g && written); cbn [andb]; [|lia].
  destruct (Game.score g >? Game.high_score g)%Z eqn:E; [|lia].
  rewrite Z.gtb_ltb in E. apply Z.ltb_lt in E. lia.
Qed.

(** X8. The transitions of the round: a frame keeps the state, or goes
    from starting to playing, or from playing to game over or level
    complete; an event keeps the state, or toggles playing and paused on
    [K_p], or restarts an ended round into starting. *)
Theorem state_transitions sin keys written fresh event g :
  let after_frame := Game.state (Game.update sin keys g) in
  let after_event :=
    Game.state (fst (Game.handle_event written fresh event g)) in
  (after_frame = Game.state g
   \/ (Game.state g = Game.STATE_STARTING
       /\ after_frame = Game.STATE_PLAYING)
   \/ (Game.state g = Game.STATE_PLAYING
       /\ (after_frame = Game.STATE_GAME_OVER
           \/ after_frame = Game.STATE_LEVEL_COMPLETE)))
  /\ (after_event = Game.state g
      \/ (event = pygame.KEYDOWN pygame.K_p
          /\ Game.state g = Game.STATE_PLAYING
          /\ after_event = Game.STATE_PAUSED)
      \/ (event = pygame.KEYDOWN pygame.K_p
          /\ Game.state g = Game.STATE_PAUSED
          /\ after_event = Game.STATE_PLAYING)
      \/ (Session.restarts event g = true
          /\ after_event = Game.STATE_STARTING)).
Proof.
  cbv zeta. split.
  - unfold Game.update. destruct (Game.state g) eqn:S; auto.
    + cbv zeta. destruct (_ <=? _)%Z; cbn; auto.
    + unfold Game.fell_off, Game.finish.
      destruct (Level.check_finish_line _ _); cbv zeta;
        destruct (Qltb _ _); cbn; auto 6.
      unfold Game.before_finish, Game.follow. cbn.
      pose proof (collect_powerup_frame
                    (Game.bridge_or_fall (Game.before_gap sin keys g))) as C.
      cbv zeta in C. destruct C as (_ & _ & _ & _ & -> & _).
      pose proof (bridge_or_fall_cases (Game.before_gap sin keys g)) as G.
      cbv zeta in G.
      pose proof (before_gap_frame sin keys g) as B. cbv zeta in B.
      destruct B as (_ & _ & B3 & _). rewrite S in B3.
      destruct G as [[_ ->] | [(_ & _ & _ & _ & -> & _) | (_ & _ & _ & _ & -> & _)]];
        rewrite ?B3; auto 6.
  - destruct g as [player level state state_timer score timer high camera sounds].
    unfold Game.handle_event, Session.restarts, Game._restart_game,
      Game._save_high_score, Player.handle_event, Player.jump.
    destruct event as [|key|]; [auto | | destruct state; auto].
    destruct key, state; cbn -[Z.gtb];
      repeat match goal with
             | |- context [if ?c then _ else _] => destruct c; cbn -[Z.gtb]
             end; auto 8.
Qed.


(** ** More on the collision resolver *)

Lemma first_above_in player platforms platform :
  Level.first_above player platforms = Some platform ->
  In platform platforms /\ Level.above player platform = true.
Proof.
  induction platforms as [|first rest IH]; cbn; [discriminate|].
  destruct (Level.above player first) eqn:E.
  - intros [= <-]. auto.
  - intros H. destruct (IH H). auto.
Qed.



Section DoubleGrounded.

Variable player_rect : pygame.Rect.
Variable all : list Platform.t.

Lemma double_resolve_grounded player platform :
  In platform all -> Doubles.grounded_at all player ->
  Doubles.grounded_at all (Doubles.resolve player_rect player platform).
Proof.
  intros Hin Hst. unfold Doubles.resolve.
  destruct (Doubles.hit_side player_rect player platform) as [side|] eqn:E;
    [|exact Hst].
  apply double_hit_side_velocity in E. unfold Doubles.grounded_at in *.
  destruct side; cbn [Doubles.push_out Player.on_ground Player.y Player.vel_y
                      Player.set_x Player.set_y Player.set_vel_x
                      Player.set_vel_y Player.set_on_ground].
  - intros Hg. destruct (Hst Hg) as (pl & _ & _ & Hv). rewrite Hv in E.
    discriminate.
  - exact Hst.
  - exact Hst.
  - intros _. exists platform. split; [exact Hin|]. split; reflexivity.
Qed.

Lemma double_loop_grounded platforms : forall player,
  (forall platform, In platform platforms -> In platform all) ->
  Doubles.grounded_at all player ->
  Doubles.grounded_at all (fold_left (Doubles.resolve player_rect) platforms player).
Proof.
  induction platforms as [|platform rest IH]; intros player Hsub Hst; cbn.
  - exact Hst.
  - apply IH.
    + intros pl Hin. apply Hsub. right. exact Hin.
    + apply double_resolve_grounded;
        [apply Hsub; left; reflexivity | exact Hst].
Qed.

End DoubleGrounded.

(** X9. Whenever [check_collision], in binary64 arithmetic and with all
    coordinates within 2^20 in magnitude, leaves the actor with the
    ground flag set, there is a platform of the list with the actor's [y]
    at the double [platform.y - height/2] the code assigns, the vertical
    velocity zero and the actor's bottom edge within 2^-29 of the
    platform's top; exactly on it when the platform's coordinates are
    integers. *)
Theorem grounded_on_platform self player :
  Doubles.in_range self player = true ->
  Player.on_ground (Doubles.check_collision self player) = true ->
  exists platform,
    In platform (Level.platforms self)
    /\ Player.y (Doubles.check_collision self player)
       = Doubles.sub (Platform.y platform) Doubles.half_height
    /\ Player.vel_y (Doubles.check_collision self player) = 0
    /\ Qabs (Doubles.bottom (Doubles.check_collision self player)
             - Platform.y platform) <= 1 # 2 ^ 29
    /\ (Doubles.integral platform = true ->
        Doubles.bottom (Doubles.check_collision self player)
        == Platform.y platform).
Proof.
  intros Hr Hg.
  assert (Hst : Doubles.grounded_at (Level.platforms self)
                  (Doubles.check_collision self player)).
  { unfold Doubles.check_collision, Doubles.passes.
    destruct (Doubles.first_above _ _) as [ground|] eqn:E.
    - intros _. apply double_first_above_in in E. destruct E as [Hin _].
      exists ground. split; [exact Hin|]. split; reflexivity.
    - pose proof (double_loop_grounded (Doubles.get_rect player)
                    (Level.platforms self) (Level.platforms self)
                    (Player.set_on_ground player false)
                    (fun _ H => H)) as L.
      assert (H0 : Doubles.grounded_at (Level.platforms self)
                     (Player.set_on_ground player false))
        by (intros H; discriminate H).
      specialize (L H0).
      destruct (Player.on_ground player && _ && Qeq_bool _ 0) eqn:C;
        [|exact L].
      intros H. cbn in H.
      apply andb_prop in C. destruct C as [C _].
      apply andb_prop in C. destruct C as [_ C].
      rewrite H in C. discriminate. }
  destruct (Hst Hg) as (platform & Hin & Hy & Hv).
  exists platform. split; [exact Hin|]. split; [exact Hy|].
  split; [exact Hv|].
  destruct (in_range_platform self player platform Hr Hin)
    as (Hx & Hpy & Hw & Hh).
  unfold Doubles.bottom. rewrite Hy, half_height_eq.
  pose proof (small_bounds _ Hpy) as By.
  split.
  - apply back_and_out; split; lra.
  - intros Hi. unfold Doubles.integral in Hi.
    repeat (apply andb_prop in Hi; destruct Hi as [Hi ?]).
    destruct (whole_Z _ Hpy) as (ky & Ey & Ky); [assumption|].
    change (2 ^ 20)%Z with 1048576%Z in *.
    assert (P53 : (2 ^ 53 = 9007199254740992)%Z) by reflexivity.
    rewrite (sub_Z _ 30 ky 30 Ey) by (try reflexivity; lia).
    rewrite (add_Z _ 30 (ky - 30) 30) by (try reflexivity; lia).
    rewrite Ey. replace (ky - 30 + 30)%Z with ky by lia. reflexivity.
Qed.


Lemma grounded_on_platform_witness :
  Doubles.in_range Inputs.course DoubleInputs.landing = true
  /\ Player.on_ground
       (Doubles.check_collision Inputs.course DoubleInputs.landing) = true
  /\ exists platform,
       In platform (Level.platforms Inputs.course)
       /\ Player.y (Doubles.check_collision Inputs.course DoubleInputs.landing)
          = Doubles.sub (Platform.y platform) Doubles.half_height.
Proof.
  split; [vm_compute; reflexivity|].
  split; [vm_compute; reflexivity|].
  destruct (grounded_on_platform Inputs.course DoubleInputs.landing)
    as (platform & Hin & Hy & _).
  - vm_compute. reflexivity.
  - vm_compute. reflexivity.
  - exists platform. split; [exact Hin | exact Hy].
Defined.


(** ** What the resolver leaves alone *)

Section Kept.

(** Any reading of the player that the five setters used by the resolver
    do not change. *)
Variable A : Type.
Variable keep : Player.t -> A.
Hypothesis keep_x : forall p v, keep (Player.set_x p v) = keep p.
Hypothesis keep_y : forall p v, keep (Player.set_y p v) = keep p.
Hypothesis keep_vel_x : forall p v, keep (Player.set_vel_x p v) = keep p.
Hypothesis keep_vel_y : forall p v, keep (Player.set_vel_y p v) = keep p.
Hypothesis keep_on_ground :
  forall p v, keep (Player.set_on_ground p v) = keep p.

Lemma push_out_keeps player platform side :
  keep (Level.push_out player platform side) = keep player.
Proof.
  destruct side; unfold Level.push_out;
    rewrite ?keep_on_ground, ?keep_vel_x, ?keep_vel_y, ?keep_x, ?keep_y;
    reflexivity.
Qed.

Lemma loop_keeps player_rect platforms : forall player,
  keep (fold_left (Level.resolve player_rect) platforms player) = keep player.
Proof.
  induction platforms as [|platform rest IH]; intros player; cbn;
    [reflexivity|].
  rewrite IH. unfold Level.resolve.
  destruct (Level.hit_side _ _ _); [apply push_out_keeps | reflexivity].
Qed.

Lemma check_collision_keeps self player :
  keep (Level.check_collision self player) = keep player.
Proof.
  unfold Level.check_collision, Level.passes.
  destruct (Level.first_above _ _).
  - unfold Level.land. rewrite keep_on_ground, keep_vel_y, keep_y.
    apply keep_on_ground.
  - destruct (_ && _ && Qeq_bool _ 0);
      rewrite ?keep_vel_y, loop_keeps; apply keep_on_ground.
Qed.

End Kept.

(** With no horizontal velocity the resolver keeps [x] and [vel_x]. *)
Lemma check_collision_keeps_x self player :
  Player.vel_x player == 0 ->
  Player.x (Level.check_collision self player) = Player.x player
  /\ Player.vel_x (Level.check_collision self player) = Player.vel_x player.
Proof.
  intros Hv. unfold Level.check_collision, Level.passes.
  destruct (Level.first_above _ _); [split; reflexivity|].
  destruct (loop_keeps_x (Player.get_rect player) (Level.platforms self)
              (Player.set_on_ground player false) Hv) as [Hx Hvx].
  destruct (_ && _ && Qeq_bool _ 0); cbn; rewrite Hx, Hvx; split; reflexivity.
Qed.

(** X11. [check_collision] changes position, velocity and the ground flag
    only: the safety counter, the tile count, the power-up flags and
    timers and the facing are those of the actor on entry; and an actor
    without horizontal velocity keeps its [x]. *)
Theorem check_collision_touches_motion_only self player :
  let player' := Level.check_collision self player in
  (Player.jump_safety player', Player.tile_count player',
   Player.speed_boost player', Player.speed_boost_timer player',
   Player.jump_boost player', Player.jump_boost_timer player',
   Player.tile_magnet player', Player.tile_magnet_timer player',
   Player.facing_right player')
  = (Player.jump_safety player, Player.tile_count player,
     Player.speed_boost player, Player.speed_boost_timer player,
     Player.jump_boost player, Player.jump_boost_timer player,
     Player.tile_magnet player, Player.tile_magnet_timer player,
     Player.facing_right player)
  /\ (Player.vel_x player == 0 ->
      Player.x player' = Player.x player
      /\ Player.vel_x player' = Player.vel_x player).
Proof.
  cbv zeta. split.
  - apply (check_collision_keeps _
             (fun p => (Player.jump_safety p, Player.tile_count p,
                        Player.speed_boost p, Player.speed_boost_timer p,
                        Player.jump_boost p, Player.jump_boost_timer p,
                        Player.tile_magnet p, Player.tile_magnet_timer p,
                        Player.facing_right p))); reflexivity.
  - apply check_collision_keeps_x.
Qed.

(** ** When the gap block stays idle *)

Lemma check_collision_jump_safety self player :
  Player.jump_safety (Level.check_collision self player)
  = Player.jump_safety player.
Proof.
  apply (check_collision_keeps _ Player.jump_safety); reflexivity.
Qed.

Lemma add_tile_keeps player :
  Player.jump_safety (Player.add_tile player) = Player.jump_safety player
  /\ Player.vel_x (Player.add_tile player) = Player.vel_x player.
Proof.
  unfold Player.add_tile. destruct (_ <? _)%Z; split; reflexivity.
Qed.

(** The player on entry to the gap block, by the readings the gap test
    makes. *)
Lemma before_gap_player sin keys g :
  let player := Game.player (Game.before_gap sin keys g) in
  let moved :=
    Level.check_collision (Level.update sin (Game.level g))
                          (Player.update keys (Game.player g)) in
  Player.jump_safety player = Player.jump_safety moved
  /\ Player.vel_x player = Player.vel_x moved
  /\ (Player.tile_count (Game.player g) <= Player.tile_count player)%Z.
Proof.
  cbv zeta. unfold Game.before_gap.
  pose proof (collect_tile_frame (Game.advance sin keys g)) as C.
  cbv zeta in C. destruct C as (_ & _ & _ & _ & _ & C6 & _).
  rewrite C6.
  pose proof (advance_frame sin keys g) as A. cbv zeta in A.
  destruct A as (_ & _ & _ & A4 & _).
  assert (Hp : Game.player (Game.advance sin keys g)
               = Level.check_collision (Level.update sin (Game.level g))
                   (Player.update keys (Game.player g))) by reflexivity.
  rewrite <- Hp.
  destruct (snd (Level.collect_first _ _)).
  - destruct (add_tile_keeps (Game.player (Game.advance sin keys g)))
      as [-> ->].
    repeat split. unfold Player.add_tile. rewrite <- A4.
    destruct (_ <? _)%Z; cbn; lia.
  - repeat split. rewrite A4. lia.
Qed.

Lemma gap_block_idle g :
  Level.check_gap (Game.level g) (Game.player g) = false ->
  Game.bridge_or_fall g = g.
Proof.
  intros H. unfold Game.bridge_or_fall. rewrite H, andb_false_r. reflexivity.
Qed.

(** A playing frame in which the gap block stays idle. *)
Lemma idle_gap_frame sin keys g :
  Game.state g = Game.STATE_PLAYING ->
  Level.check_gap (Game.level (Game.before_gap sin keys g))
                  (Game.player (Game.before_gap sin keys g)) = false ->
  let g' := Game.update sin keys g in
  Level.platforms (Game.level g') = Level.platforms (Game.level g)
  /\ (Player.tile_count (Game.player g)
      <= Player.tile_count (Game.player g'))%Z
  /\ Player.jump_safety (Game.player g')
     = Player.jump_safety (Game.player (Game.before_gap sin keys g))
  /\ (Game.state g' = Game.STATE_GAME_OVER ->
      inject_Z (config.SCREEN_HEIGHT + 200) < Player.y (Game.player g')).
Proof.
  intros Hs Hgap. cbv zeta.
  pose proof (update_after_gap sin keys g Hs) as U. cbv zeta in U.
  destruct U as (U1 & _ & _ & U4 & _).
  rewrite (gap_block_idle _ Hgap) in U1, U4.
  pose proof (before_gap_frame sin keys g) as B. cbv zeta in B.
  destruct B as (B1 & _ & B3 & _).
  pose proof (before_gap_player sin keys g) as P. cbv zeta in P.
  destruct P as (_ & _ & P3).
  rewrite U1, U4. split; [exact B1|]. split; [exact P3|].
  rewrite (update_playing sin keys g Hs).
  unfold Game.before_finish. rewrite (gap_block_idle _ Hgap).
  pose proof (collect_powerup_frame (Game.before_gap sin keys g)) as C.
  cbv zeta in C.
  assert (Hjs : Player.jump_safety
                  (Game.player (Game.collect_powerup
                                  (Game.before_gap sin keys g)))
                = Player.jump_safety
                    (Game.player (Game.before_gap sin keys g))).
  { unfold Game.collect_powerup, Level.check_powerup_collision.
    destruct (Level.collect_first_powerup _ _) as [power_ups [[| |]|]];
      reflexivity. }
  destruct (closing_blocks_frame
              (Game.collect_powerup (Game.before_gap sin keys g)))
    as [Hp _].
  rewrite Hp. split; [exact Hjs|].
  destruct C as (_ & _ & _ & _ & C5 & _).
  unfold Game.fell_off.
  destruct (Qltb _ _) eqn:F.
  - intros _. apply Qltb_iff in F.
    unfold Game.finish, Game.follow in *.
    destruct (Level.check_finish_line _ _); cbn in *; exact F.
  - unfold Game.finish, Game.follow.
    destruct (Level.check_finish_line _ _); cbn; [discriminate|].
    rewrite C5, B3, Hs. discriminate.
Qed.

(** X12. In a playing frame with no direction key held the gap block does
    nothing: no bridge is appended, no tile is spent, and the round can
    end in game over only by the actor being below the screen bound. *)
Theorem no_gap_without_direction sin keys g :
  Game.state g = Game.STATE_PLAYING ->
  moving keys = false ->
  let g' := Game.update sin keys g in
  Level.platforms (Game.level g') = Level.platforms (Game.level g)
  /\ (Player.tile_count (Game.player g)
      <= Player.tile_count (Game.player g'))%Z
  /\ (Game.state g' = Game.STATE_GAME_OVER ->
      inject_Z (config.SCREEN_HEIGHT + 200) < Player.y (Game.player g')).
Proof.
  intros Hs Hm.
  assert (Hgap : Level.check_gap (Game.level (Game.before_gap sin keys g))
                   (Game.player (Game.before_gap sin keys g)) = false).
  { pose proof (before_gap_player sin keys g) as P. cbv zeta in P.
    destruct P as (_ & Pv & _).
    assert (Hvx : Player.vel_x (Player.update keys (Game.player g)) = 0).
    { rewrite update_vel_x. unfold moving in Hm.
      destruct (keys pygame.K_LEFT), (keys pygame.K_a),
        (keys pygame.K_RIGHT), (keys pygame.K_d); cbn in *;
        try discriminate; reflexivity. }
    destruct (check_collision_keeps_x (Level.update sin (Game.level g))
                (Player.update keys (Game.player g))) as [_ Hk];
      [rewrite Hvx; reflexivity|].
    rewrite Hk, Hvx in Pv.
    unfold Level.check_gap. rewrite Pv.
    destruct (_ >? _)%Z; [reflexivity|].
    change (Qltb 0.5 (Qabs 0)) with false. rewrite andb_false_r. reflexivity. }
  pose proof (idle_gap_frame sin keys g Hs Hgap) as I. cbv zeta in I.
  cbv zeta. intuition.
Qed.

Lemma no_gap_without_direction_witness :
  Level.platforms
    (Game.level (Game.update Inputs.flat Inputs.no_keys Samples.airborne))
  = Level.platforms (Game.level Samples.airborne).
Proof.
  apply (no_gap_without_direction Inputs.flat Inputs.no_keys Samples.airborne);
    reflexivity.
Defined.

Lemma update_jump_safety keys player :
  (1 <= Player.jump_safety player <= 10)%Z ->
  (Player.jump_safety player - 1
   <= Player.jump_safety (Player.update keys player) <= 10)%Z.
Proof.
  rewrite update_steps, run_timers_writes.
  destruct (steer_writes keys player) as (vx & face & ->).
  destruct player as [x y vx0 vy ground safety count sb sbt jb jbt tm tmt face0].
  cbn [Player.jump_safety]. intros Hs.
  unfold Steps.weigh, Steps.leap, Steps.move, Steps.count_down, Player.jump.
  cbn -[Player.tick Z.gtb].
  destruct ground; cbn -[Player.tick Z.gtb];
    destruct (keys pygame.K_SPACE || keys pygame.K_UP || keys pygame.K_w);
    cbn -[Player.tick Z.gtb];
    try (destruct (safety >? 0)%Z eqn:E;
         [|rewrite Z.gtb_ltb in E; apply Z.ltb_ge in E; lia]);
    cbn -[Player.tick];
    destruct (Player.tick sb sbt); cbn -[Player.tick];
    destruct (Player.tick jb jbt); cbn -[Player.tick];
    destruct (Player.tick tm tmt); cbn; lia.
Qed.

Section Safety.

Variable sin : Q -> Q.

(** A frame entered with at least 2 on the safety counter. *)
Lemma safe_frame keys g :
  (2 <= Player.jump_safety (Game.player g) <= 10)%Z ->
  let g' := Game.update sin keys g in
  Level.platforms (Game.level g') = Level.platforms (Game.level g)
  /\ (Player.tile_count (Game.player g)
      <= Player.tile_count (Game.player g'))%Z
  /\ (Player.jump_safety (Game.player g) - 1
      <= Player.jump_safety (Game.player g') <= 10)%Z.
Proof.
  intros Hjs. cbv zeta.
  destruct (Game.State_eqb (Game.state g) Game.STATE_PLAYING) eqn:S.
  - assert (Hs : Game.state g = Game.STATE_PLAYING)
      by (destruct (Game.state g); try discriminate; reflexivity).
    pose proof (before_gap_player sin keys g) as P. cbv zeta in P.
    destruct P as (Pj & _ & _).
    rewrite check_collision_jump_safety in Pj.
    pose proof (update_jump_safety keys (Game.player g)) as Uj.
    assert (Hgap : Level.check_gap (Game.level (Game.before_gap sin keys g))
                     (Game.player (Game.before_gap sin keys g)) = false).
    { unfold Level.check_gap.
      destruct (_ >? _)%Z eqn:E; [reflexivity|].
      rewrite Z.gtb_ltb in E. apply Z.ltb_ge in E. lia. }
    pose proof (idle_gap_frame sin keys g Hs Hgap) as I. cbv zeta in I.
    destruct I as (I1 & I2 & I3 & _).
    split; [exact I1|]. split; [exact I2|]. rewrite I3, Pj. lia.
  - assert (Hs : Game.state g <> Game.STATE_PLAYING)
      by (intros E; rewrite E in S; discriminate).
    destruct (update_idle sin keys g Hs) as (-> & -> & _).
    repeat split; lia.
Qed.

(** X13. While the safety counter exceeds the number of frames run (and
    is at most 10, as [jump] sets it), those frames append no bridge and
    spend no tile: after a jump key event, which leaves 10 on the counter,
    that covers 9 frames. *)
Theorem gap_off_after_jump keys : forall g,
  (Z.of_nat (List.length keys) < Player.jump_safety (Game.player g) <= 10)%Z ->
  let g' := Run.frames sin keys g in
  Level.platforms (Game.level g') = Level.platforms (Game.level g)
  /\ (Player.tile_count (Game.player g)
      <= Player.tile_count (Game.player g'))%Z.
Proof.
  induction keys as [|k rest IH]; intros g Hn; cbv zeta.
  - cbn. split; [reflexivity | lia].
  - cbn [List.length] in Hn.
    change (Run.frames sin (k :: rest) g)
      with (Run.frames sin rest (Game.update sin k g)).
    destruct (safe_frame k g) as (F1 & F2 & F3); [lia|].
    destruct (IH (Game.update sin k g)) as (I1 & I2); [lia|].
    rewrite I1, F1. split; [reflexivity | lia].
Qed.

End Safety.

Lemma gap_off_after_jump_witness :
  Level.platforms
    (Game.level (Run.frames Inputs.flat (repeat Inputs.hold_right 9)
                   Samples.airborne))
  = Level.platforms (Game.level Samples.airborne).
Proof.
  apply (gap_off_after_jump Inputs.flat (repeat Inputs.hold_right 9)
           Samples.airborne).
  cbn. lia.
Defined.

(** ** A bridge under the probe *)

(** Truncation stays within 1 of its argument. *)
Lemma to_int_near q :
  inject_Z (pygame.to_int q) - 1 < q /\ q < inject_Z (pygame.to_int q) + 1.
Proof.
  destruct q as [a d]. unfold pygame.to_int, Qlt, Qminus, Qplus, Qopp, inject_Z.
  cbn [Qnum Qden].
  pose proof (Z.quot_rem' a (Zpos d)) as Hqr.
  assert (Habs : (Z.abs (Z.rem a (Zpos d)) < Zpos d)%Z).
  { pose proof (Z.rem_bound_abs a (Zpos d)) as H.
    assert (Hd : Zpos d <> 0%Z) by lia. specialize (H Hd). lia. }
  split; nia.
Qed.

Lemma wrap_fits z : CInt.fits_int z = true -> CInt.wrap z = z.
Proof.
  unfold CInt.fits_int, CInt.wrap. intros H.
  apply andb_prop in H. destruct H as [H1 H2].
  apply Z.leb_le in H1. apply Z.ltb_lt in H2.
  rewrite Z.mod_small; lia.
Qed.

(** On rectangles that fit, the C comparison is the one in [Z]. *)
Lemma colliderect_fits A B :
  CInt.fits A = true -> CInt.fits B = true ->
  CInt.colliderect A B = pygame.colliderect A B.
Proof.
  unfold CInt.fits. intros HA HB.
  repeat (apply andb_prop in HA; destruct HA as [HA ?]).
  repeat (apply andb_prop in HB; destruct HB as [HB ?]).
  unfold CInt.colliderect, pygame.colliderect. cbv zeta.
  rewrite !wrap_fits by assumption. reflexivity.
Qed.

(** With every rectangle in range, [check_gap] in C ints is [check_gap]
    in [Z]. *)
Lemma check_gap_fits self player :
  CInt.fits (CInt.ray_rect player) = true ->
  forallb (fun platform => CInt.fits (Platform.get_rect platform))
          (Level.platforms self) = true ->
  CInt.check_gap self player = Level.check_gap self player.
Proof.
  intros Hr Hall. unfold CInt.check_gap, Level.check_gap. cbv zeta.
  assert (E : existsb (fun platform =>
                         CInt.colliderect (CInt.ray_rect player)
                                          (Platform.get_rect platform))
                      (Level.platforms self)
              = existsb (fun platform =>
                           pygame.colliderect (CInt.ray_rect player)
                                              (Platform.get_rect platform))
                        (Level.platforms self)).
  { induction (Level.platforms self) as [|p rest IH]; [reflexivity|].
    cbn [existsb forallb] in *. apply andb_prop in Hall.
    destruct Hall as [Hp Hrest].
    rewrite (colliderect_fits _ _ Hr Hp), (IH Hrest). reflexivity. }
  unfold CInt.ray_rect in *. rewrite E. reflexivity.
Qed.

(** The probe below the actor meets the bridge built at its position. *)
Lemma probe_meets_bridge x y :
  let ray := pygame.Rect_ (x - 5) y 10 100 in
  let bridge := Platform.get_rect (Platform.mk (x - 20) (y + 20) 40 10) in
  CInt.fits ray = true -> CInt.fits bridge = true ->
  CInt.colliderect ray bridge = true.
Proof.
  cbv zeta. intros Hr Hb. rewrite (colliderect_fits _ _ Hr Hb).
  unfold pygame.colliderect, Platform.get_rect, pygame.Rect_.
  cbn [pygame.left pygame.top pygame.w pygame.h Platform.x Platform.y
       Platform.width Platform.height].
  change (pygame.to_int 10) with 10%Z. change (pygame.to_int 100) with 100%Z.
  change (pygame.to_int 40) with 40%Z.
  cbn [Z.eqb orb].
  destruct (to_int_near (x - 5)) as [A1 A2].
  destruct (to_int_near (x - 20)) as [B1 B2].
  destruct (to_int_near y) as [C1 C2].
  destruct (to_int_near (y + 20)) as [D1 D2].
  set (a := pygame.to_int (x - 5)) in *.
  set (b := pygame.to_int (x - 20)) in *.
  set (c := pygame.to_int y) in *.
  set (d := pygame.to_int (y + 20)) in *.
  assert (H1 : (a < b + 40)%Z).
  { rewrite Zlt_Qlt, inject_Z_plus. change (inject_Z 40) with 40. lra. }
  assert (H2 : (b < a + 10)%Z).
  { rewrite Zlt_Qlt, inject_Z_plus. change (inject_Z 10) with 10. lra. }
  assert (H3 : (c < d + 10)%Z).
  { rewrite Zlt_Qlt, inject_Z_plus. change (inject_Z 10) with 10. lra. }
  assert (H4 : (d < c + 100)%Z).
  { rewrite Zlt_Qlt, inject_Z_plus. change (inject_Z 100) with 100. lra. }
  repeat (apply andb_true_intro; split);
    first [apply Z.ltb_lt | rewrite Z.gtb_ltb; apply Z.ltb_lt]; lia.
Qed.

(** Beyond the range the sum of the bridge's left edge and width wraps,
    and the probe misses the bridge just built. *)
Lemma bridge_missed_out_of_range :
  CInt.check_gap
    (Level.build_bridge Inputs.void (Player.x CIntInputs.far_out)
                        (Player.y CIntInputs.far_out))
    CIntInputs.far_out
  = true.
Proof. vm_compute. reflexivity. Qed.

(** X14. Once [build_bridge] has appended a bridge at the actor's
    position, [check_gap] is false for the actor at that position, as
    long as the rectangles of the probe and of the platforms, the bridge
    among them, fit C ints: the probe below the actor meets the bridge. *)
Theorem bridge_silences_gap self player :
  let bridged :=
    Level.build_bridge self (Player.x player) (Player.y player) in
  CInt.fits (CInt.ray_rect player) = true ->
  forallb (fun platform => CInt.fits (Platform.get_rect platform))
          (Level.platforms bridged) = true ->
  CInt.check_gap bridged player = false.
Proof.
  cbv zeta. intros Hr Hall.
  unfold CInt.check_gap.
  destruct (_ >? _)%Z; [reflexivity|].
  destruct (Qltb 2.0 _ && negb _ && Qltb 0.5 _); [|reflexivity].
  match goal with |- (if ?e then false else true) = false =>
    assert (He : e = true); [|rewrite He; reflexivity] end.
  unfold Level.build_bridge in *.
  cbn [Level.platforms Level.set_platforms] in *.
  rewrite forallb_app in Hall. apply andb_prop in Hall.
  destruct Hall as [_ Hb]. cbn [forallb] in Hb. rewrite andb_true_r in Hb.
  rewrite existsb_app. apply orb_true_iff. right.
  cbn [existsb]. rewrite orb_false_r.
  apply (probe_meets_bridge (Player.x player) (Player.y player)); assumption.
Qed.

Lemma bridge_silences_gap_witness :
  CInt.check_gap
    (Level.build_bridge (Level.init [] [] []) (Player.x CIntInputs.falling)
                        (Player.y CIntInputs.falling))
    CIntInputs.falling
  = false
  /\ CInt.check_gap (Level.init [] [] []) CIntInputs.falling = true.
Proof.
  split; [|vm_compute; reflexivity].
  apply (bridge_silences_gap (Level.init [] [] []) CIntInputs.falling).
  - vm_compute. reflexivity.
  - vm_compute. reflexivity.
Defined.
